(** * Samstraumr diagram scripts: [bin/c4_diagrams.py] and
      [bin/port_interfaces_diagram.py]

    A shallow embedding of the two command-line scripts and the
    properties of their configuration handling, diagram construction,
    failure containment, batch running and entry points.

    The scripts print to standard output, create directories, and hand a
    declaratively built graph to the [diagrams] library.  The embedding
    threads a [World] (standard output, file system, the calls made to
    the rendering pipeline) through a small state-and-exception monad;
    diagram bodies run in a second small monad that mirrors the
    library's context managers. *)

From Stdlib Require Import String Ascii List ZArith Bool Lia.
From stdpp Require Import gmap strings list fin_maps pretty.

(** ** Python strings *)

(** [str.lower()].  The two domains tested by the scripts are plain
    ASCII words, and no character outside [A-Z] lowercases to one of
    their letters, so lowering the ASCII capitals decides the same
    membership tests as Python's Unicode-aware method. *)
Definition ascii_lower (c : ascii) : ascii :=
  let n := nat_of_ascii c in
  if (65 <=? n)%nat && (n <=? 90)%nat then ascii_of_nat (n + 32) else c.

Fixpoint lower (s : string) : string :=
  match s with
  | EmptyString => EmptyString
  | String c s' => String (ascii_lower c) (lower s')
  end.

(** [x in (a, b, c)] on a tuple of strings. *)
Definition py_in (x : string) (t : list string) : bool :=
  existsb (String.eqb x) t.

(** Truthiness of a string: [if s:] holds for the non-empty ones. *)
Definition truthy (s : string) : bool :=
  match s with EmptyString => false | String _ _ => true end.

(** ** [pathlib.Path] (POSIX flavour) *)

(** A path is its root ([""], ["/"] or ["//"]) and its components. *)
Record Path := mkPath { root : string; parts : list string }.

Fixpoint split_slash (s : string) : list string :=
  match s with
  | EmptyString => [EmptyString]
  | String c s' =>
      if Ascii.eqb c "/"%char then EmptyString :: split_slash s'
      else match split_slash s' with
           | [] => [String c EmptyString]
           | h :: t => String c h :: t
           end
  end.

Fixpoint leading_slashes (s : string) : nat :=
  match s with
  | String c s' => if Ascii.eqb c "/"%char then S (leading_slashes s') else 0
  | EmptyString => 0
  end.

(** POSIX keeps exactly two leading slashes apart from one or many. *)
Definition parse_root (s : string) : string :=
  match leading_slashes s with
  | 0 => ""
  | 2 => "//"
  | _ => "/"
  end.

Definition is_component (c : string) : bool :=
  negb (String.eqb c "") && negb (String.eqb c ".").

(** [Path(s)]: empty and ["."] components are dropped, [".."] is kept. *)
Definition Path_of (s : string) : Path :=
  {| root := parse_root s;
     parts := List.filter is_component (split_slash s) |}.

(** [str(p)] *)
Definition str (p : Path) : string :=
  match root p, parts p with
  | EmptyString, [] => "."
  | r, ps => r +:+ String.concat "/" ps
  end.

(** [p / s]: an absolute right operand replaces the left one. *)
Definition truediv (p : Path) (s : string) : Path :=
  let q := Path_of s in
  if String.eqb (root q) "" then
    {| root := root p; parts := parts p ++ parts q |}
  else q.

Notation "p // s" := (truediv p s) (at level 40, left associativity).

(** [name.rfind('.')]: index of the last dot. *)
Fixpoint rfind_dot (s : string) : option nat :=
  match s with
  | EmptyString => None
  | String c s' =>
      match rfind_dot s' with
      | Some i => Some (S i)
      | None => if Ascii.eqb c "."%char then Some 0 else None
      end
  end.

(** [PurePath.suffix] is [name[i:]] when [0 < i < len(name) - 1].
    [stem_of] is the name with that suffix removed. *)
Definition stem_of (name : string) : string :=
  match rfind_dot name with
  | Some i =>
      if (0 <? i)%nat && (i <? String.length name - 1)%nat
      then String.substring 0 i name
      else name
  | None => name
  end.

Fixpoint map_last {A} (f : A -> A) (l : list A) : list A :=
  match l with
  | [] => []
  | [x] => [f x]
  | x :: l' => x :: map_last f l'
  end.

(** [p.with_suffix("")].  Python raises [ValueError] on a path whose
    name is empty; the scripts only call it on [output_dir / file_name]
    with a non-empty file name (lemma [output_file_has_name] below), and
    the model leaves a nameless path as it is. *)
Definition with_suffix_empty (p : Path) : Path :=
  {| root := root p; parts := map_last stem_of (parts p) |}.

(** ** The file system *)

Inductive node_kind :=
| File
| Dir (writable : bool).

(** Entries are keyed by root and location: the names that lead from
    the root down to the entry.  A relative path starts at the working
    directory, whose root is [""]; the directories above the working
    directory are the locations [[".."]], [[".."; ".."]] and so on.  The
    root and the directories above the working directory always exist:
    where they have no entry, they are writable directories.  A
    directory is writable when the process may create entries in it.
    There are no symbolic links, and the file system does not say where
    under ["/"] the working directory lies: what a run reaches through
    relative paths and what it reaches through absolute paths are
    separate entries. *)
Abbreviation fs_key := (string * list string)%type.
Abbreviation FileSystem := (gmap fs_key node_kind).

Definition all_dotdot (loc : list string) : bool :=
  forallb (String.eqb "..") loc.

Definition node_at (fs : FileSystem) (r : string) (loc : list string)
    : option node_kind :=
  match fs !! (r, loc) with
  | Some n => Some n
  | None => if all_dotdot loc then Some (Dir true) else None
  end.

Definition root_node (fs : FileSystem) (r : string) : node_kind :=
  match fs !! (r, []) with
  | Some n => n
  | None => Dir true
  end.

(** The location above [loc].  The root of an absolute path is above
    itself. *)
Definition up (r : string) (loc : list string) : list string :=
  if all_dotdot loc then
    if String.eqb r "" then loc ++ [".."] else []
  else removelast loc.

(** Where the component [x] leads from the location [loc]. *)
Definition step (r : string) (loc : list string) (x : string) : list string :=
  if String.eqb x ".." then up r loc else loc ++ [x].

(** The root that the kernel starts from: it takes ["//"] for ["/"]. *)
Definition fs_root (p : Path) : string :=
  if String.eqb (root p) "" then "" else "/".

(** The location that a path names, every [".."] followed. *)
Definition locate (p : Path) : fs_key :=
  (fs_root p, fold_left (step (fs_root p)) (parts p) []).

(** ** Exceptions *)

Inductive exn :=
| SystemExit (code : Z)
| FileExistsError (path : string)
| FileNotFoundError (path : string)
| NotADirectoryError (path : string)
| PermissionError (path : string)
| OSError (errno : Z) (strerror : string) (path : string)
| ValueError (msg : string)
| RenderError (msg : string).

(** [isinstance(e, Exception)]: [SystemExit] derives from
    [BaseException] only. *)
Definition is_Exception (e : exn) : bool :=
  match e with
  | SystemExit _ => false
  | _ => true
  end.

(** [isinstance(e, OSError)] *)
Definition is_OSError (e : exn) : bool :=
  match e with
  | FileExistsError _ | FileNotFoundError _ | NotADirectoryError _
  | PermissionError _ | OSError _ _ _ => true
  | _ => false
  end.

(** [isinstance(e, FileNotFoundError)] *)
Definition is_FileNotFoundError (e : exn) : bool :=
  match e with
  | FileNotFoundError _ => true
  | _ => false
  end.

(** [str(e)], as interpolated by [f"...{e}"]. *)
Definition exn_str (e : exn) : string :=
  match e with
  | SystemExit c => ""
  | FileExistsError p => "[Errno 17] File exists: '" +:+ p +:+ "'"
  | FileNotFoundError p => "[Errno 2] No such file or directory: '" +:+ p +:+ "'"
  | NotADirectoryError p => "[Errno 20] Not a directory: '" +:+ p +:+ "'"
  | PermissionError p => "[Errno 13] Permission denied: '" +:+ p +:+ "'"
  | OSError n s p => "[Errno " +:+ pretty n +:+ "] " +:+ s +:+ ": '" +:+ p +:+ "'"
  | ValueError msg => msg
  | RenderError msg => msg
  end.

(** ** Diagram specifications, as the [diagrams] library records them *)

Inductive icon :=
| IJava | IPostgreSQL | IUsers | IUser | IServer | IStorage | ISpring | IKafka | IGrafana.

(** A node is identified by its order of creation within the diagram. *)
Record node := mkNode { node_id : nat; node_icon : icon; node_label : string }.

#[warnings="-register-all"]
Inductive item :=
| INode (n : node)
| ICluster (label direction : string) (children : list item).

(** [a >> b] records a forward edge from [a] to [b]; [a << b] records an
    edge between the same two nodes drawn backwards, that is, pointing
    at [a]. *)
Inductive edge_dir := Forward | Back.

Record edge := mkEdge { e_tail : node; e_head : node; e_dir : edge_dir }.

Record Diagram := mkDiagram {
  d_name : string;
  d_filename : string;
  d_outformat : string;
  d_show : bool;
  d_direction : string;
  d_curvestyle : string;
  d_items : list item;
  d_edges : list edge
}.

(** The builder: the state the library keeps while a [with Diagram(...)]
    block runs.  [frames] is the stack of open clusters, innermost
    first; its last element collects the diagram's top-level items. *)
Record bstate := mkB {
  next_id : nat;
  frames : list (list item);
  edges : list edge
}.

Definition B (A : Type) : Type := bstate -> A * bstate.

#[global] Instance B_ret : MRet B := fun A a s => (a, s).
#[global] Instance B_bind : MBind B :=
  fun A C f m s => let '(a, s') := m s in f a s'.

Definition add_item (it : item) (fr : list (list item)) : list (list item) :=
  match fr with
  | [] => [[it]]
  | f :: rest => (f ++ [it]) :: rest
  end.

(** A node constructor such as [Java("Tube")] registers the node in the
    innermost open cluster. *)
Definition new_node (ic : icon) (label : string) : B node :=
  fun s =>
    let n := mkNode (next_id s) ic label in
    (n, mkB (S (next_id s)) (add_item (INode n) (frames s)) (edges s)).

(** [with Cluster(label, direction=...): body] *)
Definition Cluster {A} (label direction : string) (body : B A) : B A :=
  fun s =>
    let '(a, s') := body (mkB (next_id s) ([] :: frames s) (edges s)) in
    match frames s' with
    | f :: rest =>
        (a, mkB (next_id s') (add_item (ICluster label direction f) rest) (edges s'))
    | [] => (a, s')
    end.

Definition connect (d : edge_dir) (a b : node) : B node :=
  fun s => (b, mkB (next_id s) (frames s) (edges s ++ [mkEdge a b d])).

Notation "a >> b" := (connect Forward a b) (at level 35, no associativity).
Notation "a << b" := (connect Back a b) (at level 35, no associativity).

(** [with Diagram(name, filename=..., outformat=..., show=False,
    direction=..., curvestyle=...): body], up to the point where the
    block is left; the library's defaults are [direction="LR"] and
    [curvestyle="ortho"]. *)
Definition build_diagram {A} (name filename outformat direction curvestyle : string)
    (body : B A) : Diagram :=
  let s := snd (body (mkB 0 [[]] [])) in
  mkDiagram name filename outformat false direction curvestyle
            (concat (frames s)) (edges s).

(** ** The world and the program monad *)

Record World := mkWorld {
  stdout : list string;
  fs : FileSystem;
  pipeline_calls : list Diagram
}.

Inductive result (A : Type) :=
| Ret (a : A)
| Raise (e : exn).
Arguments Ret {A} a.
Arguments Raise {A} e.

Definition M (A : Type) : Type := World -> result A * World.

#[global] Instance M_ret : MRet M := fun A a w => (Ret a, w).
#[global] Instance M_bind : MBind M :=
  fun A C f m w =>
    match m w with
    | (Ret a, w') => f a w'
    | (Raise e, w') => (Raise e, w')
    end.

Definition raise {A} (e : exn) : M A := fun w => (Raise e, w).

(** [print(line)] *)
Definition print (line : string) : M unit :=
  fun w => (Ret tt, mkWorld (stdout w ++ [line]) (fs w) (pipeline_calls w)).

(** [try: body / except Exception as e: handler(e)] *)
Definition try_except {A} (body : M A) (handler : exn -> M A) : M A :=
  fun w =>
    match body w with
    | (Ret a, w') => (Ret a, w')
    | (Raise e, w') => if is_Exception e then handler e w' else (Raise e, w')
    end.

(** ** Creating directories *)

(** The errors of a path lookup. *)
Inductive errno := ENOENT | ENOTDIR | ENAMETOOLONG.

(** What looking a path up gives: the entry that the path names; or
    nothing yet under that name, in a directory that exists (the place
    where [mkdir(2)] creates); or an error on the way. *)
Inductive lookup :=
| Found (n : node_kind)
| Absent (loc : list string) (parent_writable : bool)
| LookupError (e : errno).

(** The path lookup of the kernel, component by component from the
    location [loc], where the entry [cur] is: a component is looked up
    in a directory only, [".."] leads to the directory above, a name
    has at most 255 bytes ([NAME_MAX]), and only the last component may
    be missing. *)
Fixpoint namei (fs : FileSystem) (r : string) (loc : list string)
    (cur : node_kind) (todo : list string) : lookup :=
  match todo with
  | [] => Found cur
  | x :: rest =>
      match cur with
      | File => LookupError ENOTDIR
      | Dir w =>
          if String.eqb x ".." then
            match node_at fs r (up r loc) with
            | Some n => namei fs r (up r loc) n rest
            | None => LookupError ENOENT
            end
          else if (255 <? String.length x)%nat then LookupError ENAMETOOLONG
          else
            match node_at fs r (loc ++ [x]) with
            | Some n => namei fs r (loc ++ [x]) n rest
            | None =>
                match rest with
                | [] => Absent (loc ++ [x]) w
                | _ :: _ => LookupError ENOENT
                end
            end
      end
  end.

Definition stat (fs : FileSystem) (p : Path) : lookup :=
  namei fs (fs_root p) [] (root_node fs (fs_root p)) (parts p).

(** The [OSError] that Python raises for an error number. *)
Definition errno_exn (e : errno) (path : string) : exn :=
  match e with
  | ENOENT => FileNotFoundError path
  | ENOTDIR => NotADirectoryError path
  | ENAMETOOLONG => OSError 36 "File name too long" path
  end.

(** [os.mkdir(p)]: one directory is created, in a parent that exists
    and is writable. *)
Definition os_mkdir (p : Path) (fs : FileSystem) : result unit * FileSystem :=
  match stat fs p with
  | Found _ => (Raise (FileExistsError (str p)), fs)
  | Absent loc w =>
      if w then (Ret tt, <[(fs_root p, loc) := Dir true]> fs)
      else (Raise (PermissionError (str p)), fs)
  | LookupError e => (Raise (errno_exn e (str p)), fs)
  end.

(** [p.is_dir()] *)
Definition is_dir (fs : FileSystem) (p : Path) : bool :=
  match stat fs p with
  | Found (Dir _) => true
  | _ => false
  end.

(** [p.mkdir(parents=False, exist_ok=True)], as [pathlib] has it:
    [[
      try: os.mkdir(self, mode)
      except FileNotFoundError: raise
      except OSError:
          if not exist_ok or not self.is_dir(): raise
    ]] *)
Definition mkdir_exist_ok (p : Path) (fs : FileSystem) : result unit * FileSystem :=
  match os_mkdir p fs with
  | (Ret _, fs') => (Ret tt, fs')
  | (Raise e, fs') =>
      if is_FileNotFoundError e then (Raise e, fs')
      else if is_dir fs' p then (Ret tt, fs')
      else (Raise e, fs')
  end.

(** [p.mkdir(parents=True, exist_ok=True)], as [pathlib] has it, for
    the path whose components are [rparts] read backwards:
    [[
      try: os.mkdir(self, mode)
      except FileNotFoundError:
          if not parents or self.parent == self: raise
          self.parent.mkdir(parents=True, exist_ok=True)
          self.mkdir(mode, parents=False, exist_ok=exist_ok)
      except OSError:
          if not exist_ok or not self.is_dir(): raise
    ]] *)
Fixpoint mkdir_parents (r : string) (rparts : list string) (fs : FileSystem)
    : result unit * FileSystem :=
  let p := mkPath r (rev rparts) in
  match os_mkdir p fs with
  | (Ret _, fs') => (Ret tt, fs')
  | (Raise e, fs') =>
      if is_FileNotFoundError e then
        match rparts with
        | [] => (Raise e, fs')
        | _ :: parent =>
            match mkdir_parents r parent fs' with
            | (Ret _, fs1) => mkdir_exist_ok p fs1
            | (Raise e1, fs1) => (Raise e1, fs1)
            end
        end
      else if is_dir fs' p then (Ret tt, fs')
      else (Raise e, fs')
  end.

Fixpoint has_nul (s : string) : bool :=
  match s with
  | EmptyString => false
  | String c s' => Ascii.eqb c Ascii.zero || has_nul s'
  end.

(** The call on the path as a whole.  Python refuses a path that holds
    a NUL byte before it reaches the kernel, and the kernel refuses a
    path of more than 4095 bytes ([PATH_MAX]) before it looks anything
    up; the paths of the ancestors are shorter, so both checks are made
    once. *)
Definition Path_mkdir (p : Path) (fs : FileSystem) : result unit * FileSystem :=
  if has_nul (str p) then (Raise (ValueError "embedded null byte"), fs)
  else if (4095 <? String.length (str p))%nat then
    (Raise (OSError 36 "File name too long" (str p)), fs)
  else mkdir_parents (root p) (rev (parts p)) fs.

(** [p.mkdir(parents=True, exist_ok=True)] *)
Definition mkdir (p : Path) : M unit :=
  fun w =>
    let '(r, fs') := Path_mkdir p (fs w) in
    (r, mkWorld (stdout w) fs' (pipeline_calls w)).

(** ** The rendering pipeline *)

(** What the [diagrams] library and the layout engine behind it do with
    a diagram, from the opening of the [with Diagram(...)] block to the
    rendering at its end: build it, lay it out and write the image, or
    raise somewhere on the way.  The errors they raise are ordinary
    exceptions (instances of [Exception]); interrupts and exit requests,
    which derive from [BaseException] only, are not pipeline outcomes. *)
Inductive render_outcome :=
| Rendered
| Failed (msg : string).

(** The image lands at [<filename>.<outformat>]. *)
Definition image_key (d : Diagram) : fs_key :=
  locate (Path_of (d_filename d +:+ "." +:+ d_outformat d)).

(** Leaving a [with Diagram(...)] block: the pipeline is called with the
    diagram that the block has built.  Of the files that the library
    writes, the file system records the image: the DOT source that the
    library puts under [<filename>] on the way, removes after a
    successful rendering and leaves behind after a failed one, has no
    entry. *)
Definition with_Diagram (pipeline : Diagram -> render_outcome) (d : Diagram) : M unit :=
  fun w =>
    let calls := pipeline_calls w ++ [d] in
    match pipeline d with
    | Rendered => (Ret tt, mkWorld (stdout w) (<[image_key d := File]> (fs w)) calls)
    | Failed msg => (Raise (RenderError msg), mkWorld (stdout w) (fs w) calls)
    end.

(** Node constructors of the library's icon vocabulary. *)
Definition Java := new_node IJava.
Definition PostgreSQL := new_node IPostgreSQL.
Definition Users := new_node IUsers.
Definition User := new_node IUser.
Definition Server := new_node IServer.
Definition Storage := new_node IStorage.
Definition Spring := new_node ISpring.
Definition Kafka := new_node IKafka.
Definition Grafana := new_node IGrafana.

(** [a >> b >> c] is [(a >> b) >> c], and [a >> b] evaluates to [b]. *)
Notation "m >>> c" := (mbind (fun x => connect Forward x c) m)
  (at level 36, left associativity).

(** ** Command lines *)

(** A command line is the sequence of its flag occurrences, each the
    long name of a flag with the value that [argparse] takes for it
    ([--type=context], or [--type context], is [("type", "context")];
    a value that starts with a dash needs the first form).  [argparse]
    reports an undeclared flag, or a value outside a flag's [choices],
    by exiting with status 2.  Where [argparse] takes an unambiguous
    abbreviation for a flag ([--typ]), the occurrence is listed under
    the long name that it abbreviates.  [-h] and [--help], which take no
    value and make [argparse] print the usage and exit with status 0
    before [main] goes on, are not command lines of this type. *)
Abbreviation argv := (list (string * string)).

(** The value of the last occurrence of a flag, if any. *)
Fixpoint last_value (flag : string) (args : argv) : option string :=
  match args with
  | [] => None
  | (f, v) :: rest =>
      match last_value flag rest with
      | Some v' => Some v'
      | None => if String.eqb f flag then Some v else None
      end
  end.

(** A declared flag: its name and, if restricted, its [choices]. *)
Definition arg_accepted (declared : list (string * option (list string)))
    (a : string * string) : bool :=
  existsb (fun d =>
             String.eqb (fst a) (fst d) &&
             match snd d with
             | Some choices => py_in (snd a) choices
             | None => true
             end) declared.

(** How a script run ends: the status the process exits with.  Returning
    from [main] is status 0, [SystemExit(n)] is status [n], any other
    exception escaping [main] is a traceback and status 1. *)
Definition exit_status {A} (r : result A) : Z :=
  match r with
  | Ret _ => 0
  | Raise (SystemExit c) => c
  | Raise _ => 1
  end.

(** [args.dir or "docs/diagrams"] *)
Definition py_or (o : option string) (d : string) : string :=
  match o with
  | Some s => if truthy s then s else d
  | None => d
  end.

(** [files.append(f)] guarded by [if f:]. *)
Definition append_if (files : list string) (f : string) : list string :=
  if truthy f then files ++ [f] else files.

(** * Script A: [bin/c4_diagrams.py] *)

Module C4.

Record C4DiagramGenerator := mkGenerator {
  output_format : string;
  output_dir : Path
}.

(** [C4DiagramGenerator.__init__] *)
Definition __init__ (output_dir output_format : string) : M C4DiagramGenerator :=
  let self_output_format := lower output_format in
  self_output_format ←
    (if negb (py_in self_output_format ["png"; "svg"; "pdf"]) then
       print ("Unsupported output format: " +:+ output_format +:+ ", defaulting to png");;
       mret "png"
     else mret self_output_format);
  let self_output_dir := Path_of output_dir in
  mkdir self_output_dir;;
  mret (mkGenerator self_output_format self_output_dir).

Section Script.

(** The module-level flag set by the guarded import, and the pipeline
    behind the imported library. *)
Variable diagrams_available : bool.
Variable pipeline : Diagram -> render_outcome.

(** What the guarded import prints when the library is missing. *)
Definition import_module : M unit :=
  if diagrams_available then mret tt
  else
    print "Warning: diagrams package not available. Please install it with:";;
    print "  pip install diagrams";;
    print "And make sure graphviz is installed:";;
    print "  apt-get install graphviz  # Ubuntu/Debian";;
    print "  brew install graphviz      # macOS".

Definition context_diagram (self : C4DiagramGenerator) (output_file : Path) : Diagram :=
  build_diagram "Samstraumr System Context" (str (with_suffix_empty output_file))
    (output_format self) "LR" "ortho"
    (users ← Users "Development Teams";
     '(core, api, db) ← Cluster "Samstraumr Framework" "LR"
       (core ← Java "Samstraumr Core";
        api ← Java "API";
        db ← PostgreSQL "Event Store";
        mret (core, api, db));
     '(vcs, ci, docs) ← Cluster "External Systems" "LR"
       (vcs ← Server "Version Control";
        ci ← Server "CI/CD System";
        docs ← Storage "Document Repository";
        mret (vcs, ci, docs));
     users >> api >>> core >>> db;;
     users >> core;;
     core >> vcs;;
     core >> docs;;
     api >> ci).

Definition generate_context_diagram (self : C4DiagramGenerator) : M string :=
  if negb diagrams_available then
    print "Diagrams library not available. Cannot generate context diagram.";;
    mret ""
  else
    let output_file :=
      output_dir self // ("samstraumr_context_diagram." +:+ output_format self) in
    try_except
      (with_Diagram pipeline (context_diagram self output_file);;
       print ("Generated context diagram: " +:+ str output_file);;
       mret (str output_file))
      (fun e =>
         print ("Failed to generate context diagram: " +:+ exn_str e);;
         mret "").

Definition container_diagram (self : C4DiagramGenerator) (output_file : Path) : Diagram :=
  build_diagram "Samstraumr Container Diagram" (str (with_suffix_empty output_file))
    (output_format self) "LR" "ortho"
    (dev ← User "Developer";
     '(tubes, components, identity, machine, composite, events, db) ←
       Cluster "Samstraumr Framework" "LR"
         ('(tubes, components, identity) ← Cluster "Core Framework" "LR"
            (tubes ← Java "Tubes";
             components ← Java "Components";
             identity ← Java "Identity";
             mret (tubes, components, identity));
          '(machine, composite) ← Cluster "Orchestration" "LR"
            (machine ← Java "Machine";
             composite ← Java "Composite";
             mret (machine, composite));
          '(events, db) ← Cluster "Infrastructure" "LR"
            (events ← Java "Event Dispatcher";
             db ← PostgreSQL "Event Store";
             mret (events, db));
          mret (tubes, components, identity, machine, composite, events, db));
     ci_cd ← Cluster "External Systems" "LR" (Server "CI/CD Pipeline");
     dev >> tubes >>> events;;
     dev >> components >>> machine >>> composite;;
     tubes >> identity;;
     components >> identity;;
     composite >> identity;;
     events >> db;;
     machine >> ci_cd).

Definition generate_container_diagram (self : C4DiagramGenerator) : M string :=
  if negb diagrams_available then
    print "Diagrams library not available. Cannot generate container diagram.";;
    mret ""
  else
    let output_file :=
      output_dir self // ("samstraumr_container_diagram." +:+ output_format self) in
    try_except
      (with_Diagram pipeline (container_diagram self output_file);;
       print ("Generated container diagram: " +:+ str output_file);;
       mret (str output_file))
      (fun e =>
         print ("Failed to generate container diagram: " +:+ exn_str e);;
         mret "").

Definition component_diagram (self : C4DiagramGenerator) (output_file : Path) : Diagram :=
  build_diagram "Samstraumr Component Diagram" (str (with_suffix_empty output_file))
    (output_format self) "LR" "ortho"
    ('(tubes, components, identifiers, lifecycle) ← Cluster "Core Domain" "LR"
       (tubes ← Java "Tube";
        components ← Java "Component";
        identifiers ← Java "Identity";
        lifecycle ← Java "Lifecycle";
        mret (tubes, components, identifiers, lifecycle));
     '(machine, composite, flow) ← Cluster "Orchestration" "LR"
       (machine ← Java "Machine";
        composite ← Java "Composite";
        flow ← Java "DataFlow";
        mret (machine, composite, flow));
     '(repo, events, logging) ← Cluster "Infrastructure" "LR"
       (repo ← Java "Repository";
        events ← Java "EventDispatcher";
        logging ← Java "Logger";
        mret (repo, events, logging));
     tubes >> identifiers;;
     components >> identifiers;;
     composite >> components;;
     machine >> components;;
     flow >> components;;
     composite >> repo;;
     machine >> repo;;
     events >> logging;;
     events >> repo).

Definition generate_component_diagram (self : C4DiagramGenerator) : M string :=
  if negb diagrams_available then
    print "Diagrams library not available. Cannot generate component diagram.";;
    mret ""
  else
    let output_file :=
      output_dir self // ("samstraumr_component_diagram." +:+ output_format self) in
    try_except
      (with_Diagram pipeline (component_diagram self output_file);;
       print ("Generated component diagram: " +:+ str output_file);;
       mret (str output_file))
      (fun e =>
         print ("Failed to generate component diagram: " +:+ exn_str e);;
         mret "").

Definition code_diagram (self : C4DiagramGenerator) (output_file : Path) : Diagram :=
  build_diagram "Samstraumr Code Diagram" (str (with_suffix_empty output_file))
    (output_format self) "TB" "ortho"
    ('(tube, component, identity, state) ← Cluster "Domain Model" "LR"
       (tube ← Java "Tube";
        component ← Java "Component";
        identity ← Java "Identity";
        state ← Java "LifecycleState";
        mret (tube, component, identity, state));
     '(tube_factory, component_factory, machine_factory, composite_factory) ←
       Cluster "Domain Services" "LR"
         (tube_factory ← Java "TubeFactory";
          component_factory ← Java "ComponentFactory";
          machine_factory ← Java "MachineFactory";
          composite_factory ← Java "CompositeFactory";
          mret (tube_factory, component_factory, machine_factory, composite_factory));
     '(tube_repo, component_repo, machine_repo) ← Cluster "Repositories" "LR"
       (tube_repo ← Java "TubeRepository";
        component_repo ← Java "ComponentRepository";
        machine_repo ← Java "MachineRepository";
        mret (tube_repo, component_repo, machine_repo));
     tube_factory >> tube >>> tube_repo;;
     component_factory >> component >>> component_repo;;
     machine_factory >> component >>> machine_repo;;
     composite_factory >> component;;
     tube >> state;;
     component >> state;;
     tube >> identity;;
     component >> identity).

Definition generate_code_diagram (self : C4DiagramGenerator) : M string :=
  if negb diagrams_available then
    print "Diagrams library not available. Cannot generate code diagram.";;
    mret ""
  else
    let output_file :=
      output_dir self // ("samstraumr_code_diagram." +:+ output_format self) in
    try_except
      (with_Diagram pipeline (code_diagram self output_file);;
       print ("Generated code diagram: " +:+ str output_file);;
       mret (str output_file))
      (fun e =>
         print ("Failed to generate code diagram: " +:+ exn_str e);;
         mret "").

Definition clean_architecture_diagram (self : C4DiagramGenerator) (output_file : Path)
    : Diagram :=
  build_diagram "Samstraumr Clean Architecture" (str (with_suffix_empty output_file))
    (output_format self) "TB" "ortho"
    (entity ← Cluster "Core Domain" "LR" (Java "Entities");
     usecases ← Cluster "Use Cases" "LR" (Java "Use Cases");
     '(controllers, presenters, gateways, repositories) ←
       Cluster "Interface Adapters" "LR"
         ('(controllers, presenters) ← Cluster "Input Adapters" "LR"
            (controllers ← Java "Controllers";
             presenters ← Java "Presenters";
             mret (controllers, presenters));
          '(gateways, repositories) ← Cluster "Output Adapters" "LR"
            (gateways ← Java "Gateways";
             repositories ← Java "Repositories";
             mret (gateways, repositories));
          mret (controllers, presenters, gateways, repositories));
     '(web, cli, db, external_api) ← Cluster "Frameworks & Drivers" "LR"
       ('(web, cli) ← Cluster "UI" "LR"
          (web ← Spring "Web UI";
           cli ← Java "CLI";
           mret (web, cli));
        '(db, external_api) ← Cluster "External Interfaces" "LR"
          (db ← PostgreSQL "Database";
           external_api ← Java "External APIs";
           mret (db, external_api));
        mret (web, cli, db, external_api));
     web >> controllers;;
     cli >> controllers;;
     controllers >> usecases;;
     presenters >> usecases;;
     usecases >> entity;;
     repositories >> db;;
     gateways >> external_api;;
     usecases >> repositories;;
     usecases >> gateways;;
     presenters >> web).

Definition generate_clean_architecture_diagram (self : C4DiagramGenerator) : M string :=
  if negb diagrams_available then
    print "Diagrams library not available. Cannot generate clean architecture diagram.";;
    mret ""
  else
    let output_file :=
      output_dir self
        // ("samstraumr_clean_architecture_diagram." +:+ output_format self) in
    try_except
      (with_Diagram pipeline (clean_architecture_diagram self output_file);;
       print ("Generated clean architecture diagram: " +:+ str output_file);;
       mret (str output_file))
      (fun e =>
         print ("Failed to generate clean architecture diagram: " +:+ exn_str e);;
         mret "").

Definition generate_all (self : C4DiagramGenerator) : M (list string) :=
  let files := [] in
  context_file ← generate_context_diagram self;
  let files := append_if files context_file in
  container_file ← generate_container_diagram self;
  let files := append_if files container_file in
  component_file ← generate_component_diagram self;
  let files := append_if files component_file in
  code_file ← generate_code_diagram self;
  let files := append_if files code_file in
  clean_arch_file ← generate_clean_architecture_diagram self;
  let files := append_if files clean_arch_file in
  mret files.

(** The parsed command line of script A. *)
Record Namespace := mkNamespace {
  type : string;
  output : string;
  dir : option string
}.

Definition declared : list (string * option (list string)) :=
  [("type", Some ["context"; "container"; "component"; "code"; "clean"; "port"; "all"]);
   ("output", Some ["png"; "svg"; "pdf"]);
   ("dir", None)].

(** [parser.parse_args()] for the three flags that [main] declares. *)
Definition parse_args (args : argv) : M Namespace :=
  if forallb (arg_accepted declared) args then
    mret (mkNamespace (default "all" (last_value "type" args))
                      (default "png" (last_value "output" args))
                      (last_value "dir" args))
  else raise (SystemExit 2).

Definition main (command_line : argv) : M unit :=
  args ← parse_args command_line;
  generator ← __init__ (py_or (dir args) "docs/diagrams") (output args);
  if String.eqb (type args) "context" then
    generate_context_diagram generator;; mret tt
  else if String.eqb (type args) "container" then
    generate_container_diagram generator;; mret tt
  else if String.eqb (type args) "component" then
    generate_component_diagram generator;; mret tt
  else if String.eqb (type args) "code" then
    generate_code_diagram generator;; mret tt
  else if String.eqb (type args) "clean" then
    generate_clean_architecture_diagram generator;; mret tt
  else if String.eqb (type args) "port" then
    print "Port interface diagrams are generated by port_interfaces_diagram.py"
  else
    generate_all generator;; mret tt.

(** Running the script: the import, then [main()]. *)
Definition script (command_line : argv) : M unit :=
  import_module;; main command_line.

End Script.

End C4.

(** * Script B: [bin/port_interfaces_diagram.py] *)

Module Ports.

Record PortInterfaceDiagramGenerator := mkGenerator {
  output_format : string;
  detail_level : string;
  output_dir : Path
}.

(** [PortInterfaceDiagramGenerator.__init__] *)
Definition __init__ (output_dir output_format detail_level : string)
    : M PortInterfaceDiagramGenerator :=
  let self_output_format := lower output_format in
  self_output_format ←
    (if negb (py_in self_output_format ["png"; "svg"; "pdf"]) then
       print ("Unsupported output format: " +:+ output_format +:+ ", defaulting to svg");;
       mret "svg"
     else mret self_output_format);
  let self_detail_level := lower detail_level in
  self_detail_level ←
    (if negb (py_in self_detail_level ["low"; "medium"; "high"]) then
       print ("Unsupported detail level: " +:+ detail_level +:+ ", defaulting to medium");;
       mret "medium"
     else mret self_detail_level);
  let self_output_dir := Path_of output_dir in
  mkdir self_output_dir;;
  mret (mkGenerator self_output_format self_detail_level self_output_dir).

Section Script.

Variable diagrams_available : bool.
Variable pipeline : Diagram -> render_outcome.

Definition import_module : M unit :=
  if diagrams_available then mret tt
  else
    print "Warning: diagrams package not available. Please install it with:";;
    print "  pip install diagrams";;
    print "And make sure graphviz is installed:";;
    print "  apt-get install graphviz  # Ubuntu/Debian";;
    print "  brew install graphviz      # macOS".

Definition ports_component_diagram (self : PortInterfaceDiagramGenerator)
    (output_file : Path) : Diagram :=
  build_diagram "Samstraumr Port Interfaces Component Diagram"
    (str (with_suffix_empty output_file)) (output_format self) "TB" "ortho"
    ('(component, identity, state, machine, composite, event) ←
       Cluster "Domain Layer" "LR"
         (component ← Java "Component";
          identity ← Java "Identity";
          state ← Java "State";
          machine ← Java "Machine";
          composite ← Java "Composite";
          event ← Java "DomainEvent";
          mret (component, identity, state, machine, composite, event));
     '(services, ports) ← Cluster "Application Layer" "LR"
       (services ← Cluster "Services" "LR"
          (component_svc ← Java "ComponentService";
           notification_svc ← Java "NotificationService";
           cache_svc ← Java "CacheService";
           file_svc ← Java "FileSystemService";
           validation_svc ← Java "ValidationService";
           persistence_svc ← Java "PersistenceService";
           event_svc ← Java "EventService";
           security_svc ← Java "SecurityService";
           messaging_svc ← Java "MessagingService";
           task_svc ← Java "TaskExecutionService";
           config_svc ← Java "ConfigurationService";
           mret (component_svc, notification_svc, cache_svc, file_svc,
                 validation_svc, persistence_svc, event_svc, security_svc,
                 messaging_svc, task_svc, config_svc));
        ports ← Cluster "Port Interfaces" "LR"
          (notification_port ← Java "NotificationPort";
           cache_port ← Java "CachePort";
           file_port ← Java "FileSystemPort";
           validation_port ← Java "ValidationPort";
           persistence_port ← Java "PersistencePort";
           event_pub_port ← Java "EventPublisherPort";
           dataflow_port ← Java "DataFlowEventPort";
           security_port ← Java "SecurityPort";
           messaging_port ← Java "MessagingPort";
           task_port ← Java "TaskExecutionPort";
           config_port ← Java "ConfigurationPort";
           template_port ← Java "TemplatePort";
           storage_port ← Java "StoragePort";
           comp_repo_port ← Java "ComponentRepository";
           mret (notification_port, cache_port, file_port, validation_port,
                 persistence_port, event_pub_port, dataflow_port, security_port,
                 messaging_port, task_port, config_port, template_port,
                 storage_port, comp_repo_port));
        mret (services, ports));
     let '(component_svc, notification_svc, cache_svc, file_svc,
           validation_svc, persistence_svc, event_svc, security_svc,
           messaging_svc, task_svc, config_svc) := services in
     let '(notification_port, cache_port, file_port, validation_port,
           persistence_port, event_pub_port, dataflow_port, security_port,
           messaging_port, task_port, config_port, template_port,
           storage_port, comp_repo_port) := ports in
     '(notification_adapter, cache_adapter, file_adapter, validation_adapter,
       persistence_adapter, event_adapter, event_dispatcher, security_adapter,
       messaging_adapter, task_adapter, config_adapter, template_adapter,
       storage_adapter, comp_repo_adapter) ←
       Cluster "Infrastructure Layer" "LR"
         (Cluster "Adapters" "LR"
            (notification_adapter ← Java "NotificationAdapter";
             cache_adapter ← Java "InMemoryCacheAdapter";
             file_adapter ← Java "StandardFileSystemAdapter";
             validation_adapter ← Java "ValidationAdapter";
             persistence_adapter ← Java "InMemoryPersistenceAdapter";
             event_adapter ← Java "EventPublisherAdapter";
             event_dispatcher ← Java "InMemoryEventDispatcher";
             security_adapter ← Java "SecurityAdapter";
             messaging_adapter ← Java "InMemoryMessagingAdapter";
             task_adapter ← Java "ThreadPoolTaskExecutionAdapter";
             config_adapter ← Java "ConfigurationAdapter";
             template_adapter ← Java "FreemarkerTemplateAdapter";
             storage_adapter ← Java "InMemoryStorageAdapter";
             comp_repo_adapter ← Java "InMemoryComponentRepository";
             mret (notification_adapter, cache_adapter, file_adapter,
                   validation_adapter, persistence_adapter, event_adapter,
                   event_dispatcher, security_adapter, messaging_adapter,
                   task_adapter, config_adapter, template_adapter,
                   storage_adapter, comp_repo_adapter)));
     '(database, file_system, email_server, sms_gateway, message_bus, monitoring) ←
       Cluster "External Systems" "LR"
         (Cluster "External Resources" "LR"
            (database ← PostgreSQL "Database";
             file_system ← Storage "File System";
             email_server ← Server "Email Server";
             sms_gateway ← Server "SMS Gateway";
             message_bus ← Kafka "Message Bus";
             monitoring ← Grafana "Monitoring";
             mret (database, file_system, email_server, sms_gateway,
                   message_bus, monitoring)));
     (* Domain layer relationships *)
     component >> identity;;
     component >> state;;
     machine >> component;;
     composite >> component;;
     (* Application layer - Service to Domain *)
     component_svc >> component;;
     component_svc >> machine;;
     component_svc >> composite;;
     (* Application layer - Service to Ports *)
     notification_svc >> notification_port;;
     cache_svc >> cache_port;;
     file_svc >> file_port;;
     validation_svc >> validation_port;;
     persistence_svc >> persistence_port;;
     event_svc >> event_pub_port;;
     event_svc >> dataflow_port;;
     security_svc >> security_port;;
     messaging_svc >> messaging_port;;
     task_svc >> task_port;;
     config_svc >> config_port;;
     (* Infrastructure - Adapters to Ports *)
     notification_port << notification_adapter;;
     cache_port << cache_adapter;;
     file_port << file_adapter;;
     validation_port << validation_adapter;;
     persistence_port << persistence_adapter;;
     event_pub_port << event_adapter;;
     dataflow_port << event_dispatcher;;
     security_port << security_adapter;;
     messaging_port << messaging_adapter;;
     task_port << task_adapter;;
     config_port << config_adapter;;
     template_port << template_adapter;;
     storage_port << storage_adapter;;
     comp_repo_port << comp_repo_adapter;;
     (* External connections *)
     notification_adapter >> email_server;;
     notification_adapter >> sms_gateway;;
     file_adapter >> file_system;;
     persistence_adapter >> database;;
     event_adapter >> message_bus;;
     event_dispatcher >> message_bus).

Definition generate_ports_component_diagram (self : PortInterfaceDiagramGenerator)
    : M string :=
  if negb diagrams_available then
    print "Diagrams library not available. Cannot generate component diagram.";;
    mret ""
  else
    let output_file :=
      output_dir self
        // ("samstraumr_ports_component_diagram." +:+ output_format self) in
    try_except
      (with_Diagram pipeline (ports_component_diagram self output_file);;
       print ("Generated port interfaces component diagram: " +:+ str output_file);;
       mret (str output_file))
      (fun e =>
         print ("Failed to generate port interfaces component diagram: " +:+ exn_str e);;
         mret "").

Definition ports_integration_diagram (self : PortInterfaceDiagramGenerator)
    (output_file : Path) : Diagram :=
  build_diagram "Samstraumr Port Integration Patterns"
    (str (with_suffix_empty output_file)) (output_format self) "TB" "ortho"
    ((* Create port interfaces *)
     notification_port ← Java "NotificationPort";
     cache_port ← Java "CachePort";
     file_port ← Java "FileSystemPort";
     validation_port ← Java "ValidationPort";
     persistence_port ← Java "PersistencePort";
     event_pub_port ← Java "EventPublisherPort";
     security_port ← Java "SecurityPort";
     (* Create integration services *)
     '(cache_file_svc, event_notif_svc, validation_persist_svc, security_file_svc) ←
       Cluster "Integration Services" "LR"
         (cache_file_svc ← Java "CachingFileService";
          event_notif_svc ← Java "EventNotificationService";
          validation_persist_svc ← Java "ValidationPersistenceService";
          security_file_svc ← Java "SecureFileService";
          mret (cache_file_svc, event_notif_svc, validation_persist_svc,
                security_file_svc));
     (* Cache-FileSystem integration *)
     cache_port >> cache_file_svc;;
     file_port >> cache_file_svc;;
     (* Event-Notification integration *)
     event_pub_port >> event_notif_svc;;
     notification_port << event_notif_svc;;
     (* Validation-Persistence integration *)
     validation_port >> validation_persist_svc;;
     persistence_port << validation_persist_svc;;
     (* Security-FileSystem integration *)
     security_port >> security_file_svc;;
     file_port << security_file_svc).

Definition generate_ports_integration_diagram (self : PortInterfaceDiagramGenerator)
    : M string :=
  if negb diagrams_available then
    print "Diagrams library not available. Cannot generate port integration diagram.";;
    mret ""
  else
    let output_file :=
      output_dir self
        // ("samstraumr_ports_integration_diagram." +:+ output_format self) in
    try_except
      (with_Diagram pipeline (ports_integration_diagram self output_file);;
       print ("Generated port integration diagram: " +:+ str output_file);;
       mret (str output_file))
      (fun e =>
         print ("Failed to generate port integration diagram: " +:+ exn_str e);;
         mret "").

Definition detailed_port_diagram (self : PortInterfaceDiagramGenerator)
    (output_file : Path) : Diagram :=
  build_diagram "Samstraumr Detailed Port Interfaces"
    (str (with_suffix_empty output_file)) (output_format self) "TB" "ortho"
    ((* Focus on ports with their methods *)
     '(notification, cache, file_system, validation, persistence) ←
       Cluster "Core Port Interfaces" "LR"
         (notification ← Cluster "NotificationPort" "LR"
            (notification ← Java "NotificationPort";
             Cluster "Methods" "LR"
               (Java "send()";;
                Java "sendBatch()";;
                Java "sendAsync()";;
                Java "register()";;
                Java "checkStatus()");;
             mret notification);
          cache ← Cluster "CachePort" "LR"
            (cache ← Java "CachePort";
             Cluster "Methods" "LR"
               (Java "get()";;
                Java "put()";;
                Java "remove()";;
                Java "clear()";;
                Java "contains()");;
             mret cache);
          file_system ← Cluster "FileSystemPort" "LR"
            (file_system ← Java "FileSystemPort";
             Cluster "Methods" "LR"
               (Java "readFile()";;
                Java "writeFile()";;
                Java "deleteFile()";;
                Java "listFiles()";;
                Java "fileExists()");;
             mret file_system);
          validation ← Cluster "ValidationPort" "LR"
            (validation ← Java "ValidationPort";
             Cluster "Methods" "LR"
               (Java "validate()";;
                Java "validateAll()";;
                Java "getViolations()";;
                Java "isValid()");;
             mret validation);
          persistence ← Cluster "PersistencePort" "LR"
            (persistence ← Java "PersistencePort";
             Cluster "Methods" "LR"
               (Java "save()";;
                Java "find()";;
                Java "delete()";;
                Java "query()";;
                Java "transaction()");;
             mret persistence);
          mret (notification, cache, file_system, validation, persistence));
     (* Connect with implementation relationships if high detail level *)
     if String.eqb (detail_level self) "high" then
       '(notif_impl, cache_impl, file_impl, validation_impl, persistence_impl) ←
         Cluster "Standard Implementations" "LR"
           (notif_impl ← Java "NotificationAdapter";
            cache_impl ← Java "InMemoryCacheAdapter";
            file_impl ← Java "StandardFileSystemAdapter";
            validation_impl ← Java "ValidationAdapter";
            persistence_impl ← Java "InMemoryPersistenceAdapter";
            mret (notif_impl, cache_impl, file_impl, validation_impl,
                  persistence_impl));
       (* Connect implementations to interfaces *)
       notification << notif_impl;;
       cache << cache_impl;;
       file_system << file_impl;;
       validation << validation_impl;;
       persistence << persistence_impl;;
       mret tt
     else mret tt).

Definition generate_detailed_port_diagram (self : PortInterfaceDiagramGenerator)
    : M string :=
  if negb diagrams_available then
    print "Diagrams library not available. Cannot generate detailed port diagram.";;
    mret ""
  else
    let output_file :=
      output_dir self
        // ("samstraumr_detailed_ports_diagram." +:+ output_format self) in
    try_except
      (with_Diagram pipeline (detailed_port_diagram self output_file);;
       print ("Generated detailed port diagram: " +:+ str output_file);;
       mret (str output_file))
      (fun e =>
         print ("Failed to generate detailed port diagram: " +:+ exn_str e);;
         mret "").

Definition clean_architecture_ports_diagram (self : PortInterfaceDiagramGenerator)
    (output_file : Path) : Diagram :=
  build_diagram "Samstraumr Clean Architecture with Ports and Adapters"
    (str (with_suffix_empty output_file)) (output_format self) "TB" "ortho"
    ('(entities, value_objects, domain_services) ← Cluster "Core Domain Layer" "LR"
       (entities ← Java "Domain Entities";
        value_objects ← Java "Value Objects";
        domain_services ← Java "Domain Services";
        mret (entities, value_objects, domain_services));
     '(use_cases, inputs, outputs) ← Cluster "Application Layer" "LR"
       (use_cases ← Java "Use Cases";
        inputs ← Cluster "Input Ports" "TB"
          (component_port ← Java "ComponentPort";
           machine_port ← Java "MachinePort";
           composite_port ← Java "CompositePort";
           mret (component_port, machine_port, composite_port));
        outputs ← Cluster "Output Ports" "TB"
          (persistence_port ← Java "PersistencePort";
           notification_port ← Java "NotificationPort";
           event_port ← Java "EventPublisherPort";
           file_port ← Java "FileSystemPort";
           cache_port ← Java "CachePort";
           mret (persistence_port, notification_port, event_port, file_port,
                 cache_port));
        mret (use_cases, inputs, outputs));
     let '(component_port, machine_port, composite_port) := inputs in
     let '(persistence_port, notification_port, event_port, file_port,
           cache_port) := outputs in
     '(input_adapters, output_adapters) ← Cluster "Adapter Layer" "LR"
       (input_adapters ← Cluster "Input Adapters" "LR"
          (rest_adapter ← Java "REST Adapter";
           cli_adapter ← Java "CLI Adapter";
           messaging_adapter ← Java "Messaging Adapter";
           mret (rest_adapter, cli_adapter, messaging_adapter));
        output_adapters ← Cluster "Output Adapters" "LR"
          (persistence_adapter ← Java "PersistenceAdapter";
           notification_adapter ← Java "NotificationAdapter";
           event_adapter ← Java "EventAdapter";
           file_adapter ← Java "FileSystemAdapter";
           cache_adapter ← Java "CacheAdapter";
           mret (persistence_adapter, notification_adapter, event_adapter,
                 file_adapter, cache_adapter));
        mret (input_adapters, output_adapters));
     let '(rest_adapter, cli_adapter, messaging_adapter) := input_adapters in
     let '(persistence_adapter, notification_adapter, event_adapter,
           file_adapter, cache_adapter) := output_adapters in
     '(rest_framework, database, file_system, message_broker) ←
       Cluster "Infrastructure Layer" "LR"
         (rest_framework ← Spring "Spring Framework";
          database ← PostgreSQL "PostgreSQL";
          file_system ← Storage "File System";
          message_broker ← Kafka "Message Broker";
          mret (rest_framework, database, file_system, message_broker));
     (* Domain relationships *)
     entities >> value_objects;;
     domain_services >> entities;;
     (* Application layer connections *)
     use_cases >> domain_services;;
     use_cases >> entities;;
     (* Input ports to use cases *)
     component_port >> use_cases;;
     machine_port >> use_cases;;
     composite_port >> use_cases;;
     (* Use cases to output ports *)
     use_cases >> persistence_port;;
     use_cases >> notification_port;;
     use_cases >> event_port;;
     use_cases >> file_port;;
     use_cases >> cache_port;;
     (* Input adapters to ports *)
     component_port << rest_adapter;;
     component_port << cli_adapter;;
     machine_port << messaging_adapter;;
     (* Output ports to adapters *)
     persistence_port << persistence_adapter;;
     notification_port << notification_adapter;;
     event_port << event_adapter;;
     file_port << file_adapter;;
     cache_port << cache_adapter;;
     (* Infrastructure connections *)
     rest_adapter >> rest_framework;;
     persistence_adapter >> database;;
     file_adapter >> file_system;;
     event_adapter >> message_broker;;
     notification_adapter >> message_broker).

Definition generate_clean_architecture_ports_diagram
    (self : PortInterfaceDiagramGenerator) : M string :=
  if negb diagrams_available then
    print "Diagrams library not available. Cannot generate Clean Architecture ports diagram.";;
    mret ""
  else
    let output_file :=
      output_dir self
        // ("samstraumr_clean_arch_ports_diagram." +:+ output_format self) in
    try_except
      (with_Diagram pipeline (clean_architecture_ports_diagram self output_file);;
       print ("Generated Clean Architecture ports diagram: " +:+ str output_file);;
       mret (str output_file))
      (fun e =>
         print ("Failed to generate Clean Architecture ports diagram: " +:+ exn_str e);;
         mret "").

Definition generate_all (self : PortInterfaceDiagramGenerator) : M (list string) :=
  let files := [] in
  ports_component_file ← generate_ports_component_diagram self;
  let files := append_if files ports_component_file in
  ports_integration_file ← generate_ports_integration_diagram self;
  let files := append_if files ports_integration_file in
  detailed_port_file ← generate_detailed_port_diagram self;
  let files := append_if files detailed_port_file in
  clean_arch_ports_file ← generate_clean_architecture_ports_diagram self;
  let files := append_if files clean_arch_ports_file in
  mret files.

(** The parsed command line of script B. *)
Record Namespace := mkNamespace {
  output : string;
  detail : string;
  dir : option string
}.

Definition declared : list (string * option (list string)) :=
  [("output", Some ["png"; "svg"; "pdf"]);
   ("detail", Some ["low"; "medium"; "high"]);
   ("dir", None)].

Definition parse_args (args : argv) : M Namespace :=
  if forallb (arg_accepted declared) args then
    mret (mkNamespace (default "svg" (last_value "output" args))
                      (default "medium" (last_value "detail" args))
                      (last_value "dir" args))
  else raise (SystemExit 2).

(** [len(l)] inside an f-string: the decimal numeral. *)
Definition decimal (n : nat) : string := pretty n.

Definition main (command_line : argv) : M unit :=
  args ← parse_args command_line;
  generator ← __init__ (py_or (dir args) "docs/diagrams") (output args) (detail args);
  generated_files ← generate_all generator;
  match generated_files with
  | _ :: _ =>
      print ("Generated " +:+ decimal (length generated_files)
             +:+ " port interface diagrams")
  | [] => print "Failed to generate port interface diagrams"
  end.

Definition script (command_line : argv) : M unit :=
  import_module;; main command_line.

End Script.

End Ports.

(** * Vocabulary of the properties *)

(** The diagram kinds of each script, in the order of [generate_all]. *)
Inductive c4_kind := Context | Container | Component | Code | CleanArchitecture.

Inductive ports_kind :=
| PortsComponent | PortsIntegration | DetailedPorts | CleanArchitecturePorts.

Definition c4_order : list c4_kind :=
  [Context; Container; Component; Code; CleanArchitecture].

Definition ports_order : list ports_kind :=
  [PortsComponent; PortsIntegration; DetailedPorts; CleanArchitecturePorts].

Section Kinds.

Variable diagrams_available : bool.
Variable pipeline : Diagram -> render_outcome.

Definition c4_method (k : c4_kind) : C4.C4DiagramGenerator -> M string :=
  match k with
  | Context => C4.generate_context_diagram diagrams_available pipeline
  | Container => C4.generate_container_diagram diagrams_available pipeline
  | Component => C4.generate_component_diagram diagrams_available pipeline
  | Code => C4.generate_code_diagram diagrams_available pipeline
  | CleanArchitecture =>
      C4.generate_clean_architecture_diagram diagrams_available pipeline
  end.

Definition ports_method (k : ports_kind)
    : Ports.PortInterfaceDiagramGenerator -> M string :=
  match k with
  | PortsComponent => Ports.generate_ports_component_diagram diagrams_available pipeline
  | PortsIntegration =>
      Ports.generate_ports_integration_diagram diagrams_available pipeline
  | DetailedPorts => Ports.generate_detailed_port_diagram diagrams_available pipeline
  | CleanArchitecturePorts =>
      Ports.generate_clean_architecture_ports_diagram diagrams_available pipeline
  end.

End Kinds.

(** The file each kind writes, [output_dir / f"samstraumr_..."]. *)
Definition c4_output_file (k : c4_kind) (self : C4.C4DiagramGenerator) : Path :=
  C4.output_dir self //
    (match k with
     | Context => "samstraumr_context_diagram."
     | Container => "samstraumr_container_diagram."
     | Component => "samstraumr_component_diagram."
     | Code => "samstraumr_code_diagram."
     | CleanArchitecture => "samstraumr_clean_architecture_diagram."
     end +:+ C4.output_format self).

Definition ports_output_file (k : ports_kind)
    (self : Ports.PortInterfaceDiagramGenerator) : Path :=
  Ports.output_dir self //
    (match k with
     | PortsComponent => "samstraumr_ports_component_diagram."
     | PortsIntegration => "samstraumr_ports_integration_diagram."
     | DetailedPorts => "samstraumr_detailed_ports_diagram."
     | CleanArchitecturePorts => "samstraumr_clean_arch_ports_diagram."
     end +:+ Ports.output_format self).

(** The diagram each kind hands to the pipeline. *)
Definition c4_diagram (k : c4_kind) (self : C4.C4DiagramGenerator) : Diagram :=
  match k with
  | Context => C4.context_diagram
  | Container => C4.container_diagram
  | Component => C4.component_diagram
  | Code => C4.code_diagram
  | CleanArchitecture => C4.clean_architecture_diagram
  end self (c4_output_file k self).

Definition ports_diagram (k : ports_kind)
    (self : Ports.PortInterfaceDiagramGenerator) : Diagram :=
  match k with
  | PortsComponent => Ports.ports_component_diagram
  | PortsIntegration => Ports.ports_integration_diagram
  | DetailedPorts => Ports.detailed_port_diagram
  | CleanArchitecturePorts => Ports.clean_architecture_ports_diagram
  end self (ports_output_file k self).

(** The three console lines of a kind: library missing, success (a
    prefix, followed by the path), failure (a prefix, followed by the
    exception's message). *)
Definition c4_noun (k : c4_kind) : string :=
  match k with
  | Context => "context"
  | Container => "container"
  | Component => "component"
  | Code => "code"
  | CleanArchitecture => "clean architecture"
  end.

Definition c4_unavailable (k : c4_kind) : string :=
  "Diagrams library not available. Cannot generate " +:+ c4_noun k +:+ " diagram.".
Definition c4_generated (k : c4_kind) : string :=
  "Generated " +:+ c4_noun k +:+ " diagram: ".
Definition c4_failed (k : c4_kind) : string :=
  "Failed to generate " +:+ c4_noun k +:+ " diagram: ".

Definition ports_noun (k : ports_kind) : string :=
  match k with
  | PortsComponent => "port interfaces component"
  | PortsIntegration => "port integration"
  | DetailedPorts => "detailed port"
  | CleanArchitecturePorts => "Clean Architecture ports"
  end.

Definition ports_unavailable (k : ports_kind) : string :=
  "Diagrams library not available. Cannot generate " +:+
  match k with
  | PortsComponent => "component"
  | other => ports_noun other
  end +:+ " diagram.".
Definition ports_generated (k : ports_kind) : string :=
  "Generated " +:+ ports_noun k +:+ " diagram: ".
Definition ports_failed (k : ports_kind) : string :=
  "Failed to generate " +:+ ports_noun k +:+ " diagram: ".

(** World updates. *)
Definition printed (lines : list string) (w : World) : World :=
  mkWorld (stdout w ++ lines) (fs w) (pipeline_calls w).

Definition called (d : Diagram) (w : World) : World :=
  mkWorld (stdout w) (fs w) (pipeline_calls w ++ [d]).

Definition image_written (d : Diagram) (w : World) : World :=
  mkWorld (stdout w) (<[image_key d := File]> (fs w)) (pipeline_calls w).

(** The pattern every generation method follows: the availability
    guard, then the [try] block around the diagram and the confirmation,
    with its [except Exception] handler. *)
Definition guarded_render (available : bool) (pipeline : Diagram -> render_outcome)
    (unavailable : string) (d : Diagram) (generated failed : string)
    (output_file : Path) : M string :=
  if negb available then
    print unavailable;; mret ""
  else
    try_except
      (with_Diagram pipeline d;;
       print (generated +:+ str output_file);;
       mret (str output_file))
      (fun e => print (failed +:+ exn_str e);; mret "").

(** What one call of a method does, as a function of the pipeline's
    answer. *)
Definition call_result (available : bool) (outcome : render_outcome)
    (output_file : Path) : string :=
  if available then
    match outcome with
    | Rendered => str output_file
    | Failed _ => ""
    end
  else "".

Definition call_line (available : bool) (outcome : render_outcome)
    (unavailable generated failed : string) (output_file : Path) : string :=
  if available then
    match outcome with
    | Rendered => generated +:+ str output_file
    | Failed msg => failed +:+ msg
    end
  else unavailable.

Definition call_world (available : bool) (outcome : render_outcome)
    (d : Diagram) (line : string) (w : World) : World :=
  if available then
    match outcome with
    | Rendered => printed [line] (image_written d (called d w))
    | Failed _ => printed [line] (called d w)
    end
  else printed [line] w.

(** Construction once the configuration is normalised: only the
    directory creation is left, and only it can raise. *)
Definition then_mkdir {G} (p : Path) (g : G) (w : World) : result G * World :=
  match mkdir p w with
  | (Ret _, w') => (Ret g, w')
  | (Raise e, w') => (Raise e, w')
  end.

(** Searching a specification for a node group by its label. *)
Fixpoint has_cluster (label : string) (it : item) : bool :=
  match it with
  | INode _ => false
  | ICluster l _ children =>
      String.eqb l label || existsb (has_cluster label) children
  end.

Definition has_group (label : string) (d : Diagram) : bool :=
  existsb (has_cluster label) (d_items d).

(** All nodes of a specification, in order of appearance. *)
Fixpoint item_nodes (it : item) : list node :=
  match it with
  | INode n => [n]
  | ICluster _ _ children => flat_map item_nodes children
  end.

Definition diagram_nodes (d : Diagram) : list node :=
  flat_map item_nodes (d_items d).

(** The console lines of the two constructors. *)
Definition format_warning (requested default_format : string) : string :=
  "Unsupported output format: " +:+ requested +:+ ", defaulting to " +:+ default_format.

Definition detail_warning (requested : string) : string :=
  "Unsupported detail level: " +:+ requested +:+ ", defaulting to medium".

Definition format_domain : list string := ["png"; "svg"; "pdf"].
Definition detail_domain : list string := ["low"; "medium"; "high"].

(** The summary line of script B's [main]. *)
Definition ports_summary (generated_files : list string) : string :=
  match generated_files with
  | _ :: _ =>
      "Generated " +:+ Ports.decimal (length generated_files)
      +:+ " port interface diagrams"
  | [] => "Failed to generate port interface diagrams"
  end.

Definition port_redirect : string :=
  "Port interface diagrams are generated by port_interfaces_diagram.py".

Definition empty_world : World := mkWorld [] ∅ [].

(** A rendering failure stays inside the method: the call returns the
    empty string after printing one line that ends with the exception's
    message. *)
Definition failure_contained (pipeline : Diagram -> render_outcome)
    (run : M string) (d : Diagram) (failed : string) : Prop :=
  forall msg w,
    pipeline d = Failed msg ->
    run w = (Ret "", printed [failed +:+ msg] (called d w)).

(** A successful rendering returns the path of the output file, which is
    not the empty string, after printing one line that ends with it. *)
Definition success_reported (pipeline : Diagram -> render_outcome)
    (run : M string) (d : Diagram) (generated : string) (output_file : Path) : Prop :=
  pipeline d = Rendered ->
  str output_file <> "" /\
  forall w,
    run w = (Ret (str output_file),
             printed [generated +:+ str output_file] (image_written d (called d w))).

(** The world after a batch: one call per kind, in order. *)
Definition batch_world {K} (available : bool) (pipeline : Diagram -> render_outcome)
    (diagram : K -> Diagram) (line : K -> string) (order : list K) (w : World)
    : World :=
  fold_left
    (fun w k => call_world available (pipeline (diagram k)) (diagram k) (line k) w)
    order w.

Definition c4_result (available : bool) (pipeline : Diagram -> render_outcome)
    (self : C4.C4DiagramGenerator) (k : c4_kind) : string :=
  call_result available (pipeline (c4_diagram k self)) (c4_output_file k self).

Definition c4_line (available : bool) (pipeline : Diagram -> render_outcome)
    (self : C4.C4DiagramGenerator) (k : c4_kind) : string :=
  call_line available (pipeline (c4_diagram k self))
    (c4_unavailable k) (c4_generated k) (c4_failed k) (c4_output_file k self).

Definition ports_result (available : bool) (pipeline : Diagram -> render_outcome)
    (self : Ports.PortInterfaceDiagramGenerator) (k : ports_kind) : string :=
  call_result available (pipeline (ports_diagram k self)) (ports_output_file k self).

Definition ports_line (available : bool) (pipeline : Diagram -> render_outcome)
    (self : Ports.PortInterfaceDiagramGenerator) (k : ports_kind) : string :=
  call_line available (pipeline (ports_diagram k self))
    (ports_unavailable k) (ports_generated k) (ports_failed k)
    (ports_output_file k self).

(** The outcome of normalising a requested value against its domain. *)
Definition normalized (domain : list string) (default_value requested : string)
    : string :=
  if py_in (lower requested) domain then lower requested else default_value.

Definition format_warnings (requested default_format : string) : list string :=
  if py_in (lower requested) format_domain then []
  else [format_warning requested default_format].

Definition detail_warnings (requested : string) : list string :=
  if py_in (lower requested) detail_domain then []
  else [detail_warning requested].

(** What construction leaves behind on the file system: the directory
    and all its ancestors exist as directories, and nothing that was
    there has been touched.  Standard output aside, nothing else has
    happened: no diagram was handed to the pipeline. *)
Definition directory_created (p : Path) (w w' : World) : Prop :=
  (forall q, q `prefix_of` parts p -> is_dir (fs w') (mkPath (root p) q) = true)
  /\ fs w ⊆ fs w'
  /\ pipeline_calls w' = pipeline_calls w.

(** How directory creation may change a file system: directories
    appear where there was nothing, away from the locations that always
    exist. *)
Definition grown (fs fs' : FileSystem) : Prop :=
  forall k, fs' !! k = fs !! k
            \/ (fs !! k = None /\ fs' !! k = Some (Dir true)
                /\ all_dotdot (snd k) = false).

(** No regular file has appeared between two worlds. *)
Definition no_new_files (w w' : World) : Prop :=
  forall k, fs w' !! k = Some File -> fs w !! k = Some File.

(** The directory that [main] passes to the constructor. *)
Definition requested_dir (command_line : argv) : Path :=
  Path_of (py_or (last_value "dir" command_line) "docs/diagrams").

(** The node group that the detailed-port diagram gains at detail level
    [high], and the edges that tie it to the port-interface nodes. *)
Definition standard_implementations : item :=
  ICluster "Standard Implementations" "LR"
    [INode (mkNode 29 IJava "NotificationAdapter");
     INode (mkNode 30 IJava "InMemoryCacheAdapter");
     INode (mkNode 31 IJava "StandardFileSystemAdapter");
     INode (mkNode 32 IJava "ValidationAdapter");
     INode (mkNode 33 IJava "InMemoryPersistenceAdapter")].

Definition implementation_edges : list edge :=
  [mkEdge (mkNode 0 IJava "NotificationPort") (mkNode 29 IJava "NotificationAdapter") Back;
   mkEdge (mkNode 6 IJava "CachePort") (mkNode 30 IJava "InMemoryCacheAdapter") Back;
   mkEdge (mkNode 12 IJava "FileSystemPort")
          (mkNode 31 IJava "StandardFileSystemAdapter") Back;
   mkEdge (mkNode 18 IJava "ValidationPort") (mkNode 32 IJava "ValidationAdapter") Back;
   mkEdge (mkNode 23 IJava "PersistencePort")
          (mkNode 33 IJava "InMemoryPersistenceAdapter") Back].

(** A specification extended by one top-level group and some edges. *)
Definition with_group (d : Diagram) (group : item) (new_edges : list edge) : Diagram :=
  mkDiagram (d_name d) (d_filename d) (d_outformat d) (d_show d) (d_direction d)
            (d_curvestyle d) (d_items d ++ [group]) (d_edges d ++ new_edges).

(** The detailed-port specification of a generator whose detail level is
    set aside. *)
Definition detailed_base (self : Ports.PortInterfaceDiagramGenerator) : Diagram :=
  ports_diagram DetailedPorts
    (Ports.mkGenerator (Ports.output_format self) "low" (Ports.output_dir self)).

(** Deciding whether two nodes are the same node. *)
Definition icon_eqb (a b : icon) : bool :=
  match a, b with
  | IJava, IJava | IPostgreSQL, IPostgreSQL | IUsers, IUsers | IUser, IUser
  | IServer, IServer | IStorage, IStorage | ISpring, ISpring | IKafka, IKafka
  | IGrafana, IGrafana => true
  | _, _ => false
  end.

Definition node_eqb (a b : node) : bool :=
  Nat.eqb (node_id a) (node_id b)
  && icon_eqb (node_icon a) (node_icon b)
  && String.eqb (node_label a) (node_label b).

Definition node_in (n : node) (l : list node) : bool := existsb (node_eqb n) l.

(** The file-system key of a path. *)
Definition path_key (p : Path) : fs_key := locate p.

(** Every flag of the command line is one that the script declares. *)
Definition flags_declared (declared : list (string * option (list string)))
    (command_line : argv) : bool :=
  forallb (fun a => existsb (String.eqb (fst a)) (map fst declared)) command_line.

(** A name of 300 bytes, more than a directory entry may have. *)
Definition over_long_name : string := String.concat "" (repeat "a" 300).

(** How a run ends: the result it gives and the status the process
    exits with. *)
Definition ends_with {A} (run : result A * World) (r : result A) (status : Z) : Prop :=
  fst run = r /\ exit_status (fst run) = status.

Definition is_rendered (o : render_outcome) : bool :=
  match o with
  | Rendered => true
  | Failed _ => false
  end.

(** A list of strings without repetition. *)
Fixpoint distinctb (l : list string) : bool :=
  match l with
  | [] => true
  | x :: rest => negb (existsb (String.eqb x) rest) && distinctb rest
  end.

(** The file names of the nine kinds, for given formats. *)
Definition c4_file_name (fmt : string) (k : c4_kind) : string :=
  match k with
  | Context => "samstraumr_context_diagram."
  | Container => "samstraumr_container_diagram."
  | Component => "samstraumr_component_diagram."
  | Code => "samstraumr_code_diagram."
  | CleanArchitecture => "samstraumr_clean_architecture_diagram."
  end +:+ fmt.

Definition ports_file_name (fmt : string) (k : ports_kind) : string :=
  match k with
  | PortsComponent => "samstraumr_ports_component_diagram."
  | PortsIntegration => "samstraumr_ports_integration_diagram."
  | DetailedPorts => "samstraumr_detailed_ports_diagram."
  | CleanArchitecturePorts => "samstraumr_clean_arch_ports_diagram."
  end +:+ fmt.

(** The kind that a value of [--type] selects on its own. *)
Definition c4_kind_of_type (ty : string) : option c4_kind :=
  if String.eqb ty "context" then Some Context
  else if String.eqb ty "container" then Some Container
  else if String.eqb ty "component" then Some Component
  else if String.eqb ty "code" then Some Code
  else if String.eqb ty "clean" then Some CleanArchitecture
  else None.

(** A command line with every occurrence of a flag taken out. *)
Definition remove_flag (flag : string) (command_line : argv) : argv :=
  List.filter (fun a => negb (String.eqb (fst a) flag)) command_line.

(** The lines of the guarded import when the library is missing. *)
Definition import_warning : list string :=
  ["Warning: diagrams package not available. Please install it with:";
   "  pip install diagrams";
   "And make sure graphviz is installed:";
   "  apt-get install graphviz  # Ubuntu/Debian";
   "  brew install graphviz      # macOS"].

(** Every edge of a specification joins two of its own nodes, and no
    two of its nodes share an identifier. *)
Definition edges_closed (d : Diagram) : bool :=
  forallb (fun e => node_in (e_tail e) (diagram_nodes d)
                    && node_in (e_head e) (diagram_nodes d))
          (d_edges d).

Fixpoint distinct_ids (l : list nat) : bool :=
  match l with
  | [] => true
  | x :: rest => negb (existsb (Nat.eqb x) rest) && distinct_ids rest
  end.

Definition well_formed (d : Diagram) : bool :=
  edges_closed d && distinct_ids (map node_id (diagram_nodes d)).

(** What script A's [main] prints, by value of [--type], when the
    library is missing. *)
Definition c4_lines_without_library (ty : string) : list string :=
  match c4_kind_of_type ty with
  | Some k => [c4_unavailable k]
  | None =>
      if String.eqb ty "port" then [port_redirect]
      else map c4_unavailable c4_order
  end.

(** * Properties *)

(** ** The program monad *)

Lemma bind_ret {A C} (m : M A) (f : A -> M C) (w w' : World) (a : A) :
  m w = (Ret a, w') -> (m ≫= f) w = f a w'.
Proof. intros H. unfold mbind, M_bind. now rewrite H. Qed.

Lemma bind_raise {A C} (m : M A) (f : A -> M C) (w w' : World) (e : exn) :
  m w = (Raise e, w') -> (m ≫= f) w = (Raise e, w').
Proof. intros H. unfold mbind, M_bind. now rewrite H. Qed.

Lemma print_spec (line : string) (w : World) :
  print line w = (Ret tt, printed [line] w).
Proof. reflexivity. Qed.

Lemma printed_app (l1 l2 : list string) (w : World) :
  printed l2 (printed l1 w) = printed (l1 ++ l2) w.
Proof. unfold printed. simpl. now rewrite app_assoc. Qed.

Lemma printed_nil (w : World) : printed [] w = w.
Proof. destruct w. unfold printed. simpl. now rewrite app_nil_r. Qed.

(** ** One generation call *)

Section GuardedRender.

Variable pipeline : Diagram -> render_outcome.
Variables (unavailable generated failed : string) (d : Diagram) (output_file : Path).

Lemma guarded_render_unavailable (w : World) :
  guarded_render false pipeline unavailable d generated failed output_file w
  = (Ret "", printed [unavailable] w).
Proof. reflexivity. Qed.

Lemma guarded_render_failed (msg : string) (w : World) :
  pipeline d = Failed msg ->
  guarded_render true pipeline unavailable d generated failed output_file w
  = (Ret "", printed [failed +:+ msg] (called d w)).
Proof.
  intros H. unfold guarded_render, try_except, with_Diagram, mbind, M_bind.
  cbv beta iota. simpl negb. cbv iota. rewrite H. reflexivity.
Qed.

Lemma guarded_render_rendered (w : World) :
  pipeline d = Rendered ->
  guarded_render true pipeline unavailable d generated failed output_file w
  = (Ret (str output_file),
     printed [generated +:+ str output_file] (image_written d (called d w))).
Proof.
  intros H. unfold guarded_render, try_except, with_Diagram, mbind, M_bind.
  cbv beta iota. simpl negb. cbv iota. rewrite H. reflexivity.
Qed.

(** The three cases at once. *)
Lemma guarded_render_spec (available : bool) (w : World) :
  guarded_render available pipeline unavailable d generated failed output_file w
  = (Ret (call_result available (pipeline d) output_file),
     call_world available (pipeline d) d
       (call_line available (pipeline d) unavailable generated failed output_file) w).
Proof.
  destruct available.
  - unfold call_result, call_line, call_world.
    destruct (pipeline d) eqn:E.
    + now apply guarded_render_rendered.
    + now apply guarded_render_failed.
  - apply guarded_render_unavailable.
Qed.

End GuardedRender.

Lemma c4_method_shape (available : bool) (pipeline : Diagram -> render_outcome)
    (k : c4_kind) (self : C4.C4DiagramGenerator) :
  c4_method available pipeline k self
  = guarded_render available pipeline (c4_unavailable k) (c4_diagram k self)
      (c4_generated k) (c4_failed k) (c4_output_file k self).
Proof. destruct k; reflexivity. Qed.

Lemma ports_method_shape (available : bool) (pipeline : Diagram -> render_outcome)
    (k : ports_kind) (self : Ports.PortInterfaceDiagramGenerator) :
  ports_method available pipeline k self
  = guarded_render available pipeline (ports_unavailable k) (ports_diagram k self)
      (ports_generated k) (ports_failed k) (ports_output_file k self).
Proof. destruct k; reflexivity. Qed.

(** ** Paths *)

Lemma string_length_append (a b : string) :
  String.length (a +:+ b) = String.length a + String.length b.
Proof. induction a as [|c a IH]; simpl; [reflexivity | now rewrite IH]. Qed.

Lemma concat_length_ge (sep x : string) (l : list string) :
  In x l -> String.length x <= String.length (String.concat sep l).
Proof.
  induction l as [|y l IH]; intros Hin; [destruct Hin |].
  destruct l as [|z l].
  - destruct Hin as [-> | []]. simpl. lia.
  - change (String.concat sep (y :: z :: l))
      with (y +:+ sep +:+ String.concat sep (z :: l)).
    rewrite !string_length_append.
    destruct Hin as [-> | Hin]; [lia |].
    specialize (IH Hin). lia.
Qed.

Lemma split_slash_head (c : ascii) (s : string) :
  c <> "/"%char -> exists h t, split_slash (String c s) = String c h :: t.
Proof.
  intros Hc. simpl. destruct (Ascii.eqb_spec c "/"%char) as [E | _]; [contradiction |].
  destruct (split_slash s) as [|h t]; eauto.
Qed.

Lemma filter_is_component_nonempty (l : list string) :
  Forall (fun x => x <> "") (List.filter is_component l).
Proof.
  apply List.Forall_forall. intros x Hx. apply filter_In in Hx as [_ Hx].
  unfold is_component in Hx. apply andb_prop in Hx as [Hx _].
  intros ->. discriminate.
Qed.

(** Appending a file name that starts with neither a slash nor a dot
    keeps the root and adds components, the first of which starts with
    that character. *)
Lemma truediv_file_name (p : Path) (c : ascii) (s : string) :
  c <> "/"%char -> c <> "."%char ->
  exists h l,
    p // String c s = mkPath (root p) (parts p ++ String c h :: l)
    /\ Forall (fun x => x <> "") l.
Proof.
  intros Hslash Hdot.
  destruct (split_slash_head c s Hslash) as (h & t & Hsplit).
  exists h, (List.filter is_component t). split.
  - unfold truediv, Path_of, parse_root. rewrite Hsplit.
    cbn [leading_slashes].
    destruct (Ascii.eqb_spec c "/"%char) as [E | _]; [contradiction |].
    cbn [root parts String.eqb List.filter].
    assert (Hcomp : is_component (String c h) = true).
    { unfold is_component. cbn [String.eqb].
      destruct (Ascii.eqb_spec c "."%char) as [E | _]; [contradiction | reflexivity]. }
    now rewrite Hcomp.
  - apply filter_is_component_nonempty.
Qed.

Lemma str_with_component (r : string) (l1 l2 : list string) (x : string) :
  x <> "" -> str (mkPath r (l1 ++ x :: l2)) <> "".
Proof.
  intros Hx Hstr.
  assert (Hlen : String.length x <= String.length (str (mkPath r (l1 ++ x :: l2)))).
  { unfold str. cbn [root parts].
    assert (Hin : In x (l1 ++ x :: l2)) by (apply in_or_app; right; now left).
    pose proof (concat_length_ge "/" x _ Hin) as Hge.
    destruct r; destruct (l1 ++ x :: l2) eqn:E;
      rewrite ?string_length_append; simpl in *; lia. }
  rewrite Hstr in Hlen. destruct x; [congruence | simpl in Hlen; lia].
Qed.

Lemma str_truediv_file_name (p : Path) (c : ascii) (s : string) :
  c <> "/"%char -> c <> "."%char -> str (p // String c s) <> "".
Proof.
  intros Hslash Hdot.
  destruct (truediv_file_name p c s Hslash Hdot) as (h & l & -> & _).
  now apply str_with_component.
Qed.

(** [with_suffix] is only applied to paths that have a name. *)
Lemma output_file_has_name (p : Path) (c : ascii) (s : string) :
  c <> "/"%char -> c <> "."%char ->
  exists l name, parts (p // String c s) = l ++ [name] /\ name <> "".
Proof.
  intros Hslash Hdot.
  destruct (truediv_file_name p c s Hslash Hdot) as (h & l & -> & Hl).
  cbn [parts]. destruct (exists_last (l := String c h :: l)) as (l' & name & E);
    [discriminate |].
  exists (parts p ++ l'), name. split.
  - rewrite E. now rewrite app_assoc.
  - assert (Hin : In name (String c h :: l)) by (rewrite E; apply in_or_app; right; now left).
    destruct Hin as [<- | Hin]; [discriminate |].
    rewrite List.Forall_forall in Hl. now apply Hl.
Qed.

Lemma c4_output_file_nonempty (k : c4_kind) (self : C4.C4DiagramGenerator) :
  str (c4_output_file k self) <> "".
Proof.
  unfold c4_output_file. destruct k; cbn [String.append];
    apply str_truediv_file_name; discriminate.
Qed.

Lemma ports_output_file_nonempty (k : ports_kind)
    (self : Ports.PortInterfaceDiagramGenerator) :
  str (ports_output_file k self) <> "".
Proof.
  unfold ports_output_file. destruct k; cbn [String.append];
    apply str_truediv_file_name; discriminate.
Qed.

(** ** Rendering failures and the missing library *)

(** C1.  With the rendering library available, every generation method
    of either generator catches an exception raised by the rendering
    pipeline: it prints one failure line that ends with the exception's
    message and returns the empty string, so nothing propagates to the
    caller.  When the pipeline succeeds, the method returns the path of
    the output file, which is a non-empty string, after printing one
    confirmation line that names that path. *)
Theorem rendering_failure_contained (pipeline : Diagram -> render_outcome) :
  (forall (k : c4_kind) (self : C4.C4DiagramGenerator),
      failure_contained pipeline (c4_method true pipeline k self)
        (c4_diagram k self) (c4_failed k)
      /\ success_reported pipeline (c4_method true pipeline k self)
           (c4_diagram k self) (c4_generated k) (c4_output_file k self))
  /\ (forall (k : ports_kind) (self : Ports.PortInterfaceDiagramGenerator),
         failure_contained pipeline (ports_method true pipeline k self)
           (ports_diagram k self) (ports_failed k)
         /\ success_reported pipeline (ports_method true pipeline k self)
              (ports_diagram k self) (ports_generated k) (ports_output_file k self)).
Proof.
  split; intros k self; split.
  - intros msg w H. rewrite c4_method_shape. now apply guarded_render_failed.
  - intros H. split; [apply c4_output_file_nonempty |].
    intros w. rewrite c4_method_shape. now apply guarded_render_rendered.
  - intros msg w H. rewrite ports_method_shape. now apply guarded_render_failed.
  - intros H. split; [apply ports_output_file_nonempty |].
    intros w. rewrite ports_method_shape. now apply guarded_render_rendered.
Qed.

(** ** The batch runner *)

Lemma append_if_filter (l : list string) (x : string) :
  append_if (List.filter truthy l) x = List.filter truthy (l ++ [x]).
Proof.
  unfold append_if. rewrite List.filter_app. simpl.
  destruct (truthy x); [reflexivity | now rewrite app_nil_r].
Qed.

Lemma c4_method_spec (available : bool) (pipeline : Diagram -> render_outcome)
    (k : c4_kind) (self : C4.C4DiagramGenerator) (w : World) :
  c4_method available pipeline k self w
  = (Ret (c4_result available pipeline self k),
     call_world available (pipeline (c4_diagram k self)) (c4_diagram k self)
       (c4_line available pipeline self k) w).
Proof. rewrite c4_method_shape. apply guarded_render_spec. Qed.

Lemma ports_method_spec (available : bool) (pipeline : Diagram -> render_outcome)
    (k : ports_kind) (self : Ports.PortInterfaceDiagramGenerator) (w : World) :
  ports_method available pipeline k self w
  = (Ret (ports_result available pipeline self k),
     call_world available (pipeline (ports_diagram k self)) (ports_diagram k self)
       (ports_line available pipeline self k) w).
Proof. rewrite ports_method_shape. apply guarded_render_spec. Qed.

Lemma c4_generate_all_spec (available : bool) (pipeline : Diagram -> render_outcome)
    (self : C4.C4DiagramGenerator) (w : World) :
  C4.generate_all available pipeline self w
  = (Ret (List.filter truthy (map (c4_result available pipeline self) c4_order)),
     batch_world available pipeline (fun k => c4_diagram k self)
       (c4_line available pipeline self) c4_order w).
Proof.
  unfold C4.generate_all.
  change (C4.generate_context_diagram available pipeline)
    with (c4_method available pipeline Context).
  change (C4.generate_container_diagram available pipeline)
    with (c4_method available pipeline Container).
  change (C4.generate_component_diagram available pipeline)
    with (c4_method available pipeline Component).
  change (C4.generate_code_diagram available pipeline)
    with (c4_method available pipeline Code).
  change (C4.generate_clean_architecture_diagram available pipeline)
    with (c4_method available pipeline CleanArchitecture).
  do 5 (erewrite bind_ret by apply c4_method_spec).
  change (@nil string) with (List.filter truthy []) at 1.
  rewrite !append_if_filter. reflexivity.
Qed.

Lemma ports_generate_all_spec (available : bool) (pipeline : Diagram -> render_outcome)
    (self : Ports.PortInterfaceDiagramGenerator) (w : World) :
  Ports.generate_all available pipeline self w
  = (Ret (List.filter truthy (map (ports_result available pipeline self) ports_order)),
     batch_world available pipeline (fun k => ports_diagram k self)
       (ports_line available pipeline self) ports_order w).
Proof.
  unfold Ports.generate_all.
  change (Ports.generate_ports_component_diagram available pipeline)
    with (ports_method available pipeline PortsComponent).
  change (Ports.generate_ports_integration_diagram available pipeline)
    with (ports_method available pipeline PortsIntegration).
  change (Ports.generate_detailed_port_diagram available pipeline)
    with (ports_method available pipeline DetailedPorts).
  change (Ports.generate_clean_architecture_ports_diagram available pipeline)
    with (ports_method available pipeline CleanArchitecturePorts).
  do 4 (erewrite bind_ret by apply ports_method_spec).
  change (@nil string) with (List.filter truthy []) at 1.
  rewrite !append_if_filter. reflexivity.
Qed.

Section BatchWorld.

Context {K : Type}.
Variable pipeline : Diagram -> render_outcome.
Variables (diagram : K -> Diagram) (line : K -> string).

Lemma call_world_stdout (available : bool) (o : render_outcome) (d : Diagram)
    (l : string) (w : World) :
  stdout (call_world available o d l w) = stdout w ++ [l].
Proof. destruct available, o; reflexivity. Qed.

Lemma call_world_calls (available : bool) (o : render_outcome) (d : Diagram)
    (l : string) (w : World) :
  pipeline_calls (call_world available o d l w)
  = pipeline_calls w ++ (if available then [d] else []).
Proof. destruct available, o; simpl; now rewrite ?app_nil_r. Qed.

Lemma batch_world_stdout (available : bool) (order : list K) (w : World) :
  stdout (batch_world available pipeline diagram line order w)
  = stdout w ++ map line order.
Proof.
  unfold batch_world. revert w.
  induction order as [|k order IH]; intros w; simpl.
  - now rewrite app_nil_r.
  - rewrite IH, call_world_stdout. now rewrite <- app_assoc.
Qed.

Lemma batch_world_calls (available : bool) (order : list K) (w : World) :
  pipeline_calls (batch_world available pipeline diagram line order w)
  = pipeline_calls w ++ (if available then map diagram order else []).
Proof.
  unfold batch_world. revert w.
  induction order as [|k order IH]; intros w; simpl.
  - destruct available; now rewrite app_nil_r.
  - rewrite IH, call_world_calls.
    destruct available; simpl; now rewrite <- app_assoc.
Qed.

Lemma batch_world_unavailable (order : list K) (w : World) :
  batch_world false pipeline diagram line order w = printed (map line order) w.
Proof.
  unfold batch_world. revert w.
  induction order as [|k order IH]; intros w; simpl.
  - now rewrite printed_nil.
  - rewrite IH. unfold call_world. now rewrite printed_app.
Qed.

End BatchWorld.

(** C2.  When the rendering library is unavailable, every generation
    method of both generators returns the empty string at once, having
    printed exactly one library-not-available line and nothing else: the
    file system and the record of pipeline calls are as before, so no
    diagram was attempted.  Each generator's [generate_all] returns the
    empty list, one such line having been printed per kind. *)
Theorem unavailable_library_short_circuits (pipeline : Diagram -> render_outcome) :
  (forall (k : c4_kind) self w,
      c4_method false pipeline k self w = (Ret "", printed [c4_unavailable k] w))
  /\ (forall (k : ports_kind) self w,
         ports_method false pipeline k self w
         = (Ret "", printed [ports_unavailable k] w))
  /\ (forall self w,
         C4.generate_all false pipeline self w
         = (Ret [], printed (map c4_unavailable c4_order) w))
  /\ (forall self w,
         Ports.generate_all false pipeline self w
         = (Ret [], printed (map ports_unavailable ports_order) w)).
Proof.
  repeat split; intros.
  - rewrite c4_method_shape. apply guarded_render_unavailable.
  - rewrite ports_method_shape. apply guarded_render_unavailable.
  - rewrite c4_generate_all_spec, batch_world_unavailable. reflexivity.
  - rewrite ports_generate_all_spec, batch_world_unavailable. reflexivity.
Qed.

Lemma filter_truthy_all (l : list string) :
  Forall (fun x => x <> "") l -> List.filter truthy l = l.
Proof.
  induction 1 as [|x l Hx _ IH]; [reflexivity |].
  simpl. destruct x; [congruence |]. simpl. now rewrite IH.
Qed.

(** C3.  [generate_all] calls the methods of its generator in a fixed
    order (script A: context, container, component, code, clean
    architecture; script B: ports component, ports integration, detailed
    ports, clean architecture ports): the lines printed and the diagrams
    handed to the pipeline appear in that order.  It returns the list of
    the non-empty results of those calls, in the same order.  When the
    library is available and every rendering succeeds, that list holds
    the five (script A) or four (script B) output paths. *)
Theorem generate_all_in_order (available : bool)
    (pipeline : Diagram -> render_outcome) :
  (forall self w,
      (forall k w0,
          fst (c4_method available pipeline k self w0)
          = Ret (c4_result available pipeline self k)
          /\ stdout (snd (c4_method available pipeline k self w0))
             = stdout w0 ++ [c4_line available pipeline self k])
      /\ exists w',
          C4.generate_all available pipeline self w
          = (Ret (List.filter truthy
                    (map (c4_result available pipeline self) c4_order)), w')
          /\ stdout w' = stdout w ++ map (c4_line available pipeline self) c4_order
          /\ pipeline_calls w'
             = pipeline_calls w
               ++ (if available then map (fun k => c4_diagram k self) c4_order else [])
          /\ (available = true ->
              (forall k, pipeline (c4_diagram k self) = Rendered) ->
              List.filter truthy (map (c4_result available pipeline self) c4_order)
              = map (fun k => str (c4_output_file k self)) c4_order
              /\ length (List.filter truthy
                           (map (c4_result available pipeline self) c4_order)) = 5))
  /\ (forall self w,
         (forall k w0,
             fst (ports_method available pipeline k self w0)
             = Ret (ports_result available pipeline self k)
             /\ stdout (snd (ports_method available pipeline k self w0))
                = stdout w0 ++ [ports_line available pipeline self k])
         /\ exists w',
             Ports.generate_all available pipeline self w
             = (Ret (List.filter truthy
                       (map (ports_result available pipeline self) ports_order)), w')
             /\ stdout w'
                = stdout w ++ map (ports_line available pipeline self) ports_order
             /\ pipeline_calls w'
                = pipeline_calls w
                  ++ (if available
                      then map (fun k => ports_diagram k self) ports_order else [])
             /\ (available = true ->
                 (forall k, pipeline (ports_diagram k self) = Rendered) ->
                 List.filter truthy
                   (map (ports_result available pipeline self) ports_order)
                 = map (fun k => str (ports_output_file k self)) ports_order
                 /\ length (List.filter truthy
                              (map (ports_result available pipeline self) ports_order))
                    = 4)).
Proof.
  split; intros self w; split.
  - intros k w0. rewrite c4_method_spec. split; [reflexivity |].
    apply call_world_stdout.
  - eexists. split; [apply c4_generate_all_spec |].
    split; [apply batch_world_stdout |].
    split; [apply batch_world_calls |].
    intros -> Hall.
    assert (E : map (c4_result true pipeline self) c4_order
                = map (fun k => str (c4_output_file k self)) c4_order).
    { apply map_ext. intros k. unfold c4_result, call_result. now rewrite Hall. }
    rewrite E, filter_truthy_all; [split; reflexivity |].
    apply List.Forall_forall. intros x Hx. apply in_map_iff in Hx as (k & <- & _).
    apply c4_output_file_nonempty.
  - intros k w0. rewrite ports_method_spec. split; [reflexivity |].
    apply call_world_stdout.
  - eexists. split; [apply ports_generate_all_spec |].
    split; [apply batch_world_stdout |].
    split; [apply batch_world_calls |].
    intros -> Hall.
    assert (E : map (ports_result true pipeline self) ports_order
                = map (fun k => str (ports_output_file k self)) ports_order).
    { apply map_ext. intros k. unfold ports_result, call_result. now rewrite Hall. }
    rewrite E, filter_truthy_all; [split; reflexivity |].
    apply List.Forall_forall. intros x Hx. apply in_map_iff in Hx as (k & <- & _).
    apply ports_output_file_nonempty.
Qed.

(** ** Construction: normalising the configuration *)

Lemma then_mkdir_bind {G} (p : Path) (g : G) (w : World) :
  (mkdir p;; mret g) w = then_mkdir p g w.
Proof.
  unfold then_mkdir, mbind, M_bind. destruct (mkdir p w) as [[[] | e] w']; reflexivity.
Qed.

Lemma c4_init_spec (dir fmt : string) (w : World) :
  C4.__init__ dir fmt w
  = then_mkdir (Path_of dir)
      (C4.mkGenerator (normalized format_domain "png" fmt) (Path_of dir))
      (printed (format_warnings fmt "png") w).
Proof.
  unfold C4.__init__, normalized, format_warnings, format_domain.
  destruct (py_in (lower fmt) ["png"; "svg"; "pdf"]); cbn [negb].
  - rewrite printed_nil. erewrite bind_ret by reflexivity. apply then_mkdir_bind.
  - erewrite bind_ret;
      [| erewrite bind_ret by apply print_spec; reflexivity ].
    apply then_mkdir_bind.
Qed.

Lemma ports_init_spec (dir fmt detail : string) (w : World) :
  Ports.__init__ dir fmt detail w
  = then_mkdir (Path_of dir)
      (Ports.mkGenerator (normalized format_domain "svg" fmt)
                         (normalized detail_domain "medium" detail) (Path_of dir))
      (printed (format_warnings fmt "svg" ++ detail_warnings detail) w).
Proof.
  unfold Ports.__init__, normalized, format_warnings, detail_warnings,
    format_domain, detail_domain.
  destruct (py_in (lower fmt) ["png"; "svg"; "pdf"]);
    destruct (py_in (lower detail) ["low"; "medium"; "high"]); cbn [negb app].
  - rewrite printed_nil. do 2 (erewrite bind_ret by reflexivity).
    apply then_mkdir_bind.
  - erewrite bind_ret by reflexivity.
    erewrite bind_ret;
      [| erewrite bind_ret by apply print_spec; reflexivity ].
    apply then_mkdir_bind.
  - erewrite bind_ret;
      [| erewrite bind_ret by apply print_spec; reflexivity ].
    erewrite bind_ret by reflexivity.
    apply then_mkdir_bind.
  - erewrite bind_ret;
      [| erewrite bind_ret by apply print_spec; reflexivity ].
    erewrite bind_ret;
      [| erewrite bind_ret by apply print_spec; reflexivity ].
    rewrite printed_app. apply then_mkdir_bind.
Qed.

(** C4.  A requested output format whose lowercasing is outside
    {png, svg, pdf} is replaced by the generator's default ([png] for
    the architecture generator, [svg] for the port-interface generator)
    and exactly one warning naming the requested value is printed; a
    format whose lowercasing is in the domain is kept in lower case and
    no warning is printed.  Normalising never raises: what is left of
    construction is the directory creation ([then_mkdir]). *)
Theorem output_format_normalized (dir fmt : string) (w : World) :
  (py_in (lower fmt) format_domain = false ->
   C4.__init__ dir fmt w
   = then_mkdir (Path_of dir) (C4.mkGenerator "png" (Path_of dir))
       (printed [format_warning fmt "png"] w)
   /\ forall detail,
       Ports.__init__ dir fmt detail w
       = then_mkdir (Path_of dir)
           (Ports.mkGenerator "svg" (normalized detail_domain "medium" detail)
                              (Path_of dir))
           (printed (format_warning fmt "svg" :: detail_warnings detail) w))
  /\ (py_in (lower fmt) format_domain = true ->
      C4.__init__ dir fmt w
      = then_mkdir (Path_of dir) (C4.mkGenerator (lower fmt) (Path_of dir)) w
      /\ forall detail,
          Ports.__init__ dir fmt detail w
          = then_mkdir (Path_of dir)
              (Ports.mkGenerator (lower fmt) (normalized detail_domain "medium" detail)
                                 (Path_of dir))
              (printed (detail_warnings detail) w)).
Proof.
  split; intros H; split; intros;
    rewrite ?c4_init_spec, ?ports_init_spec;
    unfold normalized at 1, format_warnings; rewrite H;
    rewrite ?printed_nil; reflexivity.
Qed.

(** C5.  A requested detail level whose lowercasing is outside
    {low, medium, high} is replaced by [medium] and exactly one warning
    naming the requested value is printed, after whatever the output
    format has caused to be printed; a detail level whose lowercasing is
    in the domain is kept in lower case and adds no warning. *)
Theorem detail_level_normalized (dir fmt detail : string) (w : World) :
  (py_in (lower detail) detail_domain = false ->
   Ports.__init__ dir fmt detail w
   = then_mkdir (Path_of dir)
       (Ports.mkGenerator (normalized format_domain "svg" fmt) "medium" (Path_of dir))
       (printed (format_warnings fmt "svg" ++ [detail_warning detail]) w))
  /\ (py_in (lower detail) detail_domain = true ->
      Ports.__init__ dir fmt detail w
      = then_mkdir (Path_of dir)
          (Ports.mkGenerator (normalized format_domain "svg" fmt) (lower detail)
                             (Path_of dir))
          (printed (format_warnings fmt "svg") w)).
Proof.
  split; intros H; rewrite ports_init_spec;
    unfold normalized at 2, detail_warnings; rewrite H;
    rewrite ?app_nil_r; reflexivity.
Qed.

(** ** Directory creation *)

Lemma grown_refl (fs : FileSystem) : grown fs fs.
Proof. intros k. now left. Qed.

Lemma grown_trans (fs1 fs2 fs3 : FileSystem) :
  grown fs1 fs2 -> grown fs2 fs3 -> grown fs1 fs3.
Proof.
  intros H12 H23 k. destruct (H12 k) as [E | (E1 & E2 & Ek)].
  - destruct (H23 k) as [E' | (E1' & E2' & Ek')].
    + left. congruence.
    + right. repeat split; congruence.
  - destruct (H23 k) as [E' | (E1' & E2' & Ek')].
    + right. repeat split; congruence.
    + congruence.
Qed.

Lemma grown_insert (fs : FileSystem) (r : string) (loc : list string) :
  fs !! (r, loc) = None -> all_dotdot loc = false ->
  grown fs (<[(r, loc) := Dir true]> fs).
Proof.
  intros Hnone Hloc k. destruct (decide ((r, loc) = k)) as [<- | Hne].
  - right. rewrite lookup_insert_eq. auto.
  - left. now rewrite lookup_insert_ne.
Qed.

Lemma grown_subseteq (fs fs' : FileSystem) : grown fs fs' -> fs ⊆ fs'.
Proof.
  intros H. apply map_subseteq_spec. intros k n Hk.
  destruct (H k) as [E | (E & _)]; congruence.
Qed.

Lemma grown_no_files (fs fs' : FileSystem) (k : fs_key) :
  grown fs fs' -> fs' !! k = Some File -> fs !! k = Some File.
Proof. intros H Hk. destruct (H k) as [E | (_ & E & _)]; congruence. Qed.

Lemma node_at_None (fs : FileSystem) (r : string) (loc : list string) :
  node_at fs r loc = None -> fs !! (r, loc) = None /\ all_dotdot loc = false.
Proof.
  unfold node_at. destruct (fs !! (r, loc)); [discriminate |].
  destruct (all_dotdot loc); [discriminate | auto].
Qed.

Lemma grown_node_at (fs fs' : FileSystem) (r : string) (loc : list string)
    (n : node_kind) :
  grown fs fs' -> node_at fs r loc = Some n -> node_at fs' r loc = Some n.
Proof.
  intros H. unfold node_at. destruct (H (r, loc)) as [-> | (E & _ & Hloc)];
    [tauto |].
  cbn [snd] in Hloc. rewrite E, Hloc. discriminate.
Qed.

Lemma grown_root_node (fs fs' : FileSystem) (r : string) :
  grown fs fs' -> root_node fs' r = root_node fs r.
Proof.
  intros H. unfold root_node. destruct (H (r, [])) as [-> | (_ & _ & E)];
    [reflexivity | discriminate].
Qed.

Section Lookup.

Variables (fs : FileSystem) (r : string).

(** A lookup that has found its entry finds it again after the file
    system has grown. *)
Lemma namei_grown (fs' : FileSystem) (todo loc : list string) (cur n : node_kind) :
  grown fs fs' ->
  namei fs r loc cur todo = Found n -> namei fs' r loc cur todo = Found n.
Proof.
  intros Hg. revert loc cur. induction todo as [|x rest IH]; intros loc cur H;
    [exact H |].
  simpl in *. destruct cur as [|w]; [discriminate |].
  destruct (String.eqb x "..").
  - destruct (node_at fs r (up r loc)) as [m|] eqn:E; [| discriminate].
    rewrite (grown_node_at _ _ _ _ _ Hg E). now apply IH.
  - destruct (255 <? String.length x)%nat; [discriminate |].
    destruct (node_at fs r (loc ++ [x])) as [m|] eqn:E.
    + rewrite (grown_node_at _ _ _ _ _ Hg E). now apply IH.
    + destruct rest; discriminate.
Qed.

(** The place that a lookup reports as free has no entry. *)
Lemma namei_absent (todo loc : list string) (cur : node_kind)
    (k : list string) (w : bool) :
  namei fs r loc cur todo = Absent k w ->
  fs !! (r, k) = None /\ all_dotdot k = false.
Proof.
  revert loc cur. induction todo as [|x rest IH]; intros loc cur H;
    [discriminate |].
  simpl in H. destruct cur as [|w0]; [discriminate |].
  destruct (String.eqb x "..").
  - destruct (node_at fs r (up r loc)) as [m|]; [| discriminate]. eapply IH, H.
  - destruct (255 <? String.length x)%nat; [discriminate |].
    destruct (node_at fs r (loc ++ [x])) as [m|] eqn:E; [eapply IH, H |].
    destruct rest; [| discriminate].
    injection H as <- _. now apply node_at_None.
Qed.

(** Once a directory is at the free place, the lookup finds it. *)
Lemma namei_created (fs' : FileSystem) (todo loc : list string) (cur : node_kind)
    (k : list string) (w : bool) :
  grown fs fs' -> fs' !! (r, k) = Some (Dir true) ->
  namei fs r loc cur todo = Absent k w ->
  namei fs' r loc cur todo = Found (Dir true).
Proof.
  intros Hg Hk. revert loc cur. induction todo as [|x rest IH]; intros loc cur H;
    [discriminate |].
  simpl in *. destruct cur as [|w0]; [discriminate |].
  destruct (String.eqb x "..").
  - destruct (node_at fs r (up r loc)) as [m|] eqn:E; [| discriminate].
    rewrite (grown_node_at _ _ _ _ _ Hg E). now apply IH.
  - destruct (255 <? String.length x)%nat; [discriminate |].
    destruct (node_at fs r (loc ++ [x])) as [m|] eqn:E.
    + rewrite (grown_node_at _ _ _ _ _ Hg E). now apply IH.
    + destruct rest; [| discriminate]. injection H as <- _.
      unfold node_at. rewrite Hk. reflexivity.
Qed.

(** A lookup that finds its entry has found a directory at every
    proper prefix. *)
Lemma namei_prefix (a b loc : list string) (cur n : node_kind) :
  namei fs r loc cur (a ++ b) = Found n ->
  exists m, namei fs r loc cur a = Found m
            /\ (b <> [] -> exists w, m = Dir w).
Proof.
  revert loc cur. induction a as [|x a IH]; intros loc cur H.
  - exists cur. split; [reflexivity |]. intros Hb.
    destruct b as [|y b]; [contradiction |].
    simpl in H. destruct cur as [|w]; [discriminate | eauto].
  - simpl in *. destruct cur as [|w]; [discriminate |].
    destruct (String.eqb x "..").
    + destruct (node_at fs r (up r loc)) as [m|]; [| discriminate]. now apply IH.
    + destruct (255 <? String.length x)%nat; [discriminate |].
      destruct (node_at fs r (loc ++ [x])) as [m|]; [now apply IH |].
      destruct (a ++ b); discriminate.
Qed.

End Lookup.

Lemma is_dir_grown (fs fs' : FileSystem) (p : Path) :
  grown fs fs' -> is_dir fs p = true -> is_dir fs' p = true.
Proof.
  intros Hg. unfold is_dir, stat. rewrite (grown_root_node _ _ _ Hg).
  destruct (namei fs _ _ _ _) as [[|w] | |] eqn:E; try discriminate.
  now rewrite (namei_grown _ _ _ _ _ _ _ Hg E).
Qed.

Lemma is_dir_prefix (fs : FileSystem) (p : Path) (q : list string) :
  is_dir fs p = true -> q `prefix_of` parts p ->
  is_dir fs (mkPath (root p) q) = true.
Proof.
  intros H [b Hb]. destruct b as [|y b].
  - rewrite app_nil_r in Hb. rewrite <- Hb. now destruct p.
  - revert H. unfold is_dir, stat, fs_root. cbn [root parts]. rewrite Hb.
    destruct (namei fs _ [] _ (q ++ y :: b)) as [[|w] | |] eqn:E;
      try discriminate.
    destruct (namei_prefix _ _ _ _ _ _ _ E) as (m & -> & Hm).
    destruct Hm as [w' ->]; [discriminate | reflexivity].
Qed.

Lemma errno_is_OSError (e : errno) (path : string) :
  is_OSError (errno_exn e path) = true.
Proof. now destruct e. Qed.

Lemma os_mkdir_grown (p : Path) (fs fs' : FileSystem) (res : result unit) :
  os_mkdir p fs = (res, fs') -> grown fs fs'.
Proof.
  unfold os_mkdir, stat. destruct (namei fs _ _ _ _) as [n | k w | e] eqn:E.
  - intros [= _ <-]. apply grown_refl.
  - apply namei_absent in E as [Hnone Hk].
    destruct w; intros [= _ <-]; [now apply grown_insert | apply grown_refl].
  - intros [= _ <-]. apply grown_refl.
Qed.

Lemma os_mkdir_OSError (p : Path) (fs fs' : FileSystem) (e : exn) :
  os_mkdir p fs = (Raise e, fs') -> is_OSError e = true.
Proof.
  unfold os_mkdir. destruct (stat fs p) as [n | k w | x].
  - now intros [= <- _].
  - destruct w; [discriminate | now intros [= <- _]].
  - intros [= <- _]. apply errno_is_OSError.
Qed.

(** [os.mkdir] returns only after it has made the directory. *)
Lemma os_mkdir_ret (p : Path) (fs fs' : FileSystem) :
  os_mkdir p fs = (Ret tt, fs') -> is_dir fs' p = true.
Proof.
  intros H. pose proof (os_mkdir_grown _ _ _ _ H) as Hg. revert H.
  unfold os_mkdir, is_dir, stat. rewrite (grown_root_node _ _ _ Hg).
  destruct (namei fs _ _ _ _) as [n | k w | e] eqn:E; try discriminate.
  destruct w; [| discriminate]. intros [= <-].
  erewrite namei_created; [reflexivity | exact Hg | apply lookup_insert_eq | exact E].
Qed.

(** On a path that names a directory, [os.mkdir] raises
    [FileExistsError] and changes nothing. *)
Lemma os_mkdir_existing (p : Path) (fs : FileSystem) :
  is_dir fs p = true -> os_mkdir p fs = (Raise (FileExistsError (str p)), fs).
Proof.
  unfold is_dir, os_mkdir. destruct (stat fs p) as [[|w] | |]; try discriminate.
  reflexivity.
Qed.

Lemma mkdir_exist_ok_grown (p : Path) (fs fs' : FileSystem) (res : result unit) :
  mkdir_exist_ok p fs = (res, fs') -> grown fs fs'.
Proof.
  unfold mkdir_exist_ok. destruct (os_mkdir p fs) as [[[] | e] fs1] eqn:E;
    apply os_mkdir_grown in E.
  - now intros [= _ <-].
  - destruct (is_FileNotFoundError e); [now intros [= _ <-] |].
    destruct (is_dir fs1 p); now intros [= _ <-].
Qed.

Lemma mkdir_exist_ok_ret (p : Path) (fs fs' : FileSystem) :
  mkdir_exist_ok p fs = (Ret tt, fs') -> is_dir fs' p = true.
Proof.
  unfold mkdir_exist_ok. destruct (os_mkdir p fs) as [[[] | e] fs1] eqn:E.
  - intros [= <-]. eapply os_mkdir_ret, E.
  - destruct (is_FileNotFoundError e); [discriminate |].
    destruct (is_dir fs1 p) eqn:Hd; [| discriminate]. now intros [= <-].
Qed.

Lemma mkdir_exist_ok_OSError (p : Path) (fs fs' : FileSystem) (e : exn) :
  mkdir_exist_ok p fs = (Raise e, fs') -> is_OSError e = true.
Proof.
  unfold mkdir_exist_ok. destruct (os_mkdir p fs) as [[[] | e'] fs1] eqn:E;
    [discriminate |].
  apply os_mkdir_OSError in E.
  destruct (is_FileNotFoundError e'); [now intros [= <- _] |].
  destruct (is_dir fs1 p); [discriminate | now intros [= <- _]].
Qed.

Lemma mkdir_parents_grown (r : string) (rparts : list string)
    (fs fs' : FileSystem) (res : result unit) :
  mkdir_parents r rparts fs = (res, fs') -> grown fs fs'.
Proof.
  revert fs fs' res. induction rparts as [|x parent IH]; intros fs fs' res; cbn [mkdir_parents]; cbv zeta;
    destruct (os_mkdir _ fs) as [[[] | e] fs1] eqn:E;
    apply os_mkdir_grown in E; try (now intros [= _ <-]).
  - destruct (is_FileNotFoundError e); [now intros [= _ <-] |].
    destruct (is_dir fs1 _); now intros [= _ <-].
  - destruct (is_FileNotFoundError e).
    + destruct (mkdir_parents r parent fs1) as [[[] | e1] fs2] eqn:E1;
        apply IH in E1.
      * intros H. apply mkdir_exist_ok_grown in H.
        eauto using grown_trans.
      * intros [= _ <-]. eauto using grown_trans.
    + destruct (is_dir fs1 _); now intros [= _ <-].
Qed.

(** The creation returns only where the path names a directory. *)
Lemma mkdir_parents_ret (r : string) (rparts : list string)
    (fs fs' : FileSystem) :
  mkdir_parents r rparts fs = (Ret tt, fs') ->
  is_dir fs' (mkPath r (rev rparts)) = true.
Proof.
  destruct rparts as [|x parent]; cbn [mkdir_parents]; cbv zeta;
    destruct (os_mkdir _ fs) as [[[] | e] fs1] eqn:E;
    try (intros [= <-]; eapply os_mkdir_ret, E).
  - destruct (is_FileNotFoundError e); [discriminate |].
    destruct (is_dir fs1 _) eqn:Hd; [now intros [= <-] | discriminate].
  - destruct (is_FileNotFoundError e).
    + destruct (mkdir_parents r parent fs1) as [[[] | e1] fs2]; [| discriminate].
      apply mkdir_exist_ok_ret.
    + destruct (is_dir fs1 _) eqn:Hd; [now intros [= <-] | discriminate].
Qed.

(** Where the path names a directory already, nothing changes. *)
Lemma mkdir_parents_existing (r : string) (rparts : list string) (fs : FileSystem) :
  is_dir fs (mkPath r (rev rparts)) = true ->
  mkdir_parents r rparts fs = (Ret tt, fs).
Proof.
  intros H. destruct rparts as [|x parent]; cbn [mkdir_parents]; cbv zeta;
    rewrite (os_mkdir_existing _ _ H); cbn [is_FileNotFoundError];
    now rewrite H.
Qed.

Lemma mkdir_parents_OSError (r : string) (rparts : list string)
    (fs fs' : FileSystem) (e : exn) :
  mkdir_parents r rparts fs = (Raise e, fs') -> is_OSError e = true.
Proof.
  revert fs fs' e. induction rparts as [|x parent IH]; intros fs fs' e; cbn [mkdir_parents]; cbv zeta;
    destruct (os_mkdir _ fs) as [[[] | e0] fs1] eqn:E; try discriminate;
    apply os_mkdir_OSError in E.
  - destruct (is_FileNotFoundError e0); [now intros [= <- _] |].
    destruct (is_dir fs1 _); [discriminate | now intros [= <- _]].
  - destruct (is_FileNotFoundError e0).
    + destruct (mkdir_parents r parent fs1) as [[[] | e1] fs2] eqn:E1.
      * apply mkdir_exist_ok_OSError.
      * apply IH in E1. now intros [= <- _].
    + destruct (is_dir fs1 _); [discriminate | now intros [= <- _]].
Qed.

Lemma path_eta (p : Path) : mkPath (root p) (rev (rev (parts p))) = p.
Proof. destruct p. cbn. now rewrite rev_involutive. Qed.

Lemma Path_mkdir_grown (p : Path) (fs fs' : FileSystem) (res : result unit) :
  Path_mkdir p fs = (res, fs') -> grown fs fs'.
Proof.
  unfold Path_mkdir. destruct (has_nul (str p)); [intros [= _ <-]; apply grown_refl |].
  destruct (4095 <? String.length (str p))%nat;
    [intros [= _ <-]; apply grown_refl | apply mkdir_parents_grown].
Qed.

Lemma Path_mkdir_ret (p : Path) (fs fs' : FileSystem) :
  Path_mkdir p fs = (Ret tt, fs') ->
  is_dir fs' p = true /\ Path_mkdir p fs' = (Ret tt, fs').
Proof.
  unfold Path_mkdir. destruct (has_nul (str p)); [discriminate |].
  destruct (4095 <? String.length (str p))%nat; [discriminate |].
  intros H. apply mkdir_parents_ret in H. rewrite path_eta in H.
  split; [exact H |]. apply mkdir_parents_existing. now rewrite path_eta.
Qed.

(** What the creation raises is an [OSError], or the [ValueError] for a
    NUL byte. *)
Lemma Path_mkdir_raises (p : Path) (fs fs' : FileSystem) (e : exn) :
  Path_mkdir p fs = (Raise e, fs') ->
  is_OSError e = true \/ e = ValueError "embedded null byte".
Proof.
  unfold Path_mkdir. destruct (has_nul (str p)); [intros [= <- _]; now right |].
  destruct (4095 <? String.length (str p))%nat; [intros [= <- _]; now left |].
  intros H. left. eapply mkdir_parents_OSError, H.
Qed.

(** Directory creation does not look at what has been printed. *)
Lemma mkdir_printed (p : Path) (lines : list string) (w w1 : World) (res : result unit) :
  mkdir p w = (res, w1) -> mkdir p (printed lines w) = (res, printed lines w1).
Proof.
  unfold mkdir. cbn [printed fs stdout pipeline_calls].
  destruct (Path_mkdir p (fs w)) as [res' fs']. now intros [= <- <-].
Qed.

Lemma mkdir_returns (p : Path) (w w1 : World) :
  mkdir p w = (Ret tt, w1) ->
  stdout w1 = stdout w
  /\ directory_created p w w1
  /\ no_new_files w w1
  /\ mkdir p w1 = (Ret tt, w1).
Proof.
  unfold mkdir. destruct (Path_mkdir p (fs w)) as [res fs'] eqn:E.
  intros [= -> <-]. cbn [fs stdout pipeline_calls].
  pose proof (Path_mkdir_grown _ _ _ _ E) as Hg.
  apply Path_mkdir_ret in E as [Hdir Hagain].
  split; [reflexivity |]. split; [| split].
  - split; [| split; [now apply grown_subseteq | reflexivity]].
    intros q Hq. now apply is_dir_prefix.
  - intros k. now apply grown_no_files.
  - now rewrite Hagain.
Qed.

Lemma mkdir_raises (p : Path) (w w1 : World) (e : exn) :
  mkdir p w = (Raise e, w1) ->
  (is_OSError e = true \/ e = ValueError "embedded null byte")
  /\ stdout w1 = stdout w
  /\ pipeline_calls w1 = pipeline_calls w.
Proof.
  unfold mkdir. destruct (Path_mkdir p (fs w)) as [res fs'] eqn:E.
  intros [= -> <-]. split; [eapply Path_mkdir_raises, E | split; reflexivity].
Qed.

Lemma then_mkdir_spec {G} (p : Path) (g : G) (lines : list string) (w w1 : World) :
  mkdir p w = (Ret tt, w1) ->
  then_mkdir p g (printed lines w) = (Ret g, printed lines w1)
  /\ stdout w1 = stdout w
  /\ directory_created p w w1
  /\ no_new_files w w1
  /\ forall lines', then_mkdir p g (printed lines' w1) = (Ret g, printed lines' w1).
Proof.
  intros H. destruct (mkdir_returns p w w1 H) as (Hout & Hdir & Hfiles & Hagain).
  unfold then_mkdir. rewrite (mkdir_printed p lines _ _ _ H).
  repeat split; try assumption; try apply Hdir.
  intros lines'. now rewrite (mkdir_printed p lines' _ _ _ Hagain).
Qed.

Lemma then_mkdir_raises {G} (p : Path) (g : G) (lines : list string) (w w1 : World)
    (e : exn) :
  mkdir p w = (Raise e, w1) ->
  then_mkdir p g (printed lines w) = (Raise e, printed lines w1).
Proof.
  intros H. unfold then_mkdir. now rewrite (mkdir_printed p lines _ _ _ H).
Qed.

Lemma then_mkdir_returns {G} (p : Path) (g : G) (w w1 : World) :
  mkdir p w = (Ret tt, w1) -> then_mkdir p g w = (Ret g, w1).
Proof. intros H. unfold then_mkdir. now rewrite H. Qed.

Lemma then_mkdir_fails {G} (p : Path) (g : G) (w w1 : World) (e : exn) :
  mkdir p w = (Raise e, w1) -> then_mkdir p g w = (Raise e, w1).
Proof. intros H. unfold then_mkdir. now rewrite H. Qed.


(** ** The entry points *)

Section EntryPoints.

Variable available : bool.
Variable pipeline : Diagram -> render_outcome.

Lemma c4_main_rejects (command_line : argv) (w : World) :
  forallb (arg_accepted C4.declared) command_line = false ->
  C4.main available pipeline command_line w = (Raise (SystemExit 2), w).
Proof.
  intros H. unfold C4.main, C4.parse_args. rewrite H. reflexivity.
Qed.

Lemma ports_main_rejects (command_line : argv) (w : World) :
  forallb (arg_accepted Ports.declared) command_line = false ->
  Ports.main available pipeline command_line w = (Raise (SystemExit 2), w).
Proof.
  intros H. unfold Ports.main, Ports.parse_args. rewrite H. reflexivity.
Qed.

(** [argparse] only lets declared choices through. *)
Lemma accepted_output (declared : list (string * option (list string)))
    (command_line : argv) (flag v : string) (choices : list string) :
  forallb (arg_accepted declared) command_line = true ->
  (forall d, In d declared -> fst d = flag -> snd d = Some choices) ->
  last_value flag command_line = Some v -> py_in v choices = true.
Proof.
  intros Hacc Hdecl. induction command_line as [|[f x] rest IH]; [discriminate |].
  simpl in Hacc. apply andb_prop in Hacc as [Hhere Hacc]. simpl.
  destruct (last_value flag rest) as [v'|].
  - intros [= ->]. now apply IH.
  - destruct (String.eqb_spec f flag) as [-> | _]; [| discriminate].
    intros [= ->]. unfold arg_accepted in Hhere.
    apply existsb_exists in Hhere as (d & Hd & Hok).
    apply andb_prop in Hok as [Hname Hchoice]. cbn [fst snd] in *.
    apply String.eqb_eq in Hname. symmetry in Hname.
    rewrite (Hdecl d Hd Hname) in Hchoice. exact Hchoice.
Qed.

Lemma py_in_lower_domain (domain : list string) (v : string) :
  Forall (fun x => lower x = x) domain ->
  py_in v domain = true -> lower v = v /\ py_in (lower v) domain = true.
Proof.
  intros Hdom Hin. unfold py_in in Hin. apply existsb_exists in Hin as (x & Hx & E).
  apply String.eqb_eq in E. subst x.
  rewrite List.Forall_forall in Hdom. rewrite (Hdom v Hx). split; [reflexivity |].
  unfold py_in. apply existsb_exists. exists v. split; [exact Hx |].
  apply String.eqb_refl.
Qed.


Lemma accepted_value_normal (declared : list (string * option (list string)))
    (command_line : argv) (flag default_value : string) (domain : list string) :
  forallb (arg_accepted declared) command_line = true ->
  (forall d, In d declared -> fst d = flag -> snd d = Some domain) ->
  Forall (fun x => lower x = x) domain ->
  py_in default_value domain = true ->
  let v := default default_value (last_value flag command_line) in
  lower v = v /\ py_in (lower v) domain = true.
Proof.
  intros Hacc Hdecl Hdom Hdef v. apply py_in_lower_domain; [exact Hdom |].
  subst v. destruct (last_value flag command_line) as [x|] eqn:E; [| exact Hdef].
  eapply accepted_output; eauto.
Qed.

Lemma format_domain_lower : Forall (fun x => lower x = x) format_domain.
Proof. repeat constructor. Qed.

Lemma detail_domain_lower : Forall (fun x => lower x = x) detail_domain.
Proof. repeat constructor. Qed.

(** A command line that [argparse] accepts causes no warning. *)
Lemma c4_init_accepted (command_line : argv) (w : World) :
  forallb (arg_accepted C4.declared) command_line = true ->
  C4.__init__ (py_or (last_value "dir" command_line) "docs/diagrams")
              (default "png" (last_value "output" command_line)) w
  = then_mkdir (requested_dir command_line)
      (C4.mkGenerator (default "png" (last_value "output" command_line))
                      (requested_dir command_line)) w.
Proof.
  intros Hacc. rewrite c4_init_spec. unfold normalized, format_warnings.
  destruct (accepted_value_normal C4.declared command_line "output" "png"
              format_domain Hacc) as [Hlow Hin];
    [ | apply format_domain_lower | reflexivity | ].
  { intros d Hd Hname. simpl in Hd.
    destruct Hd as [<- | [<- | [<- | []]]]; try discriminate; reflexivity. }
  rewrite Hin, Hlow, printed_nil. reflexivity.
Qed.

Lemma ports_init_accepted (command_line : argv) (w : World) :
  forallb (arg_accepted Ports.declared) command_line = true ->
  Ports.__init__ (py_or (last_value "dir" command_line) "docs/diagrams")
                 (default "svg" (last_value "output" command_line))
                 (default "medium" (last_value "detail" command_line)) w
  = then_mkdir (requested_dir command_line)
      (Ports.mkGenerator (default "svg" (last_value "output" command_line))
                         (default "medium" (last_value "detail" command_line))
                         (requested_dir command_line)) w.
Proof.
  intros Hacc. rewrite ports_init_spec.
  unfold normalized, format_warnings, detail_warnings.
  destruct (accepted_value_normal Ports.declared command_line "output" "svg"
              format_domain Hacc) as [Hlow Hin];
    [ | apply format_domain_lower | reflexivity | ].
  { intros d Hd Hname. simpl in Hd.
    destruct Hd as [<- | [<- | [<- | []]]]; try discriminate; reflexivity. }
  destruct (accepted_value_normal Ports.declared command_line "detail" "medium"
              detail_domain Hacc) as [Hlow' Hin'];
    [ | apply detail_domain_lower | reflexivity | ].
  { intros d Hd Hname. simpl in Hd.
    destruct Hd as [<- | [<- | [<- | []]]]; try discriminate; reflexivity. }
  rewrite Hin, Hlow, Hin', Hlow', printed_nil. reflexivity.
Qed.

(** [main] of script A once the generator is constructed: the dispatch
    on [args.type]. *)
Lemma c4_main_after_init (command_line : argv) (w w1 : World)
    (g : C4.C4DiagramGenerator) :
  forallb (arg_accepted C4.declared) command_line = true ->
  then_mkdir (requested_dir command_line)
    (C4.mkGenerator (default "png" (last_value "output" command_line))
                    (requested_dir command_line)) w = (Ret g, w1) ->
  C4.main available pipeline command_line w
  = (let ty := default "all" (last_value "type" command_line) in
     if String.eqb ty "context" then c4_method available pipeline Context g;; mret tt
     else if String.eqb ty "container" then
       c4_method available pipeline Container g;; mret tt
     else if String.eqb ty "component" then
       c4_method available pipeline Component g;; mret tt
     else if String.eqb ty "code" then c4_method available pipeline Code g;; mret tt
     else if String.eqb ty "clean" then
       c4_method available pipeline CleanArchitecture g;; mret tt
     else if String.eqb ty "port" then print port_redirect
     else C4.generate_all available pipeline g;; mret tt) w1.
Proof.
  intros Hacc Hinit. unfold C4.main, C4.parse_args. rewrite Hacc.
  erewrite bind_ret by reflexivity. cbn [C4.type C4.output C4.dir].
  erewrite bind_ret by (rewrite c4_init_accepted by exact Hacc; exact Hinit).
  reflexivity.
Qed.

Lemma c4_main_init_raises (command_line : argv) (w w1 : World) (e : exn) :
  forallb (arg_accepted C4.declared) command_line = true ->
  then_mkdir (requested_dir command_line)
    (C4.mkGenerator (default "png" (last_value "output" command_line))
                    (requested_dir command_line)) w = (Raise e, w1) ->
  C4.main available pipeline command_line w = (Raise e, w1).
Proof.
  intros Hacc Hinit. unfold C4.main, C4.parse_args. rewrite Hacc.
  erewrite bind_ret by reflexivity. cbn [C4.type C4.output C4.dir].
  erewrite bind_raise by (rewrite c4_init_accepted by exact Hacc; exact Hinit).
  reflexivity.
Qed.

Lemma ports_main_after_init (command_line : argv) (w w1 : World)
    (g : Ports.PortInterfaceDiagramGenerator) :
  forallb (arg_accepted Ports.declared) command_line = true ->
  then_mkdir (requested_dir command_line)
    (Ports.mkGenerator (default "svg" (last_value "output" command_line))
                       (default "medium" (last_value "detail" command_line))
                       (requested_dir command_line)) w = (Ret g, w1) ->
  exists files w2,
    Ports.generate_all available pipeline g w1 = (Ret files, w2)
    /\ Ports.main available pipeline command_line w
       = (Ret tt, printed [ports_summary files] w2).
Proof.
  intros Hacc Hinit. eexists _, _. split; [apply ports_generate_all_spec |].
  unfold Ports.main, Ports.parse_args. rewrite Hacc.
  erewrite bind_ret by reflexivity. cbn [Ports.detail Ports.output Ports.dir].
  erewrite bind_ret by (rewrite ports_init_accepted by exact Hacc; exact Hinit).
  erewrite bind_ret by apply ports_generate_all_spec.
  unfold ports_summary.
  destruct (List.filter truthy _); reflexivity.
Qed.

Lemma ports_main_init_raises (command_line : argv) (w w1 : World) (e : exn) :
  forallb (arg_accepted Ports.declared) command_line = true ->
  then_mkdir (requested_dir command_line)
    (Ports.mkGenerator (default "svg" (last_value "output" command_line))
                       (default "medium" (last_value "detail" command_line))
                       (requested_dir command_line)) w = (Raise e, w1) ->
  Ports.main available pipeline command_line w = (Raise e, w1).
Proof.
  intros Hacc Hinit. unfold Ports.main, Ports.parse_args. rewrite Hacc.
  erewrite bind_ret by reflexivity. cbn [Ports.detail Ports.output Ports.dir].
  erewrite bind_raise by (rewrite ports_init_accepted by exact Hacc; exact Hinit).
  reflexivity.
Qed.

(** Once the generator exists, script A's dispatch returns normally
    whatever the kind. *)
Lemma c4_main_returns (command_line : argv) (w w1 : World)
    (g : C4.C4DiagramGenerator) :
  forallb (arg_accepted C4.declared) command_line = true ->
  then_mkdir (requested_dir command_line)
    (C4.mkGenerator (default "png" (last_value "output" command_line))
                    (requested_dir command_line)) w = (Ret g, w1) ->
  exists w', C4.main available pipeline command_line w = (Ret tt, w').
Proof.
  intros Hacc Hinit. rewrite (c4_main_after_init _ _ _ _ Hacc Hinit). cbv zeta.
  repeat match goal with
         | |- context [if String.eqb ?a ?b then _ else _] =>
             destruct (String.eqb a b)
         end;
    try (erewrite bind_ret by apply c4_method_spec; eexists; reflexivity).
  - eexists. apply print_spec.
  - erewrite bind_ret by apply c4_generate_all_spec. eexists. reflexivity.
Qed.

End EntryPoints.

(** ** The detailed-port diagram *)

Lemma icon_eqb_eq (a b : icon) : icon_eqb a b = true -> a = b.
Proof. destruct a, b; simpl; congruence. Qed.

Lemma node_eqb_eq (a b : node) : node_eqb a b = true -> a = b.
Proof.
  destruct a as [i ic l], b as [i' ic' l']. unfold node_eqb. cbn [node_id node_icon node_label].
  intros H. apply andb_prop in H as [H Hl]. apply andb_prop in H as [Hi Hic].
  apply Nat.eqb_eq in Hi. apply icon_eqb_eq in Hic. apply String.eqb_eq in Hl.
  now subst.
Qed.

Lemma node_in_In (n : node) (l : list node) : node_in n l = true -> In n l.
Proof.
  unfold node_in. intros H. apply existsb_exists in H as (m & Hm & E).
  apply node_eqb_eq in E. now subst.
Qed.

Lemma detailed_high (self : Ports.PortInterfaceDiagramGenerator) :
  Ports.detail_level self = "high" ->
  ports_diagram DetailedPorts self
  = with_group (detailed_base self) standard_implementations implementation_edges.
Proof.
  intros H. unfold detailed_base, ports_diagram, Ports.detailed_port_diagram.
  rewrite H. unfold build_diagram, with_group.
  cbn [d_name d_filename d_outformat d_show d_direction d_curvestyle d_items d_edges].
  apply f_equal2; vm_compute; reflexivity.
Qed.

Lemma detailed_not_high (self : Ports.PortInterfaceDiagramGenerator) :
  Ports.detail_level self <> "high" ->
  ports_diagram DetailedPorts self = detailed_base self.
Proof.
  intros H. apply String.eqb_neq in H.
  unfold detailed_base, ports_diagram, Ports.detailed_port_diagram.
  rewrite H. unfold build_diagram.
  apply f_equal2; vm_compute; reflexivity.
Qed.

Lemma detailed_base_plain (self : Ports.PortInterfaceDiagramGenerator) :
  has_group "Standard Implementations" (detailed_base self) = false
  /\ d_edges (detailed_base self) = [].
Proof. split; vm_compute; reflexivity. Qed.

(** C6.  The specification built for the detailed-port diagram contains
    the "Standard Implementations" group exactly when the generator's
    detail level is [high].  At [high] the specification is the base
    specification extended by that group, which holds five adapter
    nodes, and by five edges, each between a port-interface node of the
    base specification and one of the adapter nodes.  At any other
    level the specification is the base specification, which has no
    such group, and the base specification does not depend on the
    detail level. *)
Theorem detail_level_high_adds_implementations
    (self : Ports.PortInterfaceDiagramGenerator) :
  (has_group "Standard Implementations" (ports_diagram DetailedPorts self) = true
   <-> Ports.detail_level self = "high")
  /\ (Ports.detail_level self = "high" ->
      ports_diagram DetailedPorts self
      = with_group (detailed_base self) standard_implementations implementation_edges)
  /\ (Ports.detail_level self <> "high" ->
      ports_diagram DetailedPorts self = detailed_base self)
  /\ has_group "Standard Implementations" (detailed_base self) = false
  /\ length (item_nodes standard_implementations) = 5
  /\ length implementation_edges = 5
  /\ Forall (fun e => In (e_tail e) (diagram_nodes (detailed_base self))
                      /\ In (e_head e) (item_nodes standard_implementations))
            implementation_edges.
Proof.
  split; [| split; [apply detailed_high | split; [apply detailed_not_high |]]].
  - destruct (String.eqb_spec (Ports.detail_level self) "high") as [E | E].
    + rewrite (detailed_high self E). split; [intros _; exact E |].
      intros _. vm_compute. reflexivity.
    + rewrite (detailed_not_high self E). split; [| contradiction].
      intros H. now rewrite (proj1 (detailed_base_plain self)) in H.
  - split; [apply detailed_base_plain |].
    split; [vm_compute; reflexivity |]. split; [reflexivity |].
    apply List.Forall_forall. intros e He. split; apply node_in_In.
    + simpl in He.
      destruct He as [<- | [<- | [<- | [<- | [<- | []]]]]]; vm_compute; reflexivity.
    + simpl in He.
      destruct He as [<- | [<- | [<- | [<- | [<- | []]]]]]; vm_compute; reflexivity.
Qed.

(** ** Running the scripts *)

Lemma exit_status_exception {A} (e : exn) :
  is_Exception e = true -> exit_status (@Raise A e) = 1%Z.
Proof. destruct e; simpl; congruence. Qed.

Lemma OSError_is_Exception (e : exn) : is_OSError e = true -> is_Exception e = true.
Proof. destruct e; simpl; congruence. Qed.

Lemma c4_import_spec (available : bool) (w : World) :
  exists lines, C4.import_module available w = (Ret tt, printed lines w).
Proof.
  destruct available.
  - exists []. now rewrite printed_nil.
  - eexists. unfold C4.import_module.
    do 4 (erewrite bind_ret by apply print_spec).
    rewrite print_spec, !printed_app. reflexivity.
Qed.

Lemma ports_import_spec (available : bool) (w : World) :
  exists lines, Ports.import_module available w = (Ret tt, printed lines w).
Proof.
  destruct available.
  - exists []. now rewrite printed_nil.
  - eexists. unfold Ports.import_module.
    do 4 (erewrite bind_ret by apply print_spec).
    rewrite print_spec, !printed_app. reflexivity.
Qed.

Section Scripts.

Variable available : bool.
Variable pipeline : Diagram -> render_outcome.

(** A script whose command line [argparse] accepts and whose output
    directory is created returns, whatever the library and the pipeline
    do. *)
Lemma c4_script_returns (command_line : argv) (w w1 : World) :
  forallb (arg_accepted C4.declared) command_line = true ->
  mkdir (requested_dir command_line) w = (Ret tt, w1) ->
  ends_with (C4.script available pipeline command_line w) (Ret tt) 0.
Proof.
  intros Hacc Hdir. unfold C4.script.
  destruct (c4_import_spec available w) as [lines Himp].
  erewrite bind_ret by exact Himp.
  apply (mkdir_printed _ lines) in Hdir.
  destruct (c4_main_returns available pipeline _ _ _ _ Hacc
              (then_mkdir_returns _ _ _ _ Hdir)) as [w' ->].
  split; reflexivity.
Qed.

Lemma ports_script_returns (command_line : argv) (w w1 : World) :
  forallb (arg_accepted Ports.declared) command_line = true ->
  mkdir (requested_dir command_line) w = (Ret tt, w1) ->
  ends_with (Ports.script available pipeline command_line w) (Ret tt) 0.
Proof.
  intros Hacc Hdir. unfold Ports.script.
  destruct (ports_import_spec available w) as [lines Himp].
  erewrite bind_ret by exact Himp.
  apply (mkdir_printed _ lines) in Hdir.
  destruct (ports_main_after_init available pipeline _ _ _ _ Hacc
              (then_mkdir_returns _ _ _ _ Hdir)) as (files & w2 & _ & ->).
  split; reflexivity.
Qed.

(** The error that the directory creation raises leaves the script. *)
Lemma c4_script_raises (command_line : argv) (w w1 : World) (e : exn) :
  forallb (arg_accepted C4.declared) command_line = true ->
  mkdir (requested_dir command_line) w = (Raise e, w1) ->
  is_OSError e = true ->
  ends_with (C4.script available pipeline command_line w) (Raise e) 1.
Proof.
  intros Hacc Hdir He. unfold C4.script.
  destruct (c4_import_spec available w) as [lines Himp].
  erewrite bind_ret by exact Himp.
  apply (mkdir_printed _ lines) in Hdir.
  rewrite (c4_main_init_raises available pipeline _ _ _ _ Hacc
             (then_mkdir_fails _ _ _ _ _ Hdir)).
  split; [reflexivity |]. now apply exit_status_exception, OSError_is_Exception.
Qed.

Lemma ports_script_raises (command_line : argv) (w w1 : World) (e : exn) :
  forallb (arg_accepted Ports.declared) command_line = true ->
  mkdir (requested_dir command_line) w = (Raise e, w1) ->
  is_OSError e = true ->
  ends_with (Ports.script available pipeline command_line w) (Raise e) 1.
Proof.
  intros Hacc Hdir He. unfold Ports.script.
  destruct (ports_import_spec available w) as [lines Himp].
  erewrite bind_ret by exact Himp.
  apply (mkdir_printed _ lines) in Hdir.
  rewrite (ports_main_init_raises available pipeline _ _ _ _ Hacc
             (then_mkdir_fails _ _ _ _ _ Hdir)).
  split; [reflexivity |]. now apply exit_status_exception, OSError_is_Exception.
Qed.

Lemma c4_script_rejects (command_line : argv) (w : World) :
  forallb (arg_accepted C4.declared) command_line = false ->
  ends_with (C4.script available pipeline command_line w) (Raise (SystemExit 2)) 2.
Proof.
  intros Hacc. unfold C4.script.
  destruct (c4_import_spec available w) as [lines Himp].
  erewrite bind_ret by exact Himp.
  rewrite (c4_main_rejects available pipeline _ _ Hacc). split; reflexivity.
Qed.

Lemma ports_script_rejects (command_line : argv) (w : World) :
  forallb (arg_accepted Ports.declared) command_line = false ->
  ends_with (Ports.script available pipeline command_line w) (Raise (SystemExit 2)) 2.
Proof.
  intros Hacc. unfold Ports.script.
  destruct (ports_import_spec available w) as [lines Himp].
  erewrite bind_ret by exact Himp.
  rewrite (ports_main_rejects available pipeline _ _ Hacc). split; reflexivity.
Qed.

End Scripts.


(** C8, as the code has it.  After [generate_all] completes, script B's
    [main] prints one summary line: the count of generated diagrams when
    the list is non-empty, a failure message when it is empty.  Script
    A's [main] discards the list: it ends in the world that
    [generate_all] left, having printed nothing after it.  Both are
    stated for a command line that [argparse] accepts and an output
    directory whose creation returns. *)
Theorem batch_summary_only_in_ports_script (available : bool)
    (pipeline : Diagram -> render_outcome) (command_line : argv) (w w1 : World) :
  mkdir (requested_dir command_line) w = (Ret tt, w1) ->
  (forallb (arg_accepted Ports.declared) command_line = true ->
   exists g files w2,
     Ports.__init__ (py_or (last_value "dir" command_line) "docs/diagrams")
                    (default "svg" (last_value "output" command_line))
                    (default "medium" (last_value "detail" command_line)) w
     = (Ret g, w1)
     /\ Ports.generate_all available pipeline g w1 = (Ret files, w2)
     /\ Ports.main available pipeline command_line w
        = (Ret tt, printed [ports_summary files] w2))
  /\ (forallb (arg_accepted C4.declared) command_line = true ->
      default "all" (last_value "type" command_line) = "all" ->
      exists g files w2,
        C4.__init__ (py_or (last_value "dir" command_line) "docs/diagrams")
                    (default "png" (last_value "output" command_line)) w
        = (Ret g, w1)
        /\ C4.generate_all available pipeline g w1 = (Ret files, w2)
        /\ C4.main available pipeline command_line w = (Ret tt, w2)).
Proof.
  intros Hdir. split.
  - intros Hacc.
    pose proof (then_mkdir_returns (requested_dir command_line)
                  (Ports.mkGenerator (default "svg" (last_value "output" command_line))
                     (default "medium" (last_value "detail" command_line))
                     (requested_dir command_line)) w w1 Hdir) as Hinit.
    destruct (ports_main_after_init available pipeline _ _ _ _ Hacc Hinit)
      as (files & w2 & Hall & Hmain).
    eexists _, files, w2.
    rewrite ports_init_accepted by exact Hacc.
    split; [exact Hinit |]. split; [exact Hall | exact Hmain].
  - intros Hacc Htype.
    pose proof (then_mkdir_returns (requested_dir command_line)
                  (C4.mkGenerator (default "png" (last_value "output" command_line))
                                  (requested_dir command_line)) w w1 Hdir) as Hinit.
    eexists _, _, _.
    rewrite c4_init_accepted by exact Hacc.
    split; [exact Hinit |]. split; [apply c4_generate_all_spec |].
    rewrite (c4_main_after_init available pipeline _ _ _ _ Hacc Hinit), Htype.
    cbn [String.eqb Ascii.eqb Bool.eqb].
    erewrite bind_ret by apply c4_generate_all_spec. reflexivity.
Qed.

(** C9, as the code has it.  A script whose command line [argparse]
    accepts and whose output directory is created returns, with status
    0, whether or not the rendering library is there and whatever
    becomes of the renderings.  On such a command line an [OSError]
    raised by the creation of the output directory is not caught: it
    leaves the script, with status 1.  A command line of declared flags
    that [argparse] does not accept, one of its values lying outside
    the choices of its flag, ends the script with [SystemExit(2)]. *)
Theorem exit_status_of_scripts (available : bool)
    (pipeline : Diagram -> render_outcome) (command_line : argv) (w : World) :
  (forallb (arg_accepted C4.declared) command_line = true ->
   (forall w1,
       mkdir (requested_dir command_line) w = (Ret tt, w1) ->
       ends_with (C4.script available pipeline command_line w) (Ret tt) 0)
   /\ (forall e w1,
          mkdir (requested_dir command_line) w = (Raise e, w1) ->
          is_OSError e = true ->
          ends_with (C4.script available pipeline command_line w) (Raise e) 1))
  /\ (forallb (arg_accepted Ports.declared) command_line = true ->
      (forall w1,
          mkdir (requested_dir command_line) w = (Ret tt, w1) ->
          ends_with (Ports.script available pipeline command_line w) (Ret tt) 0)
      /\ (forall e w1,
             mkdir (requested_dir command_line) w = (Raise e, w1) ->
             is_OSError e = true ->
             ends_with (Ports.script available pipeline command_line w) (Raise e) 1))
  /\ (flags_declared C4.declared command_line = true ->
      forallb (arg_accepted C4.declared) command_line = false ->
      ends_with (C4.script available pipeline command_line w)
                (Raise (SystemExit 2)) 2)
  /\ (flags_declared Ports.declared command_line = true ->
      forallb (arg_accepted Ports.declared) command_line = false ->
      ends_with (Ports.script available pipeline command_line w)
                (Raise (SystemExit 2)) 2).
Proof.
  split; [| split; [| split]].
  - intros Hacc. split.
    + intros w1. now apply c4_script_returns.
    + intros e w1. now apply c4_script_raises.
  - intros Hacc. split.
    + intros w1. now apply ports_script_returns.
    + intros e w1. now apply ports_script_raises.
  - intros _. apply c4_script_rejects.
  - intros _. apply ports_script_rejects.
Qed.

(** ** The properties at concrete inputs *)

(** C8 as stated fails for script A: run with no flags (kind [all]) and
    a working pipeline, [generate_all] returns five paths, and [main]
    prints nothing after the lines of the five methods; with the
    library missing the list is empty and no failure message follows
    either. *)
Lemma c4_main_prints_no_summary :
  let ok := fun _ : Diagram => Rendered in
  let batch available :=
    (C4.__init__ "docs/diagrams" "png" ≫= C4.generate_all available ok) empty_world in
  let run available := C4.main available ok [] empty_world in
  fst (batch true)
  = Ret ["docs/diagrams/samstraumr_context_diagram.png";
         "docs/diagrams/samstraumr_container_diagram.png";
         "docs/diagrams/samstraumr_component_diagram.png";
         "docs/diagrams/samstraumr_code_diagram.png";
         "docs/diagrams/samstraumr_clean_architecture_diagram.png"]
  /\ fst (run true) = Ret tt
  /\ stdout (snd (run true)) = stdout (snd (batch true))
  /\ fst (batch false) = Ret []
  /\ fst (run false) = Ret tt
  /\ stdout (snd (run false)) = stdout (snd (batch false))
  /\ ~ (exists line, stdout (snd (run true)) = stdout (snd (batch true)) ++ [line])
  /\ ~ (exists line, stdout (snd (run false)) = stdout (snd (batch false)) ++ [line]).
Proof.
  intros ok batch run.
  assert (Htrue : stdout (snd (run true)) = stdout (snd (batch true)))
    by (vm_compute; reflexivity).
  assert (Hfalse : stdout (snd (run false)) = stdout (snd (batch false)))
    by (vm_compute; reflexivity).
  split; [vm_compute; reflexivity |].
  split; [vm_compute; reflexivity |]. split; [exact Htrue |].
  split; [vm_compute; reflexivity |]. split; [vm_compute; reflexivity |].
  split; [exact Hfalse |].
  split; intros [line Hline].
  - rewrite Htrue in Hline. apply (f_equal (@length string)) in Hline.
    rewrite length_app in Hline. simpl in Hline. lia.
  - rewrite Hfalse in Hline. apply (f_equal (@length string)) in Hline.
    rewrite length_app in Hline. simpl in Hline. lia.
Qed.

(** C9 as stated fails: a format outside the declared choices, or a
    detail level outside them, ends the script with status 2, and an
    output directory whose parent is a regular file ends it with
    status 1. *)
Lemma invalid_flag_value_exits_nonzero :
  let ok := fun _ : Diagram => Rendered in
  exit_status (fst (C4.script true ok [("output", "bmp")] empty_world)) = 2%Z
  /\ exit_status (fst (Ports.script true ok [("detail", "extreme")] empty_world)) = 2%Z
  /\ exit_status
       (fst (C4.script true ok [] (mkWorld [] {[("", ["docs"]) := File]} [])))
     = 1%Z
  /\ exit_status (fst (C4.script true ok [("output", "bmp")] empty_world)) <> 0%Z.
Proof.
  intros ok. repeat split; try (vm_compute; reflexivity).
  vm_compute. discriminate.
Qed.

(** C1 at work: a context diagram whose rendering fails with "dot not
    found", and a detailed-port diagram that renders. *)
Lemma rendering_failure_contained_witness :
  let failing := fun _ : Diagram => Failed "dot not found" in
  let ok := fun _ : Diagram => Rendered in
  let g := C4.mkGenerator "png" (Path_of "docs/diagrams") in
  let gp := Ports.mkGenerator "svg" "medium" (Path_of "docs/diagrams") in
  failing (c4_diagram Context g) = Failed "dot not found"
  /\ C4.generate_context_diagram true failing g empty_world
     = (Ret "",
        printed ["Failed to generate context diagram: dot not found"]
          (called (c4_diagram Context g) empty_world))
  /\ ok (ports_diagram DetailedPorts gp) = Rendered
  /\ str (ports_output_file DetailedPorts gp) <> ""
  /\ fst (Ports.generate_detailed_port_diagram true ok gp empty_world)
     = Ret (str (ports_output_file DetailedPorts gp)).
Proof.
  intros failing ok g gp.
  split; [reflexivity |]. split.
  - exact (proj1 (proj1 (rendering_failure_contained failing) Context g)
             "dot not found" empty_world eq_refl).
  - split; [reflexivity |].
    destruct (proj2 (proj2 (rendering_failure_contained ok) DetailedPorts gp) eq_refl)
      as [Hne Hrun].
    split; [exact Hne |].
    change (Ports.generate_detailed_port_diagram true ok)
      with (ports_method true ok DetailedPorts).
    rewrite Hrun. reflexivity.
Defined.

(** C3 at work: both batches with a pipeline that renders everything. *)
Lemma generate_all_in_order_witness :
  let ok := fun _ : Diagram => Rendered in
  let g := C4.mkGenerator "png" (Path_of "docs/diagrams") in
  let gp := Ports.mkGenerator "svg" "medium" (Path_of "docs/diagrams") in
  (forall k, ok (c4_diagram k g) = Rendered)
  /\ (forall k, ok (ports_diagram k gp) = Rendered)
  /\ length (List.filter truthy (map (c4_result true ok g) c4_order)) = 5
  /\ length (List.filter truthy (map (ports_result true ok gp) ports_order)) = 4.
Proof.
  intros ok g gp.
  split; [reflexivity |]. split; [reflexivity |]. split.
  - destruct (proj1 (generate_all_in_order true ok) g empty_world)
      as (_ & w' & _ & _ & _ & Hall).
    exact (proj2 (Hall eq_refl (fun _ => eq_refl))).
  - destruct (proj2 (generate_all_in_order true ok) gp empty_world)
      as (_ & w' & _ & _ & _ & Hall).
    exact (proj2 (Hall eq_refl (fun _ => eq_refl))).
Defined.

(** C4 at work: [bmp] is replaced, [PDF] is kept as [pdf]. *)
Lemma output_format_normalized_witness :
  py_in (lower "bmp") format_domain = false
  /\ C4.__init__ "out" "bmp" empty_world
     = then_mkdir (Path_of "out") (C4.mkGenerator "png" (Path_of "out"))
         (printed ["Unsupported output format: bmp, defaulting to png"] empty_world)
  /\ py_in (lower "PDF") format_domain = true
  /\ Ports.__init__ "out" "PDF" "low" empty_world
     = then_mkdir (Path_of "out") (Ports.mkGenerator "pdf" "low" (Path_of "out"))
         empty_world.
Proof.
  split; [reflexivity |]. split.
  - exact (proj1 (proj1 (output_format_normalized "out" "bmp" empty_world) eq_refl)).
  - split; [reflexivity |].
    exact (proj2 (proj2 (output_format_normalized "out" "PDF" empty_world) eq_refl)
             "low").
Defined.

(** C5 at work: [extreme] is replaced, [High] is kept as [high]. *)
Lemma detail_level_normalized_witness :
  py_in (lower "extreme") detail_domain = false
  /\ Ports.__init__ "out" "svg" "extreme" empty_world
     = then_mkdir (Path_of "out") (Ports.mkGenerator "svg" "medium" (Path_of "out"))
         (printed ["Unsupported detail level: extreme, defaulting to medium"]
            empty_world)
  /\ py_in (lower "High") detail_domain = true
  /\ Ports.__init__ "out" "svg" "High" empty_world
     = then_mkdir (Path_of "out") (Ports.mkGenerator "svg" "high" (Path_of "out"))
         empty_world.
Proof.
  split; [reflexivity |]. split.
  - exact (proj1 (detail_level_normalized "out" "svg" "extreme" empty_world) eq_refl).
  - split; [reflexivity |].
    exact (proj2 (detail_level_normalized "out" "svg" "High" empty_world) eq_refl).
Defined.

(** C6 at work: a generator at [high] and one at [medium]. *)
Lemma detail_level_high_adds_implementations_witness :
  let high := Ports.mkGenerator "svg" "high" (Path_of "docs/diagrams") in
  let medium := Ports.mkGenerator "svg" "medium" (Path_of "docs/diagrams") in
  Ports.detail_level high = "high"
  /\ has_group "Standard Implementations" (ports_diagram DetailedPorts high) = true
  /\ ports_diagram DetailedPorts high
     = with_group (detailed_base high) standard_implementations implementation_edges
  /\ Ports.detail_level medium <> "high"
  /\ ports_diagram DetailedPorts medium = detailed_base medium.
Proof.
  intros high medium.
  pose proof (detail_level_high_adds_implementations high) as (Hiff & Hhigh & _).
  pose proof (detail_level_high_adds_implementations medium) as (_ & _ & Hlow & _).
  split; [reflexivity |]. split; [apply Hiff; reflexivity |].
  split; [apply Hhigh; reflexivity |].
  assert (Hne : Ports.detail_level medium <> "high") by discriminate.
  split; [exact Hne | exact (Hlow Hne)].
Defined.


(** C8 at work: [--dir out] with a pipeline that always fails. *)
Lemma batch_summary_only_in_ports_script_witness :
  let failing := fun _ : Diagram => Failed "dot not found" in
  let command_line := [("dir", "out")] in
  let w1 := snd (mkdir (requested_dir command_line) empty_world) in
  mkdir (requested_dir command_line) empty_world = (Ret tt, w1)
  /\ forallb (arg_accepted Ports.declared) command_line = true
  /\ forallb (arg_accepted C4.declared) command_line = true
  /\ default "all" (last_value "type" command_line) = "all"
  /\ (exists g files w2,
         Ports.__init__ "out" "svg" "medium" empty_world = (Ret g, w1)
         /\ Ports.generate_all true failing g w1 = (Ret files, w2)
         /\ Ports.main true failing command_line empty_world
            = (Ret tt, printed [ports_summary files] w2))
  /\ (exists g files w2,
         C4.__init__ "out" "png" empty_world = (Ret g, w1)
         /\ C4.generate_all true failing g w1 = (Ret files, w2)
         /\ C4.main true failing command_line empty_world = (Ret tt, w2)).
Proof.
  intros failing command_line w1.
  assert (Hdir : mkdir (requested_dir command_line) empty_world = (Ret tt, w1))
    by (vm_compute; reflexivity).
  assert (HaccB : forallb (arg_accepted Ports.declared) command_line = true)
    by (vm_compute; reflexivity).
  assert (HaccA : forallb (arg_accepted C4.declared) command_line = true)
    by (vm_compute; reflexivity).
  assert (Htype : default "all" (last_value "type" command_line) = "all")
    by (vm_compute; reflexivity).
  pose proof (batch_summary_only_in_ports_script true failing command_line
                empty_world w1 Hdir) as [HB HA].
  split; [exact Hdir |]. split; [exact HaccB |]. split; [exact HaccA |].
  split; [exact Htype |].
  split; [exact (HB HaccB) | exact (HA HaccA Htype)].
Defined.

(** C9 at work, without the library: the empty command line on an
    empty file system; the same where [docs] is a regular file;
    [--type port] with a directory name of 300 bytes; and an undeclared
    detail level. *)
Lemma exit_status_of_scripts_witness :
  let failing := fun _ : Diagram => Failed "dot not found" in
  let blocked := mkWorld [] {[("", ["docs"]) := File]} [] in
  let e := NotADirectoryError "docs/diagrams" in
  let w1 := snd (mkdir (requested_dir []) empty_world) in
  let long := [("type", "port"); ("dir", over_long_name)] in
  let e36 := OSError 36 "File name too long" over_long_name in
  forallb (arg_accepted C4.declared) [] = true
  /\ mkdir (requested_dir []) empty_world = (Ret tt, w1)
  /\ ends_with (C4.script false failing [] empty_world) (Ret tt) 0
  /\ mkdir (requested_dir []) blocked = (Raise e, blocked)
  /\ is_OSError e = true
  /\ ends_with (C4.script false failing [] blocked) (Raise e) 1
  /\ forallb (arg_accepted C4.declared) long = true
  /\ mkdir (requested_dir long) empty_world = (Raise e36, empty_world)
  /\ is_OSError e36 = true
  /\ ends_with (C4.script false failing long empty_world) (Raise e36) 1
  /\ flags_declared Ports.declared [("detail", "extreme")] = true
  /\ forallb (arg_accepted Ports.declared) [("detail", "extreme")] = false
  /\ ends_with (Ports.script false failing [("detail", "extreme")] empty_world)
               (Raise (SystemExit 2)) 2.
Proof.
  intros failing blocked e w1 long e36.
  assert (Hacc : forallb (arg_accepted C4.declared) [] = true) by reflexivity.
  assert (Hdir : mkdir (requested_dir []) empty_world = (Ret tt, w1))
    by (vm_compute; reflexivity).
  assert (Hblocked : mkdir (requested_dir []) blocked = (Raise e, blocked))
    by (vm_compute; reflexivity).
  assert (He : is_OSError e = true) by reflexivity.
  assert (Hlong : forallb (arg_accepted C4.declared) long = true)
    by (vm_compute; reflexivity).
  assert (H36 : mkdir (requested_dir long) empty_world = (Raise e36, empty_world))
    by (vm_compute; reflexivity).
  assert (He36 : is_OSError e36 = true) by reflexivity.
  assert (Hdecl : flags_declared Ports.declared [("detail", "extreme")] = true)
    by (vm_compute; reflexivity).
  assert (Hrej : forallb (arg_accepted Ports.declared) [("detail", "extreme")] = false)
    by (vm_compute; reflexivity).
  split; [exact Hacc |]. split; [exact Hdir |].
  split; [exact (proj1 (proj1 (exit_status_of_scripts false failing [] empty_world)
                          Hacc) w1 Hdir) |].
  split; [exact Hblocked |]. split; [exact He |].
  split; [exact (proj2 (proj1 (exit_status_of_scripts false failing [] blocked)
                          Hacc) e blocked Hblocked He) |].
  split; [exact Hlong |]. split; [exact H36 |]. split; [exact He36 |].
  split; [exact (proj2 (proj1 (exit_status_of_scripts false failing long empty_world)
                          Hlong) e36 empty_world H36 He36) |].
  split; [exact Hdecl |]. split; [exact Hrej |].
  exact (proj2 (proj2 (proj2 (exit_status_of_scripts false failing
                                [("detail", "extreme")] empty_world))) Hdecl Hrej).
Defined.


(** * Further properties of the scripts *)

(** ** What a constructed generator looks like *)

Lemma normalized_in_domain (domain : list string) (default_value requested : string) :
  py_in default_value domain = true ->
  py_in (normalized domain default_value requested) domain = true.
Proof.
  intros Hdef. unfold normalized.
  destruct (py_in (lower requested) domain) eqn:E; assumption.
Qed.

Lemma then_mkdir_ret {G} (p : Path) (g g' : G) (w w' : World) :
  then_mkdir p g w = (Ret g', w') -> g' = g.
Proof.
  unfold then_mkdir. destruct (mkdir p w) as [[[] | e] w1]; congruence.
Qed.

Lemma py_in_cases3 (x a b c : string) :
  py_in x [a; b; c] = true -> x = a \/ x = b \/ x = c.
Proof.
  unfold py_in. simpl. rewrite orb_false_r.
  destruct (String.eqb_spec x a); [auto |].
  destruct (String.eqb_spec x b); [auto |].
  destruct (String.eqb_spec x c); [auto | discriminate].
Qed.

(** A generator that a constructor has returned holds an output format
    from {png, svg, pdf} (and, for the port-interface generator, a
    detail level from {low, medium, high}), whatever was requested, and
    the parsed output directory. *)
Theorem constructed_generator_normalized (dir fmt detail : string) (w w' : World) :
  (forall g,
      C4.__init__ dir fmt w = (Ret g, w') ->
      py_in (C4.output_format g) format_domain = true
      /\ C4.output_dir g = Path_of dir)
  /\ (forall g,
         Ports.__init__ dir fmt detail w = (Ret g, w') ->
         py_in (Ports.output_format g) format_domain = true
         /\ py_in (Ports.detail_level g) detail_domain = true
         /\ Ports.output_dir g = Path_of dir).
Proof.
  split; intros g H.
  - rewrite c4_init_spec in H. apply then_mkdir_ret in H. subst g.
    split; [| reflexivity]. now apply normalized_in_domain.
  - rewrite ports_init_spec in H. apply then_mkdir_ret in H. subst g.
    split; [now apply normalized_in_domain |].
    split; [now apply normalized_in_domain | reflexivity].
Qed.

(** ** The image written and the path returned *)

Lemma string_append_assoc (a b c : string) : (a +:+ b) +:+ c = a +:+ (b +:+ c).
Proof.
  induction a as [|x a IH]; [reflexivity |].
  change (String x ((a +:+ b) +:+ c) = String x (a +:+ b +:+ c)). now f_equal.
Qed.

Lemma concat_snoc_append (sep a b : string) (l : list string) :
  String.concat sep (l ++ [a]) +:+ b = String.concat sep (l ++ [a +:+ b]).
Proof.
  induction l as [|x l IH]; [reflexivity |].
  destruct l as [|y l].
  - change ((x +:+ sep +:+ a) +:+ b = x +:+ sep +:+ a +:+ b).
    now rewrite !string_append_assoc.
  - change (String.concat sep ((x :: y :: l) ++ [a]))
      with (x +:+ sep +:+ String.concat sep ((y :: l) ++ [a])).
    change (String.concat sep ((x :: y :: l) ++ [a +:+ b]))
      with (x +:+ sep +:+ String.concat sep ((y :: l) ++ [a +:+ b])).
    rewrite <- IH. now rewrite !string_append_assoc.
Qed.

Lemma str_snoc (r : string) (l : list string) (a : string) :
  str (mkPath r (l ++ [a])) = r +:+ String.concat "/" (l ++ [a]).
Proof.
  unfold str. cbn [root parts].
  destruct r; [| reflexivity].
  destruct (l ++ [a]) eqn:E; [| reflexivity].
  destruct l; discriminate.
Qed.

Lemma map_last_snoc {A} (f : A -> A) (l : list A) (a : A) :
  map_last f (l ++ [a]) = l ++ [f a].
Proof.
  induction l as [|x l IH]; [reflexivity |].
  simpl. rewrite IH. destruct (l ++ [a]) eqn:E; [| reflexivity].
  destruct l; discriminate.
Qed.

(** A file name that is a single component is appended as it is. *)
Lemma truediv_single (p : Path) (name : string) :
  Path_of name = mkPath "" [name] ->
  p // name = mkPath (root p) (parts p ++ [name]).
Proof. intros H. unfold truediv. rewrite H. reflexivity. Qed.

(** Taking the suffix off the output file and letting the library add
    the format back gives the output file again. *)
Lemma suffix_round_trip (p : Path) (stem fmt : string) :
  Path_of (stem +:+ "." +:+ fmt) = mkPath "" [stem +:+ "." +:+ fmt] ->
  stem_of (stem +:+ "." +:+ fmt) = stem ->
  str (with_suffix_empty (p // (stem +:+ "." +:+ fmt))) +:+ "." +:+ fmt
  = str (p // (stem +:+ "." +:+ fmt)).
Proof.
  intros Hsingle Hstem. rewrite (truediv_single _ _ Hsingle).
  unfold with_suffix_empty. cbn [root parts].
  rewrite map_last_snoc, Hstem, !str_snoc.
  rewrite string_append_assoc. f_equal. apply concat_snoc_append.
Qed.

Lemma c4_image_path (self : C4.C4DiagramGenerator) (k : c4_kind) :
  py_in (C4.output_format self) format_domain = true ->
  d_filename (c4_diagram k self) +:+ "." +:+ d_outformat (c4_diagram k self)
  = str (c4_output_file k self).
Proof.
  intros H. apply py_in_cases3 in H. destruct self as [fmt dir].
  cbn [C4.output_format] in H.
  assert (E : d_filename (c4_diagram k (C4.mkGenerator fmt dir))
                +:+ "." +:+ d_outformat (c4_diagram k (C4.mkGenerator fmt dir))
              = str (with_suffix_empty (c4_output_file k (C4.mkGenerator fmt dir)))
                +:+ "." +:+ fmt)
    by (destruct k; reflexivity).
  rewrite E. clear E. unfold c4_output_file. cbn [C4.output_format C4.output_dir].
  destruct H as [-> | [-> | ->]]; destruct k;
    match goal with
    | |- context [?p // (?a +:+ ?f)] =>
        let stem := eval vm_compute in (String.substring 0 (String.length a - 1) a) in
        change (a +:+ f) with (stem +:+ "." +:+ f)
    end;
    apply suffix_round_trip; vm_compute; reflexivity.
Qed.

Lemma ports_image_path (self : Ports.PortInterfaceDiagramGenerator) (k : ports_kind) :
  py_in (Ports.output_format self) format_domain = true ->
  d_filename (ports_diagram k self) +:+ "." +:+ d_outformat (ports_diagram k self)
  = str (ports_output_file k self).
Proof.
  intros H. apply py_in_cases3 in H. destruct self as [fmt detail dir].
  cbn [Ports.output_format] in H.
  assert (E : d_filename (ports_diagram k (Ports.mkGenerator fmt detail dir))
                +:+ "." +:+ d_outformat (ports_diagram k (Ports.mkGenerator fmt detail dir))
              = str (with_suffix_empty
                       (ports_output_file k (Ports.mkGenerator fmt detail dir)))
                +:+ "." +:+ fmt)
    by (destruct k; reflexivity).
  rewrite E. clear E. unfold ports_output_file.
  cbn [Ports.output_format Ports.output_dir].
  destruct H as [-> | [-> | ->]]; destruct k;
    match goal with
    | |- context [?p // (?a +:+ ?f)] =>
        let stem := eval vm_compute in (String.substring 0 (String.length a - 1) a) in
        change (a +:+ f) with (stem +:+ "." +:+ f)
    end;
    apply suffix_round_trip; vm_compute; reflexivity.
Qed.

(** For a generator whose format is one of {png, svg, pdf}, the file
    name handed to the library (the output file without its suffix)
    together with the format handed to it names the very path that the
    method returns on success, for each of the nine kinds. *)
Theorem image_path_is_returned_path :
  (forall (self : C4.C4DiagramGenerator) (k : c4_kind),
      py_in (C4.output_format self) format_domain = true ->
      d_filename (c4_diagram k self) +:+ "." +:+ d_outformat (c4_diagram k self)
      = str (c4_output_file k self))
  /\ (forall (self : Ports.PortInterfaceDiagramGenerator) (k : ports_kind),
         py_in (Ports.output_format self) format_domain = true ->
         d_filename (ports_diagram k self) +:+ "." +:+ d_outformat (ports_diagram k self)
         = str (ports_output_file k self)).
Proof. split; intros; [now apply c4_image_path | now apply ports_image_path]. Qed.

Lemma call_world_keeps_file (available : bool) (o : render_outcome) (d : Diagram)
    (l : string) (w : World) (key : fs_key) :
  fs w !! key = Some File -> fs (call_world available o d l w) !! key = Some File.
Proof.
  intros H. destruct available, o; cbn; try exact H.
  destruct (decide (image_key d = key)) as [<- | Hne].
  - apply lookup_insert_eq.
  - now rewrite lookup_insert_ne.
Qed.

Lemma call_world_writes (d : Diagram) (l : string) (w : World) :
  fs (call_world true Rendered d l w) !! image_key d = Some File.
Proof. cbn. apply lookup_insert_eq. Qed.

Section BatchFiles.

Context {K : Type}.
Variable pipeline : Diagram -> render_outcome.
Variables (diagram : K -> Diagram) (line : K -> string).

Lemma batch_world_keeps_file (available : bool) (order : list K) (w : World)
    (key : fs_key) :
  fs w !! key = Some File ->
  fs (batch_world available pipeline diagram line order w) !! key = Some File.
Proof.
  unfold batch_world. revert w.
  induction order as [|k order IH]; intros w H; simpl; [exact H |].
  apply IH. now apply call_world_keeps_file.
Qed.

Lemma batch_world_writes (order : list K) (w : World) (k : K) :
  In k order -> pipeline (diagram k) = Rendered ->
  fs (batch_world true pipeline diagram line order w) !! image_key (diagram k)
  = Some File.
Proof.
  unfold batch_world. revert w.
  induction order as [|k' order IH]; intros w Hin Hk; [destruct Hin |].
  simpl. destruct Hin as [-> | Hin].
  - apply (batch_world_keeps_file true order). rewrite Hk. apply call_world_writes.
  - now apply IH.
Qed.

End BatchFiles.

Lemma call_result_nonempty (available : bool) (o : render_outcome) (p : Path) :
  call_result available o p <> "" ->
  available = true /\ o = Rendered /\ call_result available o p = str p.
Proof.
  destruct available, o; simpl; intros H; try congruence; auto.
Qed.

Lemma filter_truthy_In (s : string) (l : list string) :
  In s (List.filter truthy l) -> In s l /\ s <> "".
Proof.
  intros H. apply filter_In in H as [Hin Ht]. split; [exact Hin |].
  intros ->. discriminate.
Qed.

(** Every non-empty path that a generation method returns, and every
    path in the list that [generate_all] returns, names a regular file
    of the file system the call leaves behind, provided the generator's
    format is one of {png, svg, pdf}. *)
Theorem returned_paths_are_written (available : bool)
    (pipeline : Diagram -> render_outcome) :
  (forall (self : C4.C4DiagramGenerator) (w w' : World),
      py_in (C4.output_format self) format_domain = true ->
      (forall k s,
          c4_method available pipeline k self w = (Ret s, w') -> s <> "" ->
          fs w' !! path_key (Path_of s) = Some File)
      /\ (forall files s,
             C4.generate_all available pipeline self w = (Ret files, w') ->
             In s files -> fs w' !! path_key (Path_of s) = Some File))
  /\ (forall (self : Ports.PortInterfaceDiagramGenerator) (w w' : World),
         py_in (Ports.output_format self) format_domain = true ->
         (forall k s,
             ports_method available pipeline k self w = (Ret s, w') -> s <> "" ->
             fs w' !! path_key (Path_of s) = Some File)
         /\ (forall files s,
                Ports.generate_all available pipeline self w = (Ret files, w') ->
                In s files -> fs w' !! path_key (Path_of s) = Some File)).
Proof.
  split; intros self w w' Hfmt; split.
  - intros k s H Hs. rewrite c4_method_spec in H. injection H as <- <-.
    unfold c4_result in *.
    apply call_result_nonempty in Hs as (-> & Ho & ->).
    rewrite Ho, <- (c4_image_path self k Hfmt). apply call_world_writes.
  - intros files s H Hin. rewrite c4_generate_all_spec in H.
    assert (Hf : files = List.filter truthy
                           (map (c4_result available pipeline self) c4_order))
      by congruence.
    assert (Hw : w' = batch_world available pipeline (fun k => c4_diagram k self)
                        (c4_line available pipeline self) c4_order w)
      by congruence.
    clear H. subst files w'.
    apply filter_truthy_In in Hin as [Hin Hs].
    apply in_map_iff in Hin as (k & <- & Hk). unfold c4_result in *.
    apply call_result_nonempty in Hs as (-> & Ho & ->).
    rewrite <- (c4_image_path self k Hfmt).
    apply (batch_world_writes pipeline (fun k => c4_diagram k self)); assumption.
  - intros k s H Hs. rewrite ports_method_spec in H. injection H as <- <-.
    unfold ports_result in *.
    apply call_result_nonempty in Hs as (-> & Ho & ->).
    rewrite Ho, <- (ports_image_path self k Hfmt). apply call_world_writes.
  - intros files s H Hin. rewrite ports_generate_all_spec in H.
    assert (Hf : files = List.filter truthy
                           (map (ports_result available pipeline self) ports_order))
      by congruence.
    assert (Hw : w' = batch_world available pipeline (fun k => ports_diagram k self)
                        (ports_line available pipeline self) ports_order w)
      by congruence.
    clear H. subst files w'.
    apply filter_truthy_In in Hin as [Hin Hs].
    apply in_map_iff in Hin as (k & <- & Hk). unfold ports_result in *.
    apply call_result_nonempty in Hs as (-> & Ho & ->).
    rewrite <- (ports_image_path self k Hfmt).
    apply (batch_world_writes pipeline (fun k => ports_diagram k self)); assumption.
Qed.

(** ** No diagram overwrites another *)

Lemma distinctb_NoDup (l : list string) : distinctb l = true -> List.NoDup l.
Proof.
  induction l as [|x l IH]; intros H; [constructor |].
  simpl in H. apply andb_prop in H as [Hx Hl]. constructor; [| now apply IH].
  intros Hin. apply negb_true_iff in Hx.
  assert (E : existsb (String.eqb x) l = true)
    by (apply existsb_exists; exists x; split; [exact Hin | apply String.eqb_refl]).
  congruence.
Qed.

Lemma concat_snoc_prefix (sep : string) (l : list string) :
  exists pre, forall a, String.concat sep (l ++ [a]) = pre +:+ a.
Proof.
  induction l as [|x l [pre IH]]; [exists ""; reflexivity |].
  destruct l as [|y l].
  - exists (x +:+ sep). intros a.
    change (x +:+ sep +:+ a = (x +:+ sep) +:+ a). now rewrite string_append_assoc.
  - exists (x +:+ sep +:+ pre). intros a.
    change (String.concat sep ((x :: y :: l) ++ [a]))
      with (x +:+ sep +:+ String.concat sep ((y :: l) ++ [a])).
    rewrite IH. now rewrite !string_append_assoc.
Qed.

Lemma string_append_inj (pre a b : string) : pre +:+ a = pre +:+ b -> a = b.
Proof.
  induction pre as [|c pre IH]; intros H; [exact H |].
  injection H as H. now apply IH.
Qed.

(** Two single-component file names under one directory give the same
    path only if they are the same name. *)
Lemma str_truediv_inj (p : Path) (a b : string) :
  Path_of a = mkPath "" [a] -> Path_of b = mkPath "" [b] ->
  str (p // a) = str (p // b) -> a = b.
Proof.
  intros Ha Hb H. rewrite (truediv_single _ _ Ha), (truediv_single _ _ Hb) in H.
  rewrite !str_snoc in H. apply string_append_inj in H.
  destruct (concat_snoc_prefix "/" (parts p)) as [pre Hpre].
  rewrite !Hpre in H. now apply string_append_inj in H.
Qed.

Lemma distinct_names_distinct_paths (p : Path) (names : list string) :
  distinctb names = true ->
  forallb (fun n => String.eqb (root (Path_of n)) ""
                    && bool_decide (parts (Path_of n) = [n])) names = true ->
  List.NoDup (map (fun n => str (p // n)) names).
Proof.
  intros Hd Hs. apply List.NoDup_map_NoDup_ForallPairs; [| now apply distinctb_NoDup].
  rewrite forallb_forall in Hs.
  assert (Hsingle : forall n, In n names -> Path_of n = mkPath "" [n]).
  { intros n Hn. specialize (Hs n Hn). apply andb_prop in Hs as [Hr Hp].
    apply String.eqb_eq in Hr. apply bool_decide_eq_true in Hp.
    destruct (Path_of n) as [r ps]. cbn in *. now subst. }
  intros a b Ha Hb. apply str_truediv_inj; auto.
Qed.

(** The nine output paths of an architecture generator and a
    port-interface generator that share their output directory are
    pairwise distinct, for formats from {png, svg, pdf}: within a batch
    and across the two scripts no diagram overwrites another. *)
Theorem output_paths_distinct (a : C4.C4DiagramGenerator)
    (b : Ports.PortInterfaceDiagramGenerator) :
  py_in (C4.output_format a) format_domain = true ->
  py_in (Ports.output_format b) format_domain = true ->
  C4.output_dir a = Ports.output_dir b ->
  List.NoDup (map (fun k => str (c4_output_file k a)) c4_order
              ++ map (fun k => str (ports_output_file k b)) ports_order).
Proof.
  intros Ha Hb Hdir. destruct a as [fa dir], b as [fb detail dir'].
  cbn [C4.output_format Ports.output_format C4.output_dir Ports.output_dir] in *.
  subst dir'.
  change (List.NoDup
            (map (fun n => str (dir // n))
               (map (c4_file_name fa) c4_order ++ map (ports_file_name fb) ports_order))).
  apply py_in_cases3 in Ha, Hb.
  destruct Ha as [-> | [-> | ->]]; destruct Hb as [-> | [-> | ->]];
    apply distinct_names_distinct_paths; vm_compute; reflexivity.
Qed.

(** ** Script A run for a single kind *)

Lemma c4_method_then_ret (available : bool) (pipeline : Diagram -> render_outcome)
    (k : c4_kind) (g : C4.C4DiagramGenerator) (w : World) :
  (c4_method available pipeline k g;; mret tt) w
  = (Ret tt,
     call_world available (pipeline (c4_diagram k g)) (c4_diagram k g)
       (c4_line available pipeline g k) w).
Proof. erewrite bind_ret by apply c4_method_spec. reflexivity. Qed.

(** With [--type] naming one of the five kinds, on a command line that
    [argparse] accepts and with an output directory whose creation
    returns, script A's [main] constructs the generator and makes the
    one call of that kind and no other: it returns in the world which
    that call leaves, so exactly the call's one line is printed and at
    most its one diagram is handed to the pipeline. *)
Theorem single_kind_runs_one_method (available : bool)
    (pipeline : Diagram -> render_outcome) (command_line : argv) (w w1 : World)
    (ty : string) (k : c4_kind) :
  forallb (arg_accepted C4.declared) command_line = true ->
  last_value "type" command_line = Some ty ->
  c4_kind_of_type ty = Some k ->
  mkdir (requested_dir command_line) w = (Ret tt, w1) ->
  exists g w',
    C4.__init__ (py_or (last_value "dir" command_line) "docs/diagrams")
                (default "png" (last_value "output" command_line)) w
    = (Ret g, w1)
    /\ c4_method available pipeline k g w1
       = (Ret (c4_result available pipeline g k), w')
    /\ C4.main available pipeline command_line w = (Ret tt, w')
    /\ stdout w' = stdout w ++ [c4_line available pipeline g k]
    /\ pipeline_calls w'
       = pipeline_calls w ++ (if available then [c4_diagram k g] else []).
Proof.
  intros Hacc Htype Hkind Hdir.
  destruct (mkdir_returns _ _ _ Hdir) as (Hout & (_ & _ & Hcalls) & _).
  pose proof (then_mkdir_returns (requested_dir command_line)
                (C4.mkGenerator (default "png" (last_value "output" command_line))
                                (requested_dir command_line)) w w1 Hdir) as Hinit.
  eexists _, _. rewrite c4_init_accepted by exact Hacc.
  split; [exact Hinit |]. split; [apply c4_method_spec |].
  rewrite call_world_stdout, call_world_calls, Hout, Hcalls.
  split; [| split; reflexivity].
  rewrite (c4_main_after_init available pipeline _ _ _ _ Hacc Hinit), Htype.
  cbv zeta. change (default "all" (Some ty)) with ty.
  unfold c4_kind_of_type in Hkind.
  repeat match type of Hkind with
         | (if String.eqb ty ?s then _ else _) = _ =>
             destruct (String.eqb ty s);
             [injection Hkind as <-; apply c4_method_then_ret |]
         end.
  discriminate.
Qed.

(** ** What a batch returns and what script B counts *)

Section RenderedKinds.

Context {K : Type}.
Variables (available : bool) (pipeline : Diagram -> render_outcome).
Variables (diagram : K -> Diagram) (output_file : K -> Path).
Hypothesis output_file_nonempty : forall k, str (output_file k) <> "".

Lemma results_are_rendered_paths (order : list K) :
  List.filter truthy
    (map (fun k => call_result available (pipeline (diagram k)) (output_file k)) order)
  = map (fun k => str (output_file k))
      (List.filter (fun k => available && is_rendered (pipeline (diagram k))) order).
Proof.
  induction order as [|k order IH]; [reflexivity |].
  simpl. rewrite IH. unfold call_result.
  destruct available; [| reflexivity].
  destruct (pipeline (diagram k)); simpl; [| reflexivity].
  destruct (str (output_file k)) eqn:E; [| reflexivity].
  now destruct (output_file_nonempty k).
Qed.

End RenderedKinds.

Lemma filter_length_le {A} (f : A -> bool) (l : list A) :
  length (List.filter f l) <= length l.
Proof.
  induction l as [|x l IH]; simpl; [lia |]. destruct (f x); simpl; lia.
Qed.

(** [generate_all] returns exactly the output paths of the kinds whose
    rendering succeeded, in order; a failure of one kind removes that
    kind only.  On a command line that [argparse] accepts and with an
    output directory whose creation returns, script B's [main] then
    prints, after the one line of each of its four methods, the number
    of those kinds, which is at most four, or the failure message when
    there is none. *)
Theorem batch_returns_rendered_paths (available : bool)
    (pipeline : Diagram -> render_outcome) :
  (forall (self : C4.C4DiagramGenerator) (w : World),
      fst (C4.generate_all available pipeline self w)
      = Ret (map (fun k => str (c4_output_file k self))
               (List.filter
                  (fun k => available && is_rendered (pipeline (c4_diagram k self)))
                  c4_order)))
  /\ (forall (self : Ports.PortInterfaceDiagramGenerator) (w : World),
         fst (Ports.generate_all available pipeline self w)
         = Ret (map (fun k => str (ports_output_file k self))
                  (List.filter
                     (fun k => available && is_rendered (pipeline (ports_diagram k self)))
                     ports_order)))
  /\ (forall (command_line : argv) (w w1 : World),
         forallb (arg_accepted Ports.declared) command_line = true ->
         mkdir (requested_dir command_line) w = (Ret tt, w1) ->
         exists g w',
           Ports.__init__ (py_or (last_value "dir" command_line) "docs/diagrams")
             (default "svg" (last_value "output" command_line))
             (default "medium" (last_value "detail" command_line)) w
           = (Ret g, w1)
           /\ Ports.main available pipeline command_line w = (Ret tt, w')
           /\ let n :=
                length (List.filter
                          (fun k => available
                                    && is_rendered (pipeline (ports_diagram k g)))
                          ports_order) in
              n <= 4
              /\ stdout w'
                 = stdout w ++ map (ports_line available pipeline g) ports_order
                   ++ [match n with
                       | 0 => "Failed to generate port interface diagrams"
                       | S _ => "Generated " +:+ Ports.decimal n
                                +:+ " port interface diagrams"
                       end]).
Proof.
  split; [| split].
  - intros self w. rewrite c4_generate_all_spec. cbn [fst]. f_equal.
    apply (results_are_rendered_paths available pipeline
             (fun k => c4_diagram k self) (fun k => c4_output_file k self)).
    intros k. apply c4_output_file_nonempty.
  - intros self w. rewrite ports_generate_all_spec. cbn [fst]. f_equal.
    apply (results_are_rendered_paths available pipeline
             (fun k => ports_diagram k self) (fun k => ports_output_file k self)).
    intros k. apply ports_output_file_nonempty.
  - intros command_line w w1 Hacc Hdir.
    pose (g := Ports.mkGenerator (default "svg" (last_value "output" command_line))
                 (default "medium" (last_value "detail" command_line))
                 (requested_dir command_line)).
    destruct (mkdir_returns _ _ _ Hdir) as (Hout & _).
    pose proof (then_mkdir_returns (requested_dir command_line) g w w1 Hdir) as Hinit.
    destruct (ports_main_after_init available pipeline _ _ _ _ Hacc Hinit)
      as (files & w2 & Hall & Hmain).
    exists g, (printed [ports_summary files] w2).
    rewrite ports_init_accepted by exact Hacc. fold g.
    split; [exact Hinit |]. split; [exact Hmain |].
    rewrite ports_generate_all_spec in Hall.
    assert (Hfiles : files = List.filter truthy
                               (map (ports_result available pipeline g) ports_order))
      by congruence.
    assert (Hw2 : w2 = batch_world available pipeline (fun k => ports_diagram k g)
                         (ports_line available pipeline g) ports_order w1)
      by congruence.
    clear Hall. cbv zeta. split; [apply (filter_length_le _ ports_order) |].
    cbn [printed stdout]. rewrite Hw2, batch_world_stdout, Hout, <- app_assoc.
    do 2 f_equal. unfold ports_summary. rewrite Hfiles.
    unfold ports_result.
    rewrite (results_are_rendered_paths available pipeline
               (fun k => ports_diagram k g) (fun k => ports_output_file k g))
      by (intros k; apply ports_output_file_nonempty).
    rewrite length_map.
    destruct (List.filter _ ports_order); reflexivity.
Qed.

(** ** What the command line lets through *)

(** On a command line that [argparse] accepts, the values of [--output]
    and [--detail] are already normalised: the constructor call that
    [main] makes stores them as given and prints no warning, so the
    fall-back to a default cannot be reached from the command line. *)
Theorem accepted_command_line_never_warns (command_line : argv) (w : World) :
  (forallb (arg_accepted C4.declared) command_line = true ->
   C4.__init__ (py_or (last_value "dir" command_line) "docs/diagrams")
               (default "png" (last_value "output" command_line)) w
   = then_mkdir (requested_dir command_line)
       (C4.mkGenerator (default "png" (last_value "output" command_line))
                       (requested_dir command_line)) w)
  /\ (forallb (arg_accepted Ports.declared) command_line = true ->
      Ports.__init__ (py_or (last_value "dir" command_line) "docs/diagrams")
                     (default "svg" (last_value "output" command_line))
                     (default "medium" (last_value "detail" command_line)) w
      = then_mkdir (requested_dir command_line)
          (Ports.mkGenerator (default "svg" (last_value "output" command_line))
                             (default "medium" (last_value "detail" command_line))
                             (requested_dir command_line)) w).
Proof.
  split; intros Hacc; [now apply c4_init_accepted | now apply ports_init_accepted].
Qed.

Lemma last_value_remove_same (flag : string) (command_line : argv) :
  last_value flag (remove_flag flag command_line) = None.
Proof.
  induction command_line as [|[f v] rest IH]; [reflexivity |].
  unfold remove_flag in *. simpl.
  destruct (String.eqb_spec f flag) as [-> | Hne]; simpl; [exact IH |].
  rewrite IH. now apply String.eqb_neq in Hne as ->.
Qed.

Lemma last_value_remove_other (flag other : string) (command_line : argv) :
  other <> flag ->
  last_value other (remove_flag flag command_line) = last_value other command_line.
Proof.
  intros Hne. induction command_line as [|[f v] rest IH]; [reflexivity |].
  unfold remove_flag in *. simpl.
  destruct (String.eqb_spec f flag) as [-> | Hf]; simpl; rewrite IH; [| reflexivity].
  destruct (last_value other rest); [reflexivity |].
  apply not_eq_sym, String.eqb_neq in Hne. now rewrite Hne.
Qed.

Lemma accepted_remove_free_flag (declared : list (string * option (list string)))
    (flag : string) (command_line : argv) :
  (forall v, arg_accepted declared (flag, v) = true) ->
  forallb (arg_accepted declared) (remove_flag flag command_line)
  = forallb (arg_accepted declared) command_line.
Proof.
  intros Hfree. induction command_line as [|[f v] rest IH]; [reflexivity |].
  unfold remove_flag in *. simpl.
  destruct (String.eqb_spec f flag) as [-> | Hf]; simpl; rewrite IH.
  - now rewrite Hfree.
  - reflexivity.
Qed.

Lemma mret_bind {A C} (a : A) (f : A -> M C) (w : World) :
  (mret a ≫= f) w = f a w.
Proof. reflexivity. Qed.

(** An empty [--dir] value counts as no [--dir] at all: both scripts run
    as they do on the command line with every [--dir] taken out, in the
    default directory. *)
Theorem empty_dir_is_default (available : bool)
    (pipeline : Diagram -> render_outcome) (command_line : argv) (w : World) :
  last_value "dir" command_line = Some "" ->
  requested_dir command_line = Path_of "docs/diagrams"
  /\ C4.main available pipeline command_line w
     = C4.main available pipeline (remove_flag "dir" command_line) w
  /\ Ports.main available pipeline command_line w
     = Ports.main available pipeline (remove_flag "dir" command_line) w.
Proof.
  intros Hdir. split; [unfold requested_dir; now rewrite Hdir |]. split.
  - unfold C4.main, C4.parse_args.
    rewrite accepted_remove_free_flag by (intros v; reflexivity).
    rewrite last_value_remove_same, !last_value_remove_other by discriminate.
    rewrite Hdir.
    destruct (forallb (arg_accepted C4.declared) command_line); [| reflexivity].
    rewrite !mret_bind. reflexivity.
  - unfold Ports.main, Ports.parse_args.
    rewrite accepted_remove_free_flag by (intros v; reflexivity).
    rewrite last_value_remove_same, !last_value_remove_other by discriminate.
    rewrite Hdir.
    destruct (forallb (arg_accepted Ports.declared) command_line); [| reflexivity].
    rewrite !mret_bind. reflexivity.
Qed.

(** ** The specifications are well formed *)

Lemma distinct_ids_NoDup (l : list nat) : distinct_ids l = true -> List.NoDup l.
Proof.
  induction l as [|x l IH]; intros H; [constructor |].
  simpl in H. apply andb_prop in H as [Hx Hl]. constructor; [| now apply IH].
  intros Hin. apply negb_true_iff in Hx.
  assert (E : existsb (Nat.eqb x) l = true)
    by (apply existsb_exists; exists x; split; [exact Hin | apply Nat.eqb_refl]).
  congruence.
Qed.

Lemma well_formed_spec (d : Diagram) :
  well_formed d = true ->
  (forall e, In e (d_edges d) ->
             In (e_tail e) (diagram_nodes d) /\ In (e_head e) (diagram_nodes d))
  /\ List.NoDup (map node_id (diagram_nodes d)).
Proof.
  unfold well_formed, edges_closed. intros H. apply andb_prop in H as [He Hi].
  split; [| now apply distinct_ids_NoDup].
  intros e Hin. rewrite forallb_forall in He. specialize (He e Hin).
  apply andb_prop in He as [Ht Hh]. split; now apply node_in_In.
Qed.

Lemma c4_diagram_well_formed (k : c4_kind) (self : C4.C4DiagramGenerator) :
  well_formed (c4_diagram k self) = true.
Proof. destruct k; vm_compute; reflexivity. Qed.

Lemma ports_diagram_well_formed (k : ports_kind)
    (self : Ports.PortInterfaceDiagramGenerator) :
  well_formed (ports_diagram k self) = true.
Proof.
  destruct k; try (vm_compute; reflexivity).
  destruct (String.eqb_spec (Ports.detail_level self) "high") as [E | E].
  - rewrite (detailed_high self E). vm_compute. reflexivity.
  - rewrite (detailed_not_high self E). vm_compute. reflexivity.
Qed.

(** In each of the nine specifications, at any detail level, every edge
    joins two nodes declared in that same specification, and no two
    nodes share an identifier. *)
Theorem diagrams_have_no_dangling_edges :
  (forall (k : c4_kind) (self : C4.C4DiagramGenerator),
      (forall e, In e (d_edges (c4_diagram k self)) ->
                 In (e_tail e) (diagram_nodes (c4_diagram k self))
                 /\ In (e_head e) (diagram_nodes (c4_diagram k self)))
      /\ List.NoDup (map node_id (diagram_nodes (c4_diagram k self))))
  /\ (forall (k : ports_kind) (self : Ports.PortInterfaceDiagramGenerator),
         (forall e, In e (d_edges (ports_diagram k self)) ->
                    In (e_tail e) (diagram_nodes (ports_diagram k self))
                    /\ In (e_head e) (diagram_nodes (ports_diagram k self)))
         /\ List.NoDup (map node_id (diagram_nodes (ports_diagram k self)))).
Proof.
  split; intros k self; apply well_formed_spec.
  - apply c4_diagram_well_formed.
  - apply ports_diagram_well_formed.
Qed.

(** ** Running without the rendering library *)

Lemma c4_import_unavailable (w : World) :
  C4.import_module false w = (Ret tt, printed import_warning w).
Proof.
  unfold C4.import_module.
  do 4 (erewrite bind_ret by apply print_spec).
  rewrite print_spec, !printed_app. reflexivity.
Qed.

Lemma ports_import_unavailable (w : World) :
  Ports.import_module false w = (Ret tt, printed import_warning w).
Proof.
  unfold Ports.import_module.
  do 4 (erewrite bind_ret by apply print_spec).
  rewrite print_spec, !printed_app. reflexivity.
Qed.

Lemma c4_line_unavailable (pipeline : Diagram -> render_outcome)
    (g : C4.C4DiagramGenerator) (k : c4_kind) :
  c4_line false pipeline g k = c4_unavailable k.
Proof. reflexivity. Qed.

Lemma ports_line_unavailable (pipeline : Diagram -> render_outcome)
    (g : Ports.PortInterfaceDiagramGenerator) (k : ports_kind) :
  ports_line false pipeline g k = ports_unavailable k.
Proof. reflexivity. Qed.

Lemma ports_results_unavailable (pipeline : Diagram -> render_outcome)
    (g : Ports.PortInterfaceDiagramGenerator) (order : list ports_kind) :
  List.filter truthy (map (ports_result false pipeline g) order) = [].
Proof. induction order as [|k order IH]; [reflexivity | exact IH]. Qed.

Lemma c4_main_without_library (pipeline : Diagram -> render_outcome)
    (command_line : argv) (w w1 : World) (g : C4.C4DiagramGenerator) :
  forallb (arg_accepted C4.declared) command_line = true ->
  then_mkdir (requested_dir command_line)
    (C4.mkGenerator (default "png" (last_value "output" command_line))
                    (requested_dir command_line)) w = (Ret g, w1) ->
  C4.main false pipeline command_line w
  = (Ret tt,
     printed (c4_lines_without_library
                (default "all" (last_value "type" command_line))) w1).
Proof.
  intros Hacc Hinit.
  rewrite (c4_main_after_init false pipeline _ _ _ _ Hacc Hinit). cbv zeta.
  unfold c4_lines_without_library, c4_kind_of_type.
  repeat match goal with
         | |- context [if String.eqb ?a ?b then _ else _] =>
             destruct (String.eqb a b);
             [first [ rewrite c4_method_then_ret; unfold call_world;
                      rewrite c4_line_unavailable; reflexivity
                    | apply print_spec ] |]
         end.
  erewrite bind_ret by apply c4_generate_all_spec.
  rewrite batch_world_unavailable. reflexivity.
Qed.

(** With the rendering library missing, either script still returns
    normally on a command line that [argparse] accepts and with an
    output directory whose creation returns, and it still creates that
    directory; it hands nothing to the pipeline and writes no file: the
    file system is as the directory creation left it.  Its output is
    the import warning, then one library-not-available line per kind
    attempted (or the redirection, for [--type port]), then, in script
    B, the failure message. *)
Theorem scripts_without_library (pipeline : Diagram -> render_outcome)
    (command_line : argv) (w w1 : World) :
  mkdir (requested_dir command_line) w = (Ret tt, w1) ->
  (forallb (arg_accepted C4.declared) command_line = true ->
   exists w',
     C4.script false pipeline command_line w = (Ret tt, w')
     /\ stdout w'
        = stdout w ++ import_warning
          ++ c4_lines_without_library (default "all" (last_value "type" command_line))
     /\ pipeline_calls w' = pipeline_calls w
     /\ fs w' = fs w1
     /\ no_new_files w w'
     /\ directory_created (requested_dir command_line) w w')
  /\ (forallb (arg_accepted Ports.declared) command_line = true ->
      exists w',
        Ports.script false pipeline command_line w = (Ret tt, w')
        /\ stdout w'
           = stdout w ++ import_warning ++ map ports_unavailable ports_order
             ++ ["Failed to generate port interface diagrams"]
        /\ pipeline_calls w' = pipeline_calls w
        /\ fs w' = fs w1
        /\ no_new_files w w'
        /\ directory_created (requested_dir command_line) w w').
Proof.
  intros Hdir. split; intros Hacc.
  - destruct (then_mkdir_spec (requested_dir command_line)
                (C4.mkGenerator (default "png" (last_value "output" command_line))
                                (requested_dir command_line))
                import_warning w w1 Hdir)
      as (Hinit & Hout & (Hdirs & Hsub & Hcalls) & Hfiles & _).
    eexists. unfold C4.script.
    erewrite bind_ret by apply c4_import_unavailable.
    rewrite (c4_main_without_library pipeline _ _ _ _ Hacc Hinit).
    split; [reflexivity |]. cbn [printed stdout fs pipeline_calls].
    split; [rewrite Hout; now rewrite <- app_assoc |].
    split; [exact Hcalls |]. split; [reflexivity |]. split; [exact Hfiles |].
    split; [exact Hdirs | split; [exact Hsub | exact Hcalls]].
  - pose (g := Ports.mkGenerator (default "svg" (last_value "output" command_line))
                 (default "medium" (last_value "detail" command_line))
                 (requested_dir command_line)).
    destruct (then_mkdir_spec (requested_dir command_line) g
                import_warning w w1 Hdir)
      as (Hinit & Hout & (Hdirs & Hsub & Hcalls) & Hfiles & _).
    destruct (ports_main_after_init false pipeline _ _ _ _ Hacc Hinit)
      as (files & w2 & Hall & Hmain).
    rewrite ports_generate_all_spec, batch_world_unavailable,
      ports_results_unavailable in Hall.
    assert (Hf : files = []) by congruence.
    assert (Hw2 : w2 = printed (map (ports_line false pipeline g) ports_order)
                         (printed import_warning w1))
      by congruence.
    subst files w2. clear Hall.
    eexists. unfold Ports.script.
    erewrite bind_ret by apply ports_import_unavailable.
    rewrite Hmain. split; [reflexivity |]. cbn [printed stdout fs pipeline_calls].
    split.
    { rewrite Hout. now rewrite <- !app_assoc. }
    split; [exact Hcalls |]. split; [reflexivity |]. split; [exact Hfiles |].
    split; [exact Hdirs | split; [exact Hsub | exact Hcalls]].
Qed.

(** ** When the output directory cannot be created *)

(** When the creation of the output directory raises, what it raises is
    an [OSError] (or, for a path that holds a NUL byte, the
    [ValueError] of [os.mkdir]), and the constructor lets that very
    error through: it returns no generator, and the normalisation
    warnings have been printed by then.  [main] does not catch it
    either: on a command line that [argparse] accepts, the same error
    leaves [main] before any line is printed and before anything is
    handed to the pipeline. *)
Theorem obstructed_directory_stops_construction (available : bool)
    (pipeline : Diagram -> render_outcome) :
  (forall dir fmt detail w w1 e,
      mkdir (Path_of dir) w = (Raise e, w1) ->
      (is_OSError e = true \/ e = ValueError "embedded null byte")
      /\ C4.__init__ dir fmt w
         = (Raise e, printed (format_warnings fmt "png") w1)
      /\ Ports.__init__ dir fmt detail w
         = (Raise e, printed (format_warnings fmt "svg" ++ detail_warnings detail) w1)
      /\ stdout w1 = stdout w
      /\ pipeline_calls w1 = pipeline_calls w)
  /\ (forall command_line w w1 e,
         mkdir (requested_dir command_line) w = (Raise e, w1) ->
         (forallb (arg_accepted C4.declared) command_line = true ->
          C4.main available pipeline command_line w = (Raise e, w1))
         /\ (forallb (arg_accepted Ports.declared) command_line = true ->
             Ports.main available pipeline command_line w = (Raise e, w1))
         /\ stdout w1 = stdout w
         /\ pipeline_calls w1 = pipeline_calls w).
Proof.
  split.
  - intros dir fmt detail w w1 e H.
    destruct (mkdir_raises _ _ _ _ H) as (He & Hout & Hcalls).
    split; [exact He |]. rewrite c4_init_spec, ports_init_spec.
    split; [now apply then_mkdir_raises |].
    split; [now apply then_mkdir_raises | split; assumption].
  - intros command_line w w1 e H.
    destruct (mkdir_raises _ _ _ _ H) as (_ & Hout & Hcalls).
    split; [| split; [| split; assumption]]; intros Hacc.
    + apply (c4_main_init_raises available pipeline _ _ _ _ Hacc).
      now apply then_mkdir_fails.
    + apply (ports_main_init_raises available pipeline _ _ _ _ Hacc).
      now apply then_mkdir_fails.
Qed.

(** ** Flags left out *)

Lemma last_value_app_one (flag f v : string) (command_line : argv) :
  last_value flag (command_line ++ [(f, v)])
  = if String.eqb f flag then Some v else last_value flag command_line.
Proof.
  induction command_line as [|[f' v'] rest IH]; simpl.
  - reflexivity.
  - rewrite IH. destruct (String.eqb f flag); [reflexivity |].
    reflexivity.
Qed.

Lemma accepted_app_one (declared : list (string * option (list string)))
    (a : string * string) (command_line : argv) :
  arg_accepted declared a = true ->
  forallb (arg_accepted declared) (command_line ++ [a])
  = forallb (arg_accepted declared) command_line.
Proof.
  intros H. rewrite forallb_app. simpl. rewrite H. now rewrite !andb_true_r.
Qed.

(** A flag that is left out acts as its declared default: script A
    without [--type] runs as with [--type all] and without [--output]
    as with [--output png]; script B without [--output] runs as with
    [--output svg] and without [--detail] as with [--detail medium]. *)
Theorem omitted_flags_take_defaults (available : bool)
    (pipeline : Diagram -> render_outcome) (command_line : argv) (w : World) :
  (last_value "type" command_line = None ->
   C4.main available pipeline command_line w
   = C4.main available pipeline (command_line ++ [("type", "all")]) w)
  /\ (last_value "output" command_line = None ->
      C4.main available pipeline command_line w
      = C4.main available pipeline (command_line ++ [("output", "png")]) w
      /\ Ports.main available pipeline command_line w
         = Ports.main available pipeline (command_line ++ [("output", "svg")]) w)
  /\ (last_value "detail" command_line = None ->
      Ports.main available pipeline command_line w
      = Ports.main available pipeline (command_line ++ [("detail", "medium")]) w).
Proof.
  split; [| split]; [intros H | intros H; split | intros H];
    unfold C4.main, C4.parse_args, Ports.main, Ports.parse_args;
    rewrite accepted_app_one by reflexivity;
    rewrite !last_value_app_one; cbn [String.eqb Ascii.eqb Bool.eqb];
    rewrite H; reflexivity.
Qed.

(** ** The further properties at concrete inputs *)

(** A request for [BMP] ends in a generator that holds [png]. *)
Lemma constructed_generator_normalized_witness :
  let g := C4.mkGenerator "png" (Path_of "out") in
  let w' := snd (C4.__init__ "out" "BMP" empty_world) in
  C4.__init__ "out" "BMP" empty_world = (Ret g, w')
  /\ py_in (C4.output_format g) format_domain = true
  /\ C4.output_dir g = Path_of "out".
Proof.
  intros g w'.
  assert (H : C4.__init__ "out" "BMP" empty_world = (Ret g, w'))
    by (vm_compute; reflexivity).
  split; [exact H |].
  exact (proj1 (constructed_generator_normalized "out" "BMP" "low" empty_world w')
           g H).
Defined.

(** The context diagram of a [png] generator in [docs/diagrams]. *)
Lemma image_path_is_returned_path_witness :
  let self := C4.mkGenerator "png" (Path_of "docs/diagrams") in
  py_in (C4.output_format self) format_domain = true
  /\ d_filename (c4_diagram Context self) +:+ "." +:+ d_outformat (c4_diagram Context self)
     = str (c4_output_file Context self).
Proof.
  intros self.
  assert (H : py_in (C4.output_format self) format_domain = true) by reflexivity.
  split; [exact H |].
  exact (proj1 image_path_is_returned_path self Context H).
Defined.

(** One successful call of the context method on an empty file system. *)
Lemma returned_paths_are_written_witness :
  let ok := fun _ : Diagram => Rendered in
  let self := C4.mkGenerator "png" (Path_of "docs/diagrams") in
  let s := "docs/diagrams/samstraumr_context_diagram.png" in
  let w' := snd (c4_method true ok Context self empty_world) in
  py_in (C4.output_format self) format_domain = true
  /\ c4_method true ok Context self empty_world = (Ret s, w')
  /\ s <> ""
  /\ fs w' !! path_key (Path_of s) = Some File.
Proof.
  intros ok self s w'.
  assert (Hfmt : py_in (C4.output_format self) format_domain = true) by reflexivity.
  assert (Hrun : c4_method true ok Context self empty_world = (Ret s, w'))
    by (vm_compute; reflexivity).
  assert (Hs : s <> "") by discriminate.
  split; [exact Hfmt |]. split; [exact Hrun |]. split; [exact Hs |].
  exact (proj1 (proj1 (returned_paths_are_written true ok) self empty_world w' Hfmt)
           Context s Hrun Hs).
Defined.

(** A [png] architecture generator and an [svg] port-interface
    generator in the same directory. *)
Lemma output_paths_distinct_witness :
  let a := C4.mkGenerator "png" (Path_of "docs/diagrams") in
  let b := Ports.mkGenerator "svg" "medium" (Path_of "docs/diagrams") in
  py_in (C4.output_format a) format_domain = true
  /\ py_in (Ports.output_format b) format_domain = true
  /\ C4.output_dir a = Ports.output_dir b
  /\ List.NoDup (map (fun k => str (c4_output_file k a)) c4_order
                 ++ map (fun k => str (ports_output_file k b)) ports_order).
Proof.
  intros a b.
  split; [reflexivity |]. split; [reflexivity |]. split; [reflexivity |].
  exact (output_paths_distinct a b eq_refl eq_refl eq_refl).
Defined.

(** [--type code] on an empty file system, with a failing pipeline. *)
Lemma single_kind_runs_one_method_witness :
  let failing := fun _ : Diagram => Failed "dot not found" in
  let command_line := [("type", "code")] in
  let w1 := snd (mkdir (requested_dir command_line) empty_world) in
  forallb (arg_accepted C4.declared) command_line = true
  /\ last_value "type" command_line = Some "code"
  /\ c4_kind_of_type "code" = Some Code
  /\ mkdir (requested_dir command_line) empty_world = (Ret tt, w1)
  /\ exists g w',
      C4.__init__ "docs/diagrams" "png" empty_world = (Ret g, w1)
      /\ c4_method true failing Code g w1 = (Ret (c4_result true failing g Code), w')
      /\ C4.main true failing command_line empty_world = (Ret tt, w')
      /\ stdout w' = stdout empty_world ++ [c4_line true failing g Code]
      /\ pipeline_calls w' = pipeline_calls empty_world ++ [c4_diagram Code g].
Proof.
  intros failing command_line w1.
  assert (Hacc : forallb (arg_accepted C4.declared) command_line = true)
    by (vm_compute; reflexivity).
  assert (Hdir : mkdir (requested_dir command_line) empty_world = (Ret tt, w1))
    by (vm_compute; reflexivity).
  split; [exact Hacc |]. split; [reflexivity |]. split; [reflexivity |].
  split; [exact Hdir |].
  exact (single_kind_runs_one_method true failing command_line empty_world w1
           "code" Code Hacc eq_refl eq_refl Hdir).
Defined.

(** Script B with no flags, the integration diagram failing to render. *)
Lemma batch_returns_rendered_paths_witness :
  let pipeline := fun d : Diagram =>
    if String.eqb (d_name d) "Samstraumr Port Integration Patterns"
    then Failed "dot not found" else Rendered in
  let w1 := snd (mkdir (requested_dir []) empty_world) in
  forallb (arg_accepted Ports.declared) [] = true
  /\ mkdir (requested_dir []) empty_world = (Ret tt, w1)
  /\ exists g w',
      Ports.__init__ "docs/diagrams" "svg" "medium" empty_world = (Ret g, w1)
      /\ Ports.main true pipeline [] empty_world = (Ret tt, w')
      /\ let n :=
           length (List.filter
                     (fun k => true && is_rendered (pipeline (ports_diagram k g)))
                     ports_order) in
         n <= 4
         /\ stdout w'
            = stdout empty_world ++ map (ports_line true pipeline g) ports_order
              ++ [match n with
                  | 0 => "Failed to generate port interface diagrams"
                  | S _ => "Generated " +:+ Ports.decimal n
                           +:+ " port interface diagrams"
                  end].
Proof.
  intros pipeline w1.
  assert (Hdir : mkdir (requested_dir []) empty_world = (Ret tt, w1))
    by (vm_compute; reflexivity).
  split; [reflexivity |]. split; [exact Hdir |].
  exact (proj2 (proj2 (batch_returns_rendered_paths true pipeline))
           [] empty_world w1 eq_refl Hdir).
Defined.

(** [--output svg] reaches the constructor as [svg], without warning. *)
Lemma accepted_command_line_never_warns_witness :
  let command_line := [("output", "svg")] in
  forallb (arg_accepted C4.declared) command_line = true
  /\ C4.__init__ "docs/diagrams" "svg" empty_world
     = then_mkdir (requested_dir command_line)
         (C4.mkGenerator "svg" (requested_dir command_line)) empty_world.
Proof.
  intros command_line.
  assert (Hacc : forallb (arg_accepted C4.declared) command_line = true)
    by (vm_compute; reflexivity).
  split; [exact Hacc |].
  exact (proj1 (accepted_command_line_never_warns command_line empty_world) Hacc).
Defined.

(** [--dir ""] runs as no [--dir]. *)
Lemma empty_dir_is_default_witness :
  let ok := fun _ : Diagram => Rendered in
  let command_line := [("dir", ""); ("type", "port")] in
  last_value "dir" command_line = Some ""
  /\ requested_dir command_line = Path_of "docs/diagrams"
  /\ C4.main true ok command_line empty_world
     = C4.main true ok [("type", "port")] empty_world.
Proof.
  intros ok command_line.
  assert (H : last_value "dir" command_line = Some "") by reflexivity.
  split; [exact H |].
  destruct (empty_dir_is_default true ok command_line empty_world H) as (Hd & Ha & _).
  split; [exact Hd | exact Ha].
Defined.

(** Script B with no flags and no library. *)
Lemma scripts_without_library_witness :
  let ok := fun _ : Diagram => Rendered in
  let w1 := snd (mkdir (requested_dir []) empty_world) in
  mkdir (requested_dir []) empty_world = (Ret tt, w1)
  /\ forallb (arg_accepted Ports.declared) [] = true
  /\ exists w',
      Ports.script false ok [] empty_world = (Ret tt, w')
      /\ stdout w'
         = stdout empty_world ++ import_warning ++ map ports_unavailable ports_order
           ++ ["Failed to generate port interface diagrams"]
      /\ pipeline_calls w' = pipeline_calls empty_world
      /\ fs w' = fs w1
      /\ no_new_files empty_world w'
      /\ directory_created (requested_dir []) empty_world w'.
Proof.
  intros ok w1.
  assert (Hdir : mkdir (requested_dir []) empty_world = (Ret tt, w1))
    by (vm_compute; reflexivity).
  split; [exact Hdir |]. split; [reflexivity |].
  exact (proj2 (scripts_without_library ok [] empty_world w1 Hdir) eq_refl).
Defined.

(** [docs] is a regular file, and [docs/diagrams] is requested; and a
    directory name of 300 bytes with [--type port]. *)
Lemma obstructed_directory_stops_construction_witness :
  let ok := fun _ : Diagram => Rendered in
  let w := mkWorld [] {[("", ["docs"]) := File]} [] in
  let e := NotADirectoryError "docs/diagrams" in
  let long := [("type", "port"); ("dir", over_long_name)] in
  let e36 := OSError 36 "File name too long" over_long_name in
  mkdir (requested_dir []) w = (Raise e, w)
  /\ forallb (arg_accepted C4.declared) [] = true
  /\ C4.main true ok [] w = (Raise e, w)
  /\ mkdir (requested_dir long) empty_world = (Raise e36, empty_world)
  /\ forallb (arg_accepted C4.declared) long = true
  /\ C4.main true ok long empty_world = (Raise e36, empty_world).
Proof.
  intros ok w e long e36.
  assert (Hdir : mkdir (requested_dir []) w = (Raise e, w))
    by (vm_compute; reflexivity).
  assert (H36 : mkdir (requested_dir long) empty_world = (Raise e36, empty_world))
    by (vm_compute; reflexivity).
  assert (Hlong : forallb (arg_accepted C4.declared) long = true)
    by (vm_compute; reflexivity).
  split; [exact Hdir |]. split; [reflexivity |].
  split; [exact (proj1 (proj2 (obstructed_directory_stops_construction true ok)
                          [] w w e Hdir) eq_refl) |].
  split; [exact H36 |]. split; [exact Hlong |].
  exact (proj1 (proj2 (obstructed_directory_stops_construction true ok)
                  long empty_world empty_world e36 H36) Hlong).
Defined.

(** The empty command line of script A is [--type all]. *)
Lemma omitted_flags_take_defaults_witness :
  let ok := fun _ : Diagram => Rendered in
  last_value "type" [] = None
  /\ C4.main true ok [] empty_world = C4.main true ok [("type", "all")] empty_world.
Proof.
  intros ok. split; [reflexivity |].
  exact (proj1 (omitted_flags_take_defaults true ok [] empty_world) eq_refl).
Defined.
